(** * mcp-opsgenie: the OpsGenie HTTP client and the MCP handlers built on it

    A shallow embedding of [src/opsgenie-client.ts] (class [OpsGenieClient])
    and of the resource and tool handlers registered in [src/index.ts].

    Modelling conventions.
    - A JavaScript string is a [string] of bytes, read as the UTF-8 encoding
      of its text, so that [encodeURIComponent] and the form-urlencoded
      serialiser work byte by byte as they do on the wire. A string that
      holds a lone surrogate has no UTF-8 encoding; it is given by the same
      encoding scheme applied to the surrogate, three bytes ED A0..BF 80..BF
      that [Utf8.well_formed] rejects; bytes that are ill-formed in another
      way stand for no string. [encodeURIComponent] throws a URIError on a
      string with a lone surrogate: [Method] has the operations of the
      client with that failure, [OpsGenieClient] has them for an identifier
      that encodes.
    - A JavaScript [number] that a caller chooses, an offset or a limit, is a
      [Number.t]: an integer, a fraction, an infinity or NaN, with
      [String(n)] as ECMAScript defines it. The counts, indices and HTTP
      statuses that the remote or the program produce are integers ([Z]),
      and [String(n)] of such an integer is its decimal expansion.
    - An [async] function is a computation in the monad [M]: it records the
      [fetch] calls it issues and either throws a value or returns one.
    - The remote service is an oracle [Fetch T], typed by the response type
      [T] that [request<T>] casts the JSON body to. *)

From Stdlib Require Import ZArith Ascii String List Lia DecimalString.
From stdpp Require Import base gmap strings list.

Set Warnings "-register-all".

Local Open Scope Z_scope.

(** ** Strings *)

Module Str.

Definition ascii_eqb (a b : ascii) : bool := Ascii.eqb a b.

Definition code (a : ascii) : N := N_of_ascii a.

(** The one-character strings holding a double quote and a line feed. *)
Definition dquote : string := String (ascii_of_N 34) EmptyString.
Definition newline : string := String (ascii_of_N 10) EmptyString.

(** [s.includes(t)], as a proposition. *)
Definition includes (s t : string) : Prop :=
  exists pre post : string, s = pre +:+ t +:+ post.

(** [s.endsWith(t)], as a proposition. *)
Definition endsWith (s t : string) : Prop :=
  exists pre : string, s = pre +:+ t.

(** Whether the byte [c] occurs in [s]. *)
Fixpoint has_byte (c : ascii) (s : string) : bool :=
  match s with
  | EmptyString => false
  | String a r => ascii_eqb a c || has_byte c r
  end.

(** [String.prototype.split] on a one-byte separator. *)
Fixpoint split (sep : ascii) (s : string) : list string :=
  match s with
  | EmptyString => [EmptyString]
  | String a r =>
      if ascii_eqb a sep then EmptyString :: split sep r
      else match split sep r with
           | h :: t => String a h :: t
           | [] => [String a EmptyString]
           end
  end.

(** [Array.prototype.join] on an array of strings. *)
Fixpoint join (sep : string) (l : list string) : string :=
  match l with
  | [] => EmptyString
  | [x] => x
  | x :: r => x +:+ sep +:+ join sep r
  end.

(** The part of [s] before the first [sep], and the part after it if
    [sep] occurs. *)
Fixpoint cut (sep : ascii) (s : string) : string * option string :=
  match s with
  | EmptyString => (EmptyString, None)
  | String a r =>
      if ascii_eqb a sep then (EmptyString, Some r)
      else let '(h, t) := cut sep r in (String a h, t)
  end.

(** [s.startsWith(p)], returning the rest of [s]. *)
Fixpoint strip_prefix (p s : string) : option string :=
  match p, s with
  | EmptyString, _ => Some s
  | String a p', String b s' =>
      if ascii_eqb a b then strip_prefix p' s' else None
  | String _ _, EmptyString => None
  end.

(** [String(n)] for an integer [n]. *)
Definition of_Z (n : Z) : string := NilZero.string_of_int (Z.to_int n).

(** [String(n)] for a length or an index. *)
Definition of_nat (n : nat) : string := of_Z (Z.of_nat n).

(** The white space class [\s] of a JavaScript regular expression, on the
    UTF-8 encoding: TAB, LF, VT, FF, CR, SP, then U+00A0, U+1680,
    U+2000..U+200A, U+2028, U+2029, U+202F, U+205F, U+3000 and U+FEFF. *)
Definition ws1 (a : ascii) : bool :=
  let n := code a in
  ((9 <=? n) && (n <=? 13) || (n =? 32))%N.

Definition ws2 (a b : ascii) : bool :=
  ((code a =? 194) && (code b =? 160))%N.

Definition ws3 (a b c : ascii) : bool :=
  let x := code a in
  let y := code b in
  let z := code c in
  ((x =? 225) && (y =? 154) && (z =? 128)
   || (x =? 226) && (y =? 128)
      && ((128 <=? z) && (z <=? 138) || (z =? 168) || (z =? 169) || (z =? 175))
   || (x =? 226) && (y =? 129) && (z =? 159)
   || (x =? 227) && (y =? 128) && (z =? 128)
   || (x =? 239) && (y =? 187) && (z =? 191))%N.

(** Whether [s] starts with a character of [\s]. *)
Definition starts_with_ws (s : string) : bool :=
  match s with
  | String a (String b (String c _)) => ws1 a || ws2 a b || ws3 a b c
  | String a (String b EmptyString) => ws1 a || ws2 a b
  | String a EmptyString => ws1 a
  | EmptyString => false
  end.

(** [s] without the longest prefix matched by [\s*]. *)
Fixpoint drop_ws (s : string) : string :=
  match s with
  | EmptyString => s
  | String a r =>
      if ws1 a then drop_ws r
      else match r with
           | EmptyString => s
           | String b r2 =>
               if ws2 a b then drop_ws r2
               else match r2 with
                    | EmptyString => s
                    | String c r3 => if ws3 a b c then drop_ws r3 else s
                    end
           end
  end.

(** The first [n] bytes of [s], and the rest. *)
Fixpoint take (n : nat) (s : string) : string :=
  match n, s with
  | S m, String a r => String a (take m r)
  | _, _ => EmptyString
  end.

Fixpoint drop (n : nat) (s : string) : string :=
  match n, s with
  | S m, String _ r => drop m r
  | _, _ => s
  end.

(** [n] times the digit zero. *)
Fixpoint zeros (n : nat) : string :=
  match n with
  | O => EmptyString
  | S m => String "0" (zeros m)
  end.

(** [s] without the zeros it ends with. *)
Fixpoint drop_trailing_zeros (s : string) : string :=
  match s with
  | EmptyString => EmptyString
  | String a r =>
      match drop_trailing_zeros r with
      | EmptyString => if ascii_eqb a "0" then EmptyString else String a EmptyString
      | r' => String a r'
      end
  end.

End Str.

(** ** Numbers *)

Module Number.

(** A JavaScript number: NaN, an infinity, zero, or a finite number given
    by its sign and by the decimal [s * 10^e] that ECMAScript's
    [Number::toString] reads off it: the digits of [s], without the zeros
    they end with, are the shortest decimal digits that identify the
    number. *)
Inductive t : Type :=
| NaN
| Infinity (negative : bool)
| Zero
| Finite (negative : bool) (s : positive) (e : Z).

(** The number of an integer. *)
Definition of_Z (n : Z) : t :=
  match n with
  | Z0 => Zero
  | Zpos p => Finite false p 0
  | Zneg p => Finite true p 0
  end.

(** ECMAScript's [Number::toString] in radix 10 for a positive finite
    number, from the digits [all] of [s] and the exponent [e]. With [ds]
    the digits without trailing zeros, [k] their count, and [n] such that
    the value is [0.ds * 10^n]: the digits followed by zeros when
    [k <= n <= 21]; the digits with a decimal point inside when
    [0 < n <= 21]; [0.] and zeros before the digits when [-6 < n <= 0];
    and the exponent notation otherwise. *)
Definition toString_finite (all : string) (e : Z) : string :=
  let ds := Str.drop_trailing_zeros all in
  let k := Z.of_nat (String.length ds) in
  let n := Z.of_nat (String.length all) + e in
  if (k <=? n) && (n <=? 21) then ds +:+ Str.zeros (Z.to_nat (n - k))
  else if (0 <? n) && (n <=? 21) then
    Str.take (Z.to_nat n) ds +:+ "." +:+ Str.drop (Z.to_nat n) ds
  else if (-6 <? n) && (n <=? 0) then
    "0." +:+ Str.zeros (Z.to_nat (- n)) +:+ ds
  else
    (if k =? 1 then ds else Str.take 1 ds +:+ "." +:+ Str.drop 1 ds)
    +:+ "e" +:+ (if n - 1 <? 0 then "-" else "+")
    +:+ Str.of_Z (Z.abs (n - 1)).

(** [String(x)] *)
Definition toString (x : t) : string :=
  match x with
  | NaN => "NaN"
  | Infinity false => "Infinity"
  | Infinity true => "-Infinity"
  | Zero => "0"
  | Finite negative s e =>
      (if negative then "-" else EmptyString)
      +:+ toString_finite (Str.of_Z (Zpos s)) e
  end.

(** A finite number as a fraction, the denominator a power of ten. *)
Definition fraction (x : t) : option (Z * Z) :=
  match x with
  | Zero => Some (0, 1)
  | Finite negative s e =>
      let m := if negative then Zneg s else Zpos s in
      Some (if 0 <=? e then (m * 10 ^ e, 1) else (m, 10 ^ (- e)))
  | _ => None
  end.

(** [lo <= x <= hi], which no NaN and no infinity satisfies. *)
Definition within (lo hi : Z) (x : t) : bool :=
  match fraction x with
  | Some (p, q) => (lo * q <=? p) && (p <=? hi * q)
  | None => false
  end.

End Number.

(** ** URI encoding, query strings and URLs *)

Module Uri.

Definition is_digit (a : ascii) : bool :=
  let n := Str.code a in ((48 <=? n) && (n <=? 57))%N.

Definition is_alpha (a : ascii) : bool :=
  let n := Str.code a in
  ((65 <=? n) && (n <=? 90) || (97 <=? n) && (n <=? 122))%N.

Definition hex_digit (n : N) : ascii :=
  if (n <? 10)%N then ascii_of_N (48 + n) else ascii_of_N (55 + n).

(** [%XY], with upper-case hexadecimal digits. *)
Definition percent (a : ascii) : string :=
  let n := Str.code a in
  String "%" (String (hex_digit (n / 16)) (String (hex_digit (n mod 16)) EmptyString)).

(** The characters [encodeURIComponent] leaves alone:
    [A-Z a-z 0-9 - _ . ! ~ * ' ( )]. *)
Definition uri_unreserved (a : ascii) : bool :=
  is_alpha a || is_digit a
  || Str.has_byte a "-_.!~*'()".

(** The text [encodeURIComponent(s)] returns: the other bytes of the
    UTF-8 encoding of [s] escaped one by one. The call throws for a string
    with a lone surrogate, see [Method.encodeURIComponent]. *)
Fixpoint encodeURIComponent (s : string) : string :=
  match s with
  | EmptyString => EmptyString
  | String a r =>
      (if uri_unreserved a then String a EmptyString else percent a)
      +:+ encodeURIComponent r
  end.

(** The characters the [application/x-www-form-urlencoded] serialiser
    leaves alone: [A-Z a-z 0-9 * - . _]; a space becomes [+]. *)
Definition form_unreserved (a : ascii) : bool :=
  is_alpha a || is_digit a || Str.has_byte a "*-._".

Definition form_encode_byte (a : ascii) : string :=
  if form_unreserved a then String a EmptyString
  else if Str.ascii_eqb a " " then "+"
  else percent a.

Fixpoint form_encode (s : string) : string :=
  match s with
  | EmptyString => EmptyString
  | String a r => form_encode_byte a +:+ form_encode r
  end.

(** [new URLSearchParams()]: the list of name-value pairs, in the order
    of the [append] calls. *)
Definition URLSearchParams : Type := list (string * string).

Definition append (name value : string) (search : URLSearchParams)
  : URLSearchParams :=
  search ++ [(name, value)].

(** [search.toString()]. *)
Definition toString (search : URLSearchParams) : string :=
  Str.join "&"
    (map (fun kv => form_encode (fst kv) +:+ "=" +:+ form_encode (snd kv)) search).

(** The inverse direction, as the receiving side reads a query string:
    split at [&], drop empty pieces, split each piece at its first [=],
    then turn [+] into a space and [%XY] into a byte. *)
Definition hex_value (a : ascii) : option N :=
  let n := Str.code a in
  if is_digit a then Some (n - 48)%N
  else if ((65 <=? n) && (n <=? 70))%N then Some (n - 55)%N
  else if ((97 <=? n) && (n <=? 102))%N then Some (n - 87)%N
  else None.

Fixpoint form_decode (s : string) : string :=
  match s with
  | EmptyString => EmptyString
  | String a r =>
      if Str.ascii_eqb a "+" then String " " (form_decode r)
      else if Str.ascii_eqb a "%" then
        match r with
        | String h (String l r2) =>
            match hex_value h, hex_value l with
            | Some x, Some y => String (ascii_of_N (16 * x + y)) (form_decode r2)
            | _, _ => String a (form_decode r)
            end
        | _ => String a (form_decode r)
        end
      else String a (form_decode r)
  end.

Definition parse_pair (piece : string) : string * string :=
  let '(k, v) := Str.cut "=" piece in
  (form_decode k, form_decode (default EmptyString v)).

Definition parse_query (q : string) : URLSearchParams :=
  map parse_pair
    (filter (fun piece => piece <> EmptyString) (Str.split "&" q)).

(** [decodeURIComponent], in two passes: the bytes of the string, each
    marked as escaped or not, then the escaped bytes grouped into UTF-8
    sequences. [None] stands for the URIError of a malformed escape. *)
Fixpoint escaped_bytes (s : string) : option (list (bool * N)) :=
  match s with
  | EmptyString => Some []
  | String a r =>
      if Str.ascii_eqb a "%" then
        match r with
        | String h (String l r2) =>
            match hex_value h, hex_value l with
            | Some x, Some y => cons (true, 16 * x + y)%N <$> escaped_bytes r2
            | _, _ => None
            end
        | _ => None
        end
      else cons (false, Str.code a) <$> escaped_bytes r
  end.

Definition between (lo hi n : N) : bool := ((lo <=? n) && (n <=? hi))%N.

(** An escaped continuation byte in the range [lo..hi]. *)
Definition continuation (lo hi : N) (t : bool * N) : bool :=
  fst t && between lo hi (snd t).

Definition push (n : N) (s : option string) : option string :=
  String (ascii_of_N n) <$> s.

Fixpoint utf8_groups (ts : list (bool * N)) : option string :=
  match ts with
  | [] => Some EmptyString
  | (false, b) :: r => push b (utf8_groups r)
  | (true, b) :: r =>
      if (b <? 128)%N then push b (utf8_groups r)
      else if between 194 223 b then
        match r with
        | c1 :: r1 =>
            if continuation 128 191 c1
            then push b (push (snd c1) (utf8_groups r1))
            else None
        | _ => None
        end
      else if between 224 239 b then
        match r with
        | c1 :: c2 :: r2 =>
            let lo := if (b =? 224)%N then 160%N else 128%N in
            let hi := if (b =? 237)%N then 159%N else 191%N in
            if continuation lo hi c1 && continuation 128 191 c2
            then push b (push (snd c1) (push (snd c2) (utf8_groups r2)))
            else None
        | _ => None
        end
      else if between 240 244 b then
        match r with
        | c1 :: c2 :: c3 :: r3 =>
            let lo := if (b =? 240)%N then 144%N else 128%N in
            let hi := if (b =? 244)%N then 143%N else 191%N in
            if continuation lo hi c1 && continuation 128 191 c2
               && continuation 128 191 c3
            then push b (push (snd c1) (push (snd c2) (push (snd c3)
                   (utf8_groups r3))))
            else None
        | _ => None
        end
      else None
  end.

Definition decodeURIComponent (s : string) : option string :=
  escaped_bytes s ≫= utf8_groups.

(** Whether [s] is not empty and made of characters that
    [encodeURIComponent] leaves alone. *)
Fixpoint all_unreserved (s : string) : bool :=
  match s with
  | EmptyString => true
  | String a r => uri_unreserved a && all_unreserved r
  end.

Definition is_plain (s : string) : bool :=
  negb (bool_decide (s = EmptyString)) && all_unreserved s.

(** The bytes that delimit the parts of a URL and of a query string. *)
Definition delimiter (c : ascii) : bool := Str.has_byte c "&=#?/,".

(** A URL string cut at its first [#], then at its first [?]. *)
Definition without_fragment (url : string) : string := fst (Str.cut "#" url).

Definition url_path_part (url : string) : string :=
  fst (Str.cut "?" (without_fragment url)).

Definition url_query (url : string) : option string :=
  snd (Str.cut "?" (without_fragment url)).

(** The name-value pairs of the query of [url]. *)
Definition searchParams (url : string) : URLSearchParams :=
  parse_query (default EmptyString (url_query url)).

End Uri.

(** ** Well-formed UTF-8 *)

Module Utf8.

(** Whether a sequence of bytes is well-formed UTF-8, the encoding of a
    string without a lone surrogate: one byte below 128,
    or a lead byte C2..DF, E0..EF or F0..F4 followed by one, two or three
    continuation bytes 80..BF, the first of them narrowed after E0, ED, F0
    and F4. *)
Fixpoint well_formed_bytes (l : list N) : bool :=
  match l with
  | [] => true
  | b :: r =>
      if (b <? 128)%N then well_formed_bytes r
      else if Uri.between 194 223 b then
        match r with
        | c1 :: r1 => Uri.between 128 191 c1 && well_formed_bytes r1
        | _ => false
        end
      else if Uri.between 224 239 b then
        match r with
        | c1 :: c2 :: r2 =>
            let lo := if (b =? 224)%N then 160%N else 128%N in
            let hi := if (b =? 237)%N then 159%N else 191%N in
            Uri.between lo hi c1 && Uri.between 128 191 c2 && well_formed_bytes r2
        | _ => false
        end
      else if Uri.between 240 244 b then
        match r with
        | c1 :: c2 :: c3 :: r3 =>
            let lo := if (b =? 240)%N then 144%N else 128%N in
            let hi := if (b =? 244)%N then 143%N else 191%N in
            Uri.between lo hi c1 && Uri.between 128 191 c2
            && Uri.between 128 191 c3 && well_formed_bytes r3
        | _ => false
        end
      else false
  end.

Definition well_formed (s : string) : bool :=
  well_formed_bytes (map Str.code (list_ascii_of_string s)).

End Utf8.

(** ** JSON documents *)

Module Json.

(** A JSON document, as [JSON.parse] yields it and [JSON.stringify] takes
    it; the members of an object keep their insertion order. *)
Inductive JValue : Type :=
| JNull
| JBool (b : bool)
| JNum (n : Z)
| JStr (s : string)
| JArr (items : list JValue)
| JObj (members : list (string * JValue)).

Definition lower_hex_digit (n : N) : ascii :=
  if (n <? 10)%N then ascii_of_N (48 + n) else ascii_of_N (87 + n).

(** The escape of one byte inside a JSON string literal. *)
Definition escape_byte (a : ascii) : string :=
  let n := Str.code a in
  if (n =? 34)%N then "\" +:+ Str.dquote
  else if (n =? 92)%N then "\\"
  else if (n =? 8)%N then "\b"
  else if (n =? 9)%N then "\t"
  else if (n =? 10)%N then "\n"
  else if (n =? 12)%N then "\f"
  else if (n =? 13)%N then "\r"
  else if (n <? 32)%N then
    "\u00" +:+ String (lower_hex_digit (n / 16))
                 (String (lower_hex_digit (n mod 16)) EmptyString)
  else String a EmptyString.

Fixpoint escape (s : string) : string :=
  match s with
  | EmptyString => EmptyString
  | String a r => escape_byte a +:+ escape r
  end.

Definition quote (s : string) : string := Str.dquote +:+ escape s +:+ Str.dquote.

(** [obj.k = v]: the member is replaced where it stands, or added last. *)
Fixpoint assign {V : Type} (k : string) (v : V) (members : list (string * V))
  : list (string * V) :=
  match members with
  | [] => [(k, v)]
  | (k', v') :: r =>
      if decide (k' = k) then (k, v) :: r else (k', v') :: assign k v r
  end.

(** [JSON.stringify(v)]. *)
Fixpoint stringify (v : JValue) : string :=
  match v with
  | JNull => "null"
  | JBool true => "true"
  | JBool false => "false"
  | JNum n => Str.of_Z n
  | JStr s => quote s
  | JArr items => "[" +:+ Str.join "," (map stringify items) +:+ "]"
  | JObj members =>
      "{" +:+ Str.join ","
                (map (fun kv => quote (fst kv) +:+ ":" +:+ stringify (snd kv))
                     members)
      +:+ "}"
  end.

(** [JSON.stringify(v, null, 2)], at the indentation [indent]. *)
Fixpoint stringify_indented (indent : string) (v : JValue) : string :=
  let inner := indent +:+ "  " in
  match v with
  | JArr [] => "[]"
  | JArr items =>
      "[" +:+ Str.newline +:+ inner
      +:+ Str.join ("," +:+ Str.newline +:+ inner)
            (map (stringify_indented inner) items)
      +:+ Str.newline +:+ indent +:+ "]"
  | JObj [] => "{}"
  | JObj members =>
      "{" +:+ Str.newline +:+ inner
      +:+ Str.join ("," +:+ Str.newline +:+ inner)
            (map (fun kv => quote (fst kv) +:+ ": "
                            +:+ stringify_indented inner (snd kv))
                 members)
      +:+ Str.newline +:+ indent +:+ "}"
  | _ => stringify v
  end.

Definition stringify_pretty (v : JValue) : string :=
  stringify_indented EmptyString v.


End Json.

(** [if (v)], [v && ...], [v || ...] on an optional string: a string is
    truthy when it is defined and not empty. *)
Definition truthy (v : option string) : option string :=
  match v with
  | Some s => if decide (s = EmptyString) then None else Some s
  | None => None
  end.

(** ** Thrown values, [fetch] and asynchronous computations *)

Module Http.

(** What a [throw] or a rejected promise carries: an instance of [Error]
    with its [message], or any other value. *)
Inductive thrown : Type :=
| ErrorObject (message : string)
| NonError (v : Json.JValue).

(** [error instanceof Error ? error.message : 'Unknown error'] *)
Definition message_of (error : thrown) : string :=
  match error with
  | ErrorObject message => message
  | NonError _ => "Unknown error"
  end.

(** The [body] of a [RequestInit]: a string, [null], or an object
    (Buffer, URLSearchParams, stream, ...) given with the payload [wire]
    that [fetch] would send for it. *)
Inductive BodyInit : Type :=
| BodyString (s : string)
| BodyNull
| BodyObject (wire : string).

(** [RequestInit]; [None] is a property that is not set. *)
Record RequestInit : Type := {
  method : option string;
  headers : option (gmap string string);
  body : option BodyInit
}.

(** [{}] *)
Definition no_options : RequestInit :=
  {| method := None; headers := None; body := None |}.

(** The response of [fetch]; [text] and [json] are the outcomes of
    [response.text()] and of [response.json()] cast to [T]. *)
Record Response (T : Type) : Type := {
  status : Z;
  statusText : string;
  text : thrown + string;
  json : thrown + T
}.
Arguments status {T} _.
Arguments statusText {T} _.
Arguments text {T} _.
Arguments json {T} _.

(** [response.ok] *)
Definition ok {T} (response : Response T) : bool :=
  (200 <=? status response) && (status response <? 300).

(** The remote service behind [fetch(url, init)]: it rejects with a
    thrown value or resolves to a response. *)
Definition Fetch (T : Type) : Type :=
  string -> RequestInit -> thrown + Response T.

(** One call of [fetch]. *)
Record FetchCall : Type := { call_url : string; call_init : RequestInit }.

(** An asynchronous computation: the calls of [fetch] it made, in order,
    and its outcome. *)
Definition M (A : Type) : Type := list FetchCall * (thrown + A).

Definition ret {A} (a : A) : M A := ([], inr a).

Definition throw {A} (e : thrown) : M A := ([], inl e).

Definition bind {A B} (m : M A) (k : A -> M B) : M B :=
  match m with
  | (calls, inl e) => (calls, inl e)
  | (calls, inr a) => let '(calls', r) := k a in (calls ++ calls', r)
  end.

(** [try { m } catch (error) { handler error }] *)
Definition try_catch {A} (m : M A) (handler : thrown -> M A) : M A :=
  match m with
  | (calls, inl e) => let '(calls', r) := handler e in (calls ++ calls', r)
  | (calls, inr a) => (calls, inr a)
  end.

(** [await p] for a promise that is already settled. *)
Definition await {A} (p : thrown + A) : M A := ([], p).

(** [await fetch(url, init)] *)
Definition call_fetch {T} (fetch : Fetch T) (url : string) (init : RequestInit)
  : M (Response T) :=
  ([{| call_url := url; call_init := init |}], fetch url init).

Definition calls {A} (m : M A) : list FetchCall := fst m.
Definition outcome {A} (m : M A) : thrown + A := snd m.

(** The method [fetch] uses for [init]: [init.method || 'GET']. *)
Definition wire_method (init : RequestInit) : string :=
  default "GET" (truthy (method init)).

(** The payload [fetch] sends for [init], if any. *)
Definition wire_body (init : RequestInit) : option string :=
  match body init with
  | Some (BodyString s) => Some s
  | Some (BodyObject wire) => Some wire
  | Some BodyNull => None
  | None => None
  end.

End Http.

Notation "'let*' x ':=' m 'in' k" := (Http.bind m (fun x => k))
  (at level 10, x name, m at level 100, k at level 200).

(** ** Response types: [src/types.ts] *)

Module Responder.
Record t : Type := { type : string; id : string; name : option string }.
End Responder.

Module BaseAlert.
Record t : Type := {
  id : string;
  tinyId : option string;
  alias : option string;
  message : option string;
  status : option string;
  acknowledged : option bool;
  isSeen : option bool;
  tags : option (list string);
  snoozed : option bool;
  snoozedUntil : option string;
  count : option Z;
  lastOccurredAt : option string;
  createdAt : option string;
  updatedAt : option string;
  source : option string;
  owner : option string;
  priority : option string;
  responders : option (list Responder.t);
  integration : option Json.JValue;
  report : option Json.JValue
}.
End BaseAlert.

Module Alert.
(** [interface Alert extends BaseAlert] *)
Record t : Type := {
  base : BaseAlert.t;
  actions : option (list string);
  entity : option string;
  description : option string;
  details : option (list (string * string))
}.
End Alert.

Module AlertNote.
Record t : Type := {
  note : string;
  owner : string;
  createdAt : string;
  offset : option string
}.
End AlertNote.

Module ListAlertNotesResponse.
Record t : Type := { requestId : string; data : list AlertNote.t }.
End ListAlertNotesResponse.

Module GetAlertResponse.
Record t : Type := { requestId : string; data : Alert.t }.
End GetAlertResponse.

Module Paging.
Record t : Type := { first : option string; next : option string }.
End Paging.

Module ListAlertsResponse.
Record t : Type := {
  requestId : string;
  data : list BaseAlert.t;
  paging : option Paging.t
}.
End ListAlertsResponse.

Module CountData.
Record t : Type := { count : Z }.
End CountData.

Module GetCountAlertsResponse.
Record t : Type := { requestId : string; data : CountData.t }.
End GetCountAlertsResponse.

(** ** The client: [src/opsgenie-client.ts] *)

Module OpsGenieClientConfig.
Record t : Type := { apiKey : string; baseUrl : option string }.
End OpsGenieClientConfig.

Module AlertSearchParams.
Record t : Type := {
  query : option string;
  searchIdentifier : option string;
  searchIdentifierType : option string;
  offset : option Number.t;
  limit : option Number.t;
  sort : option string;
  order : option string
}.
(** [{}] *)
Definition empty : t :=
  {| query := None; searchIdentifier := None; searchIdentifierType := None;
     offset := None; limit := None; sort := None; order := None |}.

(** No string of [params] holds a lone surrogate. [URLSearchParams] takes
    its names and values as scalar value strings, where a lone surrogate
    is replaced. *)
Definition well_formed (params : t) : bool :=
  forallb (fun v => Utf8.well_formed (default EmptyString v))
          [query params; searchIdentifier params; searchIdentifierType params;
           sort params; order params].
End AlertSearchParams.

Module AlertCountParams.
Record t : Type := {
  query : option string;
  searchIdentifier : option string;
  searchIdentifierType : option string
}.
Definition empty : t :=
  {| query := None; searchIdentifier := None; searchIdentifierType := None |}.
End AlertCountParams.

Module AlertNotesParams.
(** [offset?: string | number] *)
Record t : Type := {
  offset : option (string + Number.t);
  direction : option string;
  limit : option Number.t;
  order : option string
}.
Definition empty : t :=
  {| offset := None; direction := None; limit := None; order := None |}.

(** No string of [params] holds a lone surrogate. *)
Definition well_formed (params : t) : bool :=
  match offset params with
  | Some (inl s) => Utf8.well_formed s
  | _ => true
  end
  && Utf8.well_formed (default EmptyString (direction params))
  && Utf8.well_formed (default EmptyString (order params)).
End AlertNotesParams.

Module OpsGenieClient.
Import Http.

(** The private fields [this.apiKey] and [this.baseUrl]. *)
Record t : Type := { this_apiKey : string; this_baseUrl : string }.

(** [key.replace(/^GenieKey\s+/, '')] *)
Definition strip_scheme (key : string) : string :=
  match Str.strip_prefix "GenieKey" key with
  | Some rest => if Str.starts_with_ws rest then Str.drop_ws rest else key
  | None => key
  end.

Definition constructor (config : OpsGenieClientConfig.t) : t :=
  {| this_apiKey := strip_scheme (OpsGenieClientConfig.apiKey config);
     this_baseUrl :=
       default "https://api.opsgenie.com"
               (truthy (OpsGenieClientConfig.baseUrl config)) |}.

(** Whether the base URL has neither a query nor a fragment of its own,
    so that the query of a request URL is the one the operation wrote. *)
Definition plain_base (this : t) : bool :=
  negb (Str.has_byte "?" (this_baseUrl this))
  && negb (Str.has_byte "#" (this_baseUrl this)).

(** The value of the [Authorization] header computed by [request]. *)
Definition authorization (this : t) : string := "GenieKey " +:+ this_apiKey this.

(** The object literal of [request]: the two defaults, then the members
    of [options.headers] spread over them. *)
Definition request_headers (this : t) (options : RequestInit)
  : gmap string string :=
  default ∅ (headers options)
  ∪ <["Content-Type" := "application/json"]>
      (<["Authorization" := authorization this]> ∅).

(** The truth value of [options.body]: [undefined], [null] and the
    empty string are falsy, every object is truthy. *)
Definition body_truthy (options : RequestInit) : bool :=
  match body options with
  | Some (BodyString s) => negb (bool_decide (s = EmptyString))
  | Some (BodyObject _) => true
  | Some BodyNull => false
  | None => false
  end.

(** [typeof options.body === 'string'] *)
Definition body_is_string (options : RequestInit) : bool :=
  match body options with
  | Some (BodyString _) => true
  | _ => false
  end.

(** [fetchOptions]: [options] spread, [headers] replaced, and [body]
    deleted when it is set to something that is not a string. *)
Definition fetchOptions (this : t) (options : RequestInit) : RequestInit :=
  {| method := method options;
     headers := Some (request_headers this options);
     body := if body_truthy options && negb (body_is_string options)
             then None else body options |}.

Definition request {T} (this : t) (fetch : Fetch T)
           (endpoint : string) (options : RequestInit) : M T :=
  let url := this_baseUrl this +:+ endpoint in
  let* response := call_fetch fetch url (fetchOptions this options) in
  if negb (ok response) then
    let* errorText := await (text response) in
    throw (ErrorObject ("OpsGenie API error: " +:+ Str.of_Z (status response)
                        +:+ " " +:+ statusText response
                        +:+ " - " +:+ errorText))
  else await (json response).

(** *** Alert retrieval

    The operations that take an alert identifier are given here for an
    identifier that [encodeURIComponent] accepts, one without a lone
    surrogate; [Method] gives them for every string. *)

Definition getAlert (this : t) (fetch : Fetch GetAlertResponse.t)
           (identifier : string) : M GetAlertResponse.t :=
  request this fetch
    ("/v2/alerts/" +:+ Uri.encodeURIComponent identifier +:+ "?identifierType=id")
    no_options.

(** [if (v) search.append(name, v)] and
    [if (v !== undefined) search.append(name, String(v))]: the value to
    append is given as [Some] when the test passes. *)
Definition append_when (v : option string) (name : string)
           (search : Uri.URLSearchParams) : Uri.URLSearchParams :=
  match v with
  | Some s => Uri.append name s search
  | None => search
  end.

(** The [search] object that [searchAlerts] builds. *)
Definition searchAlerts_search (params : AlertSearchParams.t)
  : Uri.URLSearchParams :=
  let search : Uri.URLSearchParams := [] in
  let search := append_when (truthy (AlertSearchParams.query params)) "query" search in
  let search := append_when (truthy (AlertSearchParams.searchIdentifier params))
                            "searchIdentifier" search in
  let search := append_when (truthy (AlertSearchParams.searchIdentifierType params))
                            "searchIdentifierType" search in
  let search := append_when (Number.toString <$> AlertSearchParams.offset params)
                            "offset" search in
  let search := append_when (Number.toString <$> AlertSearchParams.limit params)
                            "limit" search in
  let search := append_when (truthy (AlertSearchParams.sort params)) "sort" search in
  let search := append_when (truthy (AlertSearchParams.order params)) "order" search in
  search.

Definition searchAlerts (this : t) (fetch : Fetch ListAlertsResponse.t)
           (params : AlertSearchParams.t) : M ListAlertsResponse.t :=
  request this fetch
    ("/v2/alerts?" +:+ Uri.toString (searchAlerts_search params)) no_options.

(** The [search] object that [countAlerts] builds. *)
Definition countAlerts_search (params : AlertCountParams.t)
  : Uri.URLSearchParams :=
  let search : Uri.URLSearchParams := [] in
  let search := append_when (truthy (AlertCountParams.query params)) "query" search in
  let search := append_when (truthy (AlertCountParams.searchIdentifier params))
                            "searchIdentifier" search in
  let search := append_when (truthy (AlertCountParams.searchIdentifierType params))
                            "searchIdentifierType" search in
  search.

Definition countAlerts (this : t) (fetch : Fetch GetCountAlertsResponse.t)
           (params : AlertCountParams.t) : M GetCountAlertsResponse.t :=
  request this fetch
    ("/v2/alerts/count?" +:+ Uri.toString (countAlerts_search params)) no_options.

(** [String(params.offset)] for [offset : string | number]. *)
Definition String_of_offset (offset : string + Number.t) : string :=
  match offset with
  | inl s => s
  | inr n => Number.toString n
  end.

(** The [search] object that [getAlertNotes] builds. *)
Definition getAlertNotes_search (params : AlertNotesParams.t)
  : Uri.URLSearchParams :=
  let search : Uri.URLSearchParams := [] in
  let search := append_when (String_of_offset <$> AlertNotesParams.offset params)
                            "offset" search in
  let search := append_when (truthy (AlertNotesParams.direction params))
                            "direction" search in
  let search := append_when (Number.toString <$> AlertNotesParams.limit params)
                            "limit" search in
  let search := append_when (truthy (AlertNotesParams.order params)) "order" search in
  let search := Uri.append "identifierType" "id" search in
  search.

Definition getAlertNotes (this : t) (fetch : Fetch ListAlertNotesResponse.t)
           (identifier : string) (params : AlertNotesParams.t)
  : M ListAlertNotesResponse.t :=
  request this fetch
    ("/v2/alerts/" +:+ Uri.encodeURIComponent identifier +:+ "/notes?"
     +:+ Uri.toString (getAlertNotes_search params))
    no_options.

(** *** Alert creation and actions

    The payloads ([alertData], [snoozeData], ...) are the objects the
    caller built; the responses are typed [any]. *)

(** [{ method, body: JSON.stringify(payload) }] *)
Definition json_request (method_ : string) (payload : Json.JValue) : RequestInit :=
  {| method := Some method_;
     headers := None;
     body := Some (BodyString (Json.stringify payload)) |}.

Definition createAlert (this : t) (fetch : Fetch Json.JValue)
           (alertData : Json.JValue) : M Json.JValue :=
  request this fetch "/v2/alerts" (json_request "POST" alertData).

(** [const body: any = members; if (note) { body.note = note; }] *)
Definition body_with_note (members : list (string * Json.JValue))
           (note : option string) : Json.JValue :=
  match truthy note with
  | Some n => Json.JObj (Json.assign "note" (Json.JStr n) members)
  | None => Json.JObj members
  end.

(** The endpoint [/v2/alerts/<identifier>/<action>?identifierType=id]. *)
Definition action_endpoint (identifier action : string) : string :=
  "/v2/alerts/" +:+ Uri.encodeURIComponent identifier +:+ "/" +:+ action
  +:+ "?identifierType=id".

Definition closeAlert (this : t) (fetch : Fetch Json.JValue)
           (identifier : string) (note : option string) : M Json.JValue :=
  let body := body_with_note [] note in
  request this fetch (action_endpoint identifier "close")
          (json_request "POST" body).

Definition acknowledgeAlert (this : t) (fetch : Fetch Json.JValue)
           (identifier : string) (note : option string) : M Json.JValue :=
  let body := body_with_note [] note in
  request this fetch (action_endpoint identifier "acknowledge")
          (json_request "POST" body).

Definition snoozeAlert (this : t) (fetch : Fetch Json.JValue)
           (identifier : string) (snoozeData : Json.JValue) : M Json.JValue :=
  request this fetch (action_endpoint identifier "snooze")
          (json_request "POST" snoozeData).

Definition unacknowledgeAlert (this : t) (fetch : Fetch Json.JValue)
           (identifier : string) (note : option string) : M Json.JValue :=
  let body := body_with_note [] note in
  request this fetch (action_endpoint identifier "unacknowledge")
          (json_request "POST" body).

Definition assignAlert (this : t) (fetch : Fetch Json.JValue)
           (identifier : string) (assignData : Json.JValue) : M Json.JValue :=
  request this fetch (action_endpoint identifier "assign")
          (json_request "POST" assignData).

Definition escalateAlert (this : t) (fetch : Fetch Json.JValue)
           (identifier : string) (escalationData : Json.JValue) : M Json.JValue :=
  request this fetch (action_endpoint identifier "escalate")
          (json_request "POST" escalationData).

Definition addNoteToAlert (this : t) (fetch : Fetch Json.JValue)
           (identifier : string) (noteData : Json.JValue) : M Json.JValue :=
  request this fetch (action_endpoint identifier "notes")
          (json_request "POST" noteData).

(** [{ tags }] *)
Definition tags_member (tags : list string) : list (string * Json.JValue) :=
  [("tags", Json.JArr (map Json.JStr tags))].

Definition addTagsToAlert (this : t) (fetch : Fetch Json.JValue)
           (identifier : string) (tags : list string) (note : option string)
  : M Json.JValue :=
  let body := body_with_note (tags_member tags) note in
  request this fetch (action_endpoint identifier "tags")
          (json_request "POST" body).

Definition removeTagsFromAlert (this : t) (fetch : Fetch Json.JValue)
           (identifier : string) (tags : list string) (note : option string)
  : M Json.JValue :=
  let body := body_with_note (tags_member tags) note in
  request this fetch (action_endpoint identifier "tags")
          (json_request "DELETE" body).

End OpsGenieClient.

(** ** The operations on every identifier

    The methods that take an alert identifier, as they run on any string:
    the template literal of the endpoint evaluates
    [encodeURIComponent(identifier)] before [request] is entered, and a
    URIError thrown there leaves the method. *)

Module Method.
Import Http OpsGenieClient.

(** [encodeURIComponent(s)]: a URIError for a string with a lone
    surrogate, the escaped text otherwise. *)
Definition encodeURIComponent (s : string) : M string :=
  if Utf8.well_formed s then ret (Uri.encodeURIComponent s)
  else throw (ErrorObject "URI malformed").

Definition getAlert (this : t) (fetch : Fetch GetAlertResponse.t)
           (identifier : string) : M GetAlertResponse.t :=
  let* encoded := encodeURIComponent identifier in
  request this fetch ("/v2/alerts/" +:+ encoded +:+ "?identifierType=id")
          no_options.

Definition getAlertNotes (this : t) (fetch : Fetch ListAlertNotesResponse.t)
           (identifier : string) (params : AlertNotesParams.t)
  : M ListAlertNotesResponse.t :=
  let search := getAlertNotes_search params in
  let* encoded := encodeURIComponent identifier in
  request this fetch
    ("/v2/alerts/" +:+ encoded +:+ "/notes?" +:+ Uri.toString search)
    no_options.

(** The endpoint [/v2/alerts/<identifier>/<action>?identifierType=id]. *)
Definition action_endpoint (identifier action : string) : M string :=
  let* encoded := encodeURIComponent identifier in
  ret ("/v2/alerts/" +:+ encoded +:+ "/" +:+ action +:+ "?identifierType=id").

(** [this.request(endpoint, { method, body: JSON.stringify(payload) })]
    for the endpoint of an action. *)
Definition action (this : t) (fetch : Fetch Json.JValue)
           (identifier name method_ : string) (payload : Json.JValue)
  : M Json.JValue :=
  let* endpoint := action_endpoint identifier name in
  request this fetch endpoint (json_request method_ payload).

Definition closeAlert (this : t) (fetch : Fetch Json.JValue)
           (identifier : string) (note : option string) : M Json.JValue :=
  let body := body_with_note [] note in
  action this fetch identifier "close" "POST" body.

Definition acknowledgeAlert (this : t) (fetch : Fetch Json.JValue)
           (identifier : string) (note : option string) : M Json.JValue :=
  let body := body_with_note [] note in
  action this fetch identifier "acknowledge" "POST" body.

Definition snoozeAlert (this : t) (fetch : Fetch Json.JValue)
           (identifier : string) (snoozeData : Json.JValue) : M Json.JValue :=
  action this fetch identifier "snooze" "POST" snoozeData.

Definition unacknowledgeAlert (this : t) (fetch : Fetch Json.JValue)
           (identifier : string) (note : option string) : M Json.JValue :=
  let body := body_with_note [] note in
  action this fetch identifier "unacknowledge" "POST" body.

Definition assignAlert (this : t) (fetch : Fetch Json.JValue)
           (identifier : string) (assignData : Json.JValue) : M Json.JValue :=
  action this fetch identifier "assign" "POST" assignData.

Definition escalateAlert (this : t) (fetch : Fetch Json.JValue)
           (identifier : string) (escalationData : Json.JValue) : M Json.JValue :=
  action this fetch identifier "escalate" "POST" escalationData.

Definition addNoteToAlert (this : t) (fetch : Fetch Json.JValue)
           (identifier : string) (noteData : Json.JValue) : M Json.JValue :=
  action this fetch identifier "notes" "POST" noteData.

Definition addTagsToAlert (this : t) (fetch : Fetch Json.JValue)
           (identifier : string) (tags : list string) (note : option string)
  : M Json.JValue :=
  let body := body_with_note (tags_member tags) note in
  action this fetch identifier "tags" "POST" body.

Definition removeTagsFromAlert (this : t) (fetch : Fetch Json.JValue)
           (identifier : string) (tags : list string) (note : option string)
  : M Json.JValue :=
  let body := body_with_note (tags_member tags) note in
  action this fetch identifier "tags" "DELETE" body.

End Method.

(** ** Values of type [any] *)

Module Js.
Import Json Http.

(** The own member [k] of an object; the members of an object have
    distinct names. [None] is [undefined]. *)
Fixpoint lookup (k : string) (members : list (string * JValue)) : option JValue :=
  match members with
  | [] => None
  | (k', v) :: r => if decide (k' = k) then Some v else lookup k r
  end.

(** [v.k], for the member names the handlers read ([result], [data],
    [alertId], [requestId]), none of which a primitive or an array has:
    reading a member of [null] throws a TypeError. *)
Definition get (v : JValue) (k : string) : thrown + option JValue :=
  match v with
  | JNull =>
      inl (ErrorObject ("Cannot read properties of null (reading '" +:+ k +:+ "')"))
  | JObj members => inr (lookup k members)
  | _ => inr None
  end.

(** [v?.k] *)
Definition get_optional (v : option JValue) (k : string) : option JValue :=
  match v with
  | Some (JObj members) => lookup k members
  | _ => None
  end.

(** The truth value of [v]. *)
Definition truthy_value (v : option JValue) : bool :=
  match v with
  | None => false
  | Some JNull => false
  | Some (JBool b) => b
  | Some (JNum n) => negb (n =? 0)
  | Some (JStr s) => negb (bool_decide (s = EmptyString))
  | Some (JArr _) => true
  | Some (JObj _) => true
  end.

(** [a || b] *)
Definition or_else (a b : option JValue) : option JValue :=
  if truthy_value a then a else b.

(** [String(v)] for a defined value; an array joins its elements with
    commas, [null] elements giving the empty string. *)
Fixpoint ToString_value (v : JValue) : string :=
  match v with
  | JNull => "null"
  | JBool true => "true"
  | JBool false => "false"
  | JNum n => Str.of_Z n
  | JStr s => s
  | JArr items =>
      Str.join ","
        (map (fun item => match item with
                          | JNull => EmptyString
                          | _ => ToString_value item
                          end) items)
  | JObj _ => "[object Object]"
  end.

(** The text of [${v}] in a template literal. *)
Definition ToString (v : option JValue) : string :=
  match v with
  | None => "undefined"
  | Some v => ToString_value v
  end.

(** [${v}] for an optional string member of a typed document. *)
Definition ToString_opt (v : option string) : string := default "undefined" v.

End Js.

(** ** The server: [src/index.ts] *)

Module Server.
Import Json Http.

(** *** Results of handlers *)

Inductive ContentBlock : Type :=
| TextContent (text : string)
| ResourceLink (uri name description mimeType : string).

(** The result of a tool; [isError] is [None] where the handler does not
    set it. *)
Record CallToolResult : Type := {
  content : list ContentBlock;
  isError : option bool
}.

Record ResourceContents : Type := {
  uri : string;
  text : string;
  mimeType : string
}.

Record ReadResourceResult : Type := { contents : list ResourceContents }.

(** The remote service, seen at each response type the client casts to. *)
Record Remote : Type := {
  fetch_alert : Fetch GetAlertResponse.t;
  fetch_alerts : Fetch ListAlertsResponse.t;
  fetch_count : Fetch GetCountAlertsResponse.t;
  fetch_notes : Fetch ListAlertNotesResponse.t;
  fetch_any : Fetch JValue
}.

(** Start-up: the API key comes from the environment and is required. *)
Definition opsgenieClient (OPSGENIE_API_KEY : option string)
  : thrown + OpsGenieClient.t :=
  match truthy OPSGENIE_API_KEY with
  | None => inl (ErrorObject "OPSGENIE_API_KEY environment variable is required")
  | Some apiKey =>
      inr (OpsGenieClient.constructor
             {| OpsGenieClientConfig.apiKey := apiKey;
                OpsGenieClientConfig.baseUrl := None |})
  end.

(** *** Documents as objects

    [JSON.stringify] of a typed document: its defined members, in the
    order of the interface declaration. *)

Definition member {A} (k : string) (f : A -> JValue) (v : option A)
  : list (string * JValue) :=
  match v with
  | Some a => [(k, f a)]
  | None => []
  end.

Definition strings (l : list string) : JValue := JArr (map JStr l).

Definition Responder_object (r : Responder.t) : JValue :=
  JObj ([("type", JStr (Responder.type r)); ("id", JStr (Responder.id r))]
        ++ member "name" JStr (Responder.name r)).

Definition BaseAlert_members (a : BaseAlert.t) : list (string * JValue) :=
  [("id", JStr (BaseAlert.id a))]
  ++ member "tinyId" JStr (BaseAlert.tinyId a)
  ++ member "alias" JStr (BaseAlert.alias a)
  ++ member "message" JStr (BaseAlert.message a)
  ++ member "status" JStr (BaseAlert.status a)
  ++ member "acknowledged" JBool (BaseAlert.acknowledged a)
  ++ member "isSeen" JBool (BaseAlert.isSeen a)
  ++ member "tags" strings (BaseAlert.tags a)
  ++ member "snoozed" JBool (BaseAlert.snoozed a)
  ++ member "snoozedUntil" JStr (BaseAlert.snoozedUntil a)
  ++ member "count" JNum (BaseAlert.count a)
  ++ member "lastOccurredAt" JStr (BaseAlert.lastOccurredAt a)
  ++ member "createdAt" JStr (BaseAlert.createdAt a)
  ++ member "updatedAt" JStr (BaseAlert.updatedAt a)
  ++ member "source" JStr (BaseAlert.source a)
  ++ member "owner" JStr (BaseAlert.owner a)
  ++ member "priority" JStr (BaseAlert.priority a)
  ++ member "responders" (fun l => JArr (map Responder_object l))
            (BaseAlert.responders a)
  ++ member "integration" (fun v => v) (BaseAlert.integration a)
  ++ member "report" (fun v => v) (BaseAlert.report a).

Definition BaseAlert_object (a : BaseAlert.t) : JValue :=
  JObj (BaseAlert_members a).

Definition Alert_object (a : Alert.t) : JValue :=
  JObj (BaseAlert_members (Alert.base a)
        ++ member "actions" strings (Alert.actions a)
        ++ member "entity" JStr (Alert.entity a)
        ++ member "description" JStr (Alert.description a)
        ++ member "details"
             (fun l => JObj (map (fun kv => (fst kv, JStr (snd kv))) l))
             (Alert.details a)).

Definition AlertNote_object (n : AlertNote.t) : JValue :=
  JObj ([("note", JStr (AlertNote.note n));
         ("owner", JStr (AlertNote.owner n));
         ("createdAt", JStr (AlertNote.createdAt n))]
        ++ member "offset" JStr (AlertNote.offset n)).

(** *** [formatAlertDetails] *)

(** [v || 'N/A'] *)
Definition or_NA (v : option string) : string := default "N/A" (truthy v).

(** [v ? 'Yes' : 'No'] *)
Definition yes_no (v : option bool) : string :=
  match v with
  | Some true => "Yes"
  | _ => "No"
  end.

Definition formatAlertDetails (alert : Alert.t) : string :=
  let b := Alert.base alert in
  "Alert Details:" +:+ Str.newline
  +:+ "ID: " +:+ BaseAlert.id b +:+ Str.newline
  +:+ "Message: " +:+ or_NA (BaseAlert.message b) +:+ Str.newline
  +:+ "Description: " +:+ or_NA (Alert.description alert) +:+ Str.newline
  +:+ "Status: " +:+ or_NA (BaseAlert.status b) +:+ Str.newline
  +:+ "Priority: " +:+ or_NA (BaseAlert.priority b) +:+ Str.newline
  +:+ "Created At: " +:+ or_NA (BaseAlert.createdAt b) +:+ Str.newline
  +:+ "Updated At: " +:+ or_NA (BaseAlert.updatedAt b) +:+ Str.newline
  +:+ "Owner: " +:+ or_NA (BaseAlert.owner b) +:+ Str.newline
  +:+ "Tags: " +:+ or_NA (Str.join ", " <$> BaseAlert.tags b) +:+ Str.newline
  +:+ "Responders: "
  +:+ or_NA (Str.join ", "
             <$> (map (fun r => Responder.type r +:+ ":" +:+ Responder.id r)
                  <$> BaseAlert.responders b))
  +:+ Str.newline
  +:+ "Acknowledged: " +:+ yes_no (BaseAlert.acknowledged b) +:+ Str.newline
  +:+ "Is Seen: " +:+ yes_no (BaseAlert.isSeen b) +:+ Str.newline
  +:+ "Snoozed: " +:+ yes_no (BaseAlert.snoozed b).

(** *** Resource handlers *)

(** A variable bound by a URI template: one string or a list of them. *)
Inductive TemplateVariable : Type :=
| One (s : string)
| Many (l : list string).

(** [Array.isArray(v) ? v[0] : v] *)
Definition first_value (v : option TemplateVariable) : option string :=
  match v with
  | Some (Many l) => head l
  | Some (One s) => Some s
  | None => None
  end.

(** [if (!v) throw new Error(message)] *)
Definition required (v : option string) (message : string) : M string :=
  match truthy v with
  | Some s => ret s
  | None => throw (ErrorObject message)
  end.

(** The [catch] block of a resource handler. *)
Definition rethrow {A} (prefix : string) (error : thrown) : M A :=
  throw (ErrorObject (prefix +:+ message_of error)).

Definition json_contents (href : string) (document : JValue)
  : ReadResourceResult :=
  {| contents := [ {| uri := href;
                      text := stringify_pretty document;
                      mimeType := "application/json" |} ] |}.

(** The [try] block of [alert_details]. *)
Definition alert_details_try (client : OpsGenieClient.t) (remote : Remote)
           (href : string) (alertId : option TemplateVariable)
  : M ReadResourceResult :=
  let alertIdStr := first_value alertId in
  let* alertIdStr := required alertIdStr "Alert ID is required" in
  let* response := OpsGenieClient.getAlert client (fetch_alert remote) alertIdStr in
  let alert := GetAlertResponse.data response in
  ret (json_contents href (Alert_object alert)).

Definition alert_details (client : OpsGenieClient.t) (remote : Remote)
           (href : string) (alertId : option TemplateVariable)
  : M ReadResourceResult :=
  try_catch (alert_details_try client remote href alertId)
            (rethrow "Failed to fetch alert details: ").

(** The [try] block of [alert_notes]. *)
Definition alert_notes_try (client : OpsGenieClient.t) (remote : Remote)
           (href : string) (alertId : option TemplateVariable)
  : M ReadResourceResult :=
  let alertIdStr := first_value alertId in
  let* alertIdStr := required alertIdStr "Alert ID is required" in
  let* response :=
    OpsGenieClient.getAlertNotes client (fetch_notes remote) alertIdStr
      {| AlertNotesParams.offset := None;
         AlertNotesParams.direction := None;
         AlertNotesParams.limit := Some (Number.of_Z 50);
         AlertNotesParams.order := None |} in
  let notes := ListAlertNotesResponse.data response in
  ret (json_contents href (JArr (map AlertNote_object notes))).

Definition alert_notes (client : OpsGenieClient.t) (remote : Remote)
           (href : string) (alertId : option TemplateVariable)
  : M ReadResourceResult :=
  try_catch (alert_notes_try client remote href alertId)
            (rethrow "Failed to fetch alert notes: ").

(** [decodeURIComponent(s)], throwing its URIError. *)
Definition decode_or_throw (s : string) : M string :=
  match Uri.decodeURIComponent s with
  | Some d => ret d
  | None => throw (ErrorObject "URI malformed")
  end.

(** The [try] block of [alert_search]. *)
Definition alert_search_try (client : OpsGenieClient.t) (remote : Remote)
           (href : string) (query : option TemplateVariable)
  : M ReadResourceResult :=
  let queryStr := first_value query in
  let* queryStr := required queryStr "Query is required" in
  let* decoded := decode_or_throw queryStr in
  let* response :=
    OpsGenieClient.searchAlerts client (fetch_alerts remote)
      {| AlertSearchParams.query := Some decoded;
         AlertSearchParams.searchIdentifier := None;
         AlertSearchParams.searchIdentifierType := None;
         AlertSearchParams.offset := None;
         AlertSearchParams.limit := Some (Number.of_Z 20);
         AlertSearchParams.sort := None;
         AlertSearchParams.order := None |} in
  let alerts := ListAlertsResponse.data response in
  ret (json_contents href (JArr (map BaseAlert_object alerts))).

Definition alert_search (client : OpsGenieClient.t) (remote : Remote)
           (href : string) (query : option TemplateVariable)
  : M ReadResourceResult :=
  try_catch (alert_search_try client remote href query)
            (rethrow "Failed to search alerts: ").

(** The [try] block of [recent_alerts]. *)
Definition recent_alerts_try (client : OpsGenieClient.t) (remote : Remote)
           (href : string) : M ReadResourceResult :=
  let* response :=
    OpsGenieClient.searchAlerts client (fetch_alerts remote)
      {| AlertSearchParams.query := Some "status:open OR status:acknowledged";
         AlertSearchParams.searchIdentifier := None;
         AlertSearchParams.searchIdentifierType := None;
         AlertSearchParams.offset := None;
         AlertSearchParams.limit := Some (Number.of_Z 25);
         AlertSearchParams.sort := Some "updatedAt";
         AlertSearchParams.order := Some "desc" |} in
  let alerts := ListAlertsResponse.data response in
  ret (json_contents href (JArr (map BaseAlert_object alerts))).

Definition recent_alerts (client : OpsGenieClient.t) (remote : Remote)
           (href : string) : M ReadResourceResult :=
  try_catch (recent_alerts_try client remote href)
            (rethrow "Failed to fetch recent alerts: ").

(** *** Tool handlers

    The handlers are given for the arguments they are run on: arguments
    that the registered input schema accepts ([inputSchema_accepts]
    below), with an alert identifier that [encodeURIComponent] accepts. *)

Inductive Priority : Type := P1 | P2 | P3 | P4 | P5.

Definition Priority_string (p : Priority) : string :=
  match p with
  | P1 => "P1" | P2 => "P2" | P3 => "P3" | P4 => "P4" | P5 => "P5"
  end.

Inductive ResponderType : Type := user | team | escalation.

Definition ResponderType_string (r : ResponderType) : string :=
  match r with
  | user => "user" | team => "team" | escalation => "escalation"
  end.

(** The [catch] block of a tool handler. *)
Definition error_result (prefix : string) (error : thrown) : M CallToolResult :=
  ret {| content := [TextContent (prefix +:+ message_of error)];
         isError := Some true |}.

Definition text_result (text : string) : CallToolResult :=
  {| content := [TextContent text]; isError := None |}.

(** [...(v && { k: v })] for an optional string [v]. *)
Definition spread_string (k : string) (v : option string)
  : list (string * JValue) :=
  member k JStr (truthy v).

(** The [try] block of [get_alert_details]. *)
Definition get_alert_details_try (client : OpsGenieClient.t) (remote : Remote)
           (identifier : string) : M CallToolResult :=
  let* response := OpsGenieClient.getAlert client (fetch_alert remote) identifier in
  let alert := GetAlertResponse.data response in
  let id := BaseAlert.id (Alert.base alert) in
  ret {| content :=
           [ TextContent (formatAlertDetails alert);
             ResourceLink ("opsgenie://alerts/" +:+ id)
                          ("Alert " +:+ id)
                          ("Detailed JSON data for alert " +:+ id)
                          "application/json" ];
         isError := None |}.

Definition get_alert_details (client : OpsGenieClient.t) (remote : Remote)
           (identifier : string) : M CallToolResult :=
  try_catch (get_alert_details_try client remote identifier)
            (error_result "Error fetching alert details: ").

(** The [try] block of [get_alert_notes]. *)
Definition get_alert_notes_try (client : OpsGenieClient.t) (remote : Remote)
           (identifier : string) (limit : Number.t) : M CallToolResult :=
  let* response :=
    OpsGenieClient.getAlertNotes client (fetch_notes remote) identifier
      {| AlertNotesParams.offset := None;
         AlertNotesParams.direction := None;
         AlertNotesParams.limit := Some limit;
         AlertNotesParams.order := None |} in
  let notes := ListAlertNotesResponse.data response in
  if bool_decide (length notes = 0%nat) then
    ret (text_result "No notes found for this alert.")
  else
    let notesText :=
      Str.join (Str.newline +:+ Str.newline)
        (imap (fun index note =>
                 Str.of_nat (index + 1) +:+ ". " +:+ AlertNote.note note
                 +:+ Str.newline +:+ "   By: " +:+ AlertNote.owner note
                 +:+ Str.newline +:+ "   Created: " +:+ AlertNote.createdAt note)
              notes) in
    ret {| content :=
             [ TextContent ("Notes for alert " +:+ identifier +:+ ":"
                            +:+ Str.newline +:+ Str.newline +:+ notesText);
               ResourceLink ("opsgenie://alerts/" +:+ identifier +:+ "/notes")
                            ("Notes for Alert " +:+ identifier)
                            ("Complete JSON data for notes on alert " +:+ identifier)
                            "application/json" ];
           isError := None |}.

Definition get_alert_notes (client : OpsGenieClient.t) (remote : Remote)
           (identifier : string) (limit : option Number.t) : M CallToolResult :=
  let limit := default (Number.of_Z 10) limit in
  try_catch (get_alert_notes_try client remote identifier limit)
            (error_result "Error fetching alert notes: ").

(** The [try] block of [search_alerts]. *)
Definition search_alerts_try (client : OpsGenieClient.t) (remote : Remote)
           (query : string) (limit : Number.t) : M CallToolResult :=
  let* response :=
    OpsGenieClient.searchAlerts client (fetch_alerts remote)
      {| AlertSearchParams.query := Some query;
         AlertSearchParams.searchIdentifier := None;
         AlertSearchParams.searchIdentifierType := None;
         AlertSearchParams.offset := None;
         AlertSearchParams.limit := Some limit;
         AlertSearchParams.sort := None;
         AlertSearchParams.order := None |} in
  let alerts := ListAlertsResponse.data response in
  if bool_decide (length alerts = 0%nat) then
    ret (text_result ("No alerts found matching query: " +:+ Str.dquote
                      +:+ query +:+ Str.dquote))
  else
    let alertsText :=
      Str.join (Str.newline +:+ Str.newline)
        (imap (fun index alert =>
                 Str.of_nat (index + 1) +:+ ". "
                 +:+ Js.ToString_opt (BaseAlert.message alert)
                 +:+ " (ID: " +:+ BaseAlert.id alert +:+ ")"
                 +:+ Str.newline
                 +:+ "   Status: " +:+ Js.ToString_opt (BaseAlert.status alert)
                 +:+ " | Priority: " +:+ Js.ToString_opt (BaseAlert.priority alert)
                 +:+ Str.newline
                 +:+ "   Created: " +:+ Js.ToString_opt (BaseAlert.createdAt alert))
              alerts) in
    ret {| content :=
             [ TextContent ("Found " +:+ Str.of_nat (length alerts)
                            +:+ " alerts matching " +:+ Str.dquote +:+ query
                            +:+ Str.dquote +:+ ":"
                            +:+ Str.newline +:+ Str.newline +:+ alertsText);
               ResourceLink ("opsgenie://search?query="
                             +:+ Uri.encodeURIComponent query)
                            ("Search Results: " +:+ query)
                            ("Complete JSON data for alerts matching "
                             +:+ Str.dquote +:+ query +:+ Str.dquote)
                            "application/json" ];
           isError := None |}.

Definition search_alerts (client : OpsGenieClient.t) (remote : Remote)
           (query : string) (limit : option Number.t) : M CallToolResult :=
  let limit := default (Number.of_Z 20) limit in
  try_catch (search_alerts_try client remote query limit)
            (error_result "Error searching alerts: ").

(** [response.result || response.data?.result || fallback] *)
Definition result_text (response : JValue) (fallback : string) : M string :=
  let* result := await (Js.get response "result") in
  if Js.truthy_value result then ret (Js.ToString result)
  else
    let* data := await (Js.get response "data") in
    ret (Js.ToString (Js.or_else (Js.get_optional data "result")
                                 (Some (JStr fallback)))).

(** The [try] block of [close_alert]. *)
Definition close_alert_try (client : OpsGenieClient.t) (remote : Remote)
           (identifier : string) (note : option string) : M CallToolResult :=
  let* response :=
    OpsGenieClient.closeAlert client (fetch_any remote) identifier note in
  let* result := result_text response "Alert closed" in
  ret (text_result ("Successfully closed alert " +:+ identifier
                    +:+ ". Result: " +:+ result)).

Definition close_alert (client : OpsGenieClient.t) (remote : Remote)
           (identifier : string) (note : option string) : M CallToolResult :=
  try_catch (close_alert_try client remote identifier note)
            (error_result "Error closing alert: ").

(** The [try] block of [acknowledge_alert]. *)
Definition acknowledge_alert_try (client : OpsGenieClient.t) (remote : Remote)
           (identifier : string) (note : option string) : M CallToolResult :=
  let* response :=
    OpsGenieClient.acknowledgeAlert client (fetch_any remote) identifier note in
  let* result := result_text response "Alert acknowledged" in
  ret (text_result ("Successfully acknowledged alert " +:+ identifier
                    +:+ ". Result: " +:+ result)).

Definition acknowledge_alert (client : OpsGenieClient.t) (remote : Remote)
           (identifier : string) (note : option string) : M CallToolResult :=
  try_catch (acknowledge_alert_try client remote identifier note)
            (error_result "Error acknowledging alert: ").

(** The [try] block of [create_alert]. *)
Definition create_alert_try (client : OpsGenieClient.t) (remote : Remote)
           (message : string) (description : option string)
           (priority : option Priority) (tags : option (list string))
           (alias entity source note : option string) : M CallToolResult :=
  let alertData :=
    JObj ([("message", JStr message)]
          ++ spread_string "description" description
          ++ member "priority" (fun p => JStr (Priority_string p)) priority
          ++ member "tags" strings tags
          ++ spread_string "alias" alias
          ++ spread_string "entity" entity
          ++ spread_string "source" source
          ++ spread_string "note" note) in
  let* response :=
    OpsGenieClient.createAlert client (fetch_any remote) alertData in
  let* data := await (Js.get response "data") in
  let alertId := Js.or_else (Js.get_optional data "alertId") (Some (JStr "N/A")) in
  let* requestId := await (Js.get response "requestId") in
  ret (text_result ("Successfully created alert. Alert ID: "
                    +:+ Js.ToString alertId
                    +:+ ", Request ID: " +:+ Js.ToString requestId)).

Definition create_alert (client : OpsGenieClient.t) (remote : Remote)
           (message : string) (description : option string)
           (priority : option Priority) (tags : option (list string))
           (alias entity source note : option string) : M CallToolResult :=
  try_catch (create_alert_try client remote message description priority tags
                              alias entity source note)
            (error_result "Error creating alert: ").

(** [`${before}. Request ID: ${response.requestId}`] *)
Definition with_request_id (before : string) (response : JValue)
  : M CallToolResult :=
  let* requestId := await (Js.get response "requestId") in
  ret (text_result (before +:+ ". Request ID: " +:+ Js.ToString requestId)).

(** The [try] block of [add_note_to_alert]. *)
Definition add_note_to_alert_try (client : OpsGenieClient.t) (remote : Remote)
           (identifier note : string) : M CallToolResult :=
  let* response :=
    OpsGenieClient.addNoteToAlert client (fetch_any remote) identifier
      (JObj [("note", JStr note)]) in
  with_request_id ("Successfully added note to alert " +:+ identifier) response.

Definition add_note_to_alert (client : OpsGenieClient.t) (remote : Remote)
           (identifier note : string) : M CallToolResult :=
  try_catch (add_note_to_alert_try client remote identifier note)
            (error_result "Error adding note to alert: ").

(** The [try] block of [assign_alert]. *)
Definition assign_alert_try (client : OpsGenieClient.t) (remote : Remote)
           (identifier : string) (responderType : ResponderType)
           (responderId : string) (note : option string) : M CallToolResult :=
  let assignData :=
    JObj ([("owner",
            JObj [("type", JStr (ResponderType_string responderType));
                  ("id", JStr responderId)])]
          ++ spread_string "note" note) in
  let* response :=
    OpsGenieClient.assignAlert client (fetch_any remote) identifier assignData in
  with_request_id ("Successfully assigned alert " +:+ identifier +:+ " to "
                   +:+ ResponderType_string responderType +:+ " " +:+ responderId)
                  response.

Definition assign_alert (client : OpsGenieClient.t) (remote : Remote)
           (identifier : string) (responderType : ResponderType)
           (responderId : string) (note : option string) : M CallToolResult :=
  try_catch (assign_alert_try client remote identifier responderType
                              responderId note)
            (error_result "Error assigning alert: ").

(** The [try] block of [snooze_alert]. *)
Definition snooze_alert_try (client : OpsGenieClient.t) (remote : Remote)
           (identifier endTime : string) (note : option string)
  : M CallToolResult :=
  let snoozeData :=
    JObj ([("endTime", JStr endTime)] ++ spread_string "note" note) in
  let* response :=
    OpsGenieClient.snoozeAlert client (fetch_any remote) identifier snoozeData in
  with_request_id ("Successfully snoozed alert " +:+ identifier +:+ " until "
                   +:+ endTime)
                  response.

Definition snooze_alert (client : OpsGenieClient.t) (remote : Remote)
           (identifier endTime : string) (note : option string)
  : M CallToolResult :=
  try_catch (snooze_alert_try client remote identifier endTime note)
            (error_result "Error snoozing alert: ").

(** The [try] block of [unacknowledge_alert]. *)
Definition unacknowledge_alert_try (client : OpsGenieClient.t) (remote : Remote)
           (identifier : string) (note : option string) : M CallToolResult :=
  let* response :=
    OpsGenieClient.unacknowledgeAlert client (fetch_any remote) identifier note in
  with_request_id ("Successfully unacknowledged alert " +:+ identifier) response.

Definition unacknowledge_alert (client : OpsGenieClient.t) (remote : Remote)
           (identifier : string) (note : option string) : M CallToolResult :=
  try_catch (unacknowledge_alert_try client remote identifier note)
            (error_result "Error unacknowledging alert: ").

(** The [try] block of [escalate_alert]. *)
Definition escalate_alert_try (client : OpsGenieClient.t) (remote : Remote)
           (identifier escalationName : string) (note : option string)
  : M CallToolResult :=
  let escalationData :=
    JObj ([("escalation", JObj [("name", JStr escalationName)])]
          ++ spread_string "note" note) in
  let* response :=
    OpsGenieClient.escalateAlert client (fetch_any remote) identifier
      escalationData in
  with_request_id ("Successfully escalated alert " +:+ identifier +:+ " to "
                   +:+ escalationName)
                  response.

Definition escalate_alert (client : OpsGenieClient.t) (remote : Remote)
           (identifier escalationName : string) (note : option string)
  : M CallToolResult :=
  try_catch (escalate_alert_try client remote identifier escalationName note)
            (error_result "Error escalating alert: ").

(** The [try] block of [add_tags_to_alert]. *)
Definition add_tags_to_alert_try (client : OpsGenieClient.t) (remote : Remote)
           (identifier : string) (tags : list string) (note : option string)
  : M CallToolResult :=
  let* response :=
    OpsGenieClient.addTagsToAlert client (fetch_any remote) identifier tags note in
  with_request_id ("Successfully added tags [" +:+ Str.join ", " tags
                   +:+ "] to alert " +:+ identifier)
                  response.

Definition add_tags_to_alert (client : OpsGenieClient.t) (remote : Remote)
           (identifier : string) (tags : list string) (note : option string)
  : M CallToolResult :=
  try_catch (add_tags_to_alert_try client remote identifier tags note)
            (error_result "Error adding tags to alert: ").

(** The [try] block of [remove_tags_from_alert]. *)
Definition remove_tags_from_alert_try (client : OpsGenieClient.t) (remote : Remote)
           (identifier : string) (tags : list string) (note : option string)
  : M CallToolResult :=
  let* response :=
    OpsGenieClient.removeTagsFromAlert client (fetch_any remote) identifier
      tags note in
  with_request_id ("Successfully removed tags [" +:+ Str.join ", " tags
                   +:+ "] from alert " +:+ identifier)
                  response.

Definition remove_tags_from_alert (client : OpsGenieClient.t) (remote : Remote)
           (identifier : string) (tags : list string) (note : option string)
  : M CallToolResult :=
  try_catch (remove_tags_from_alert_try client remote identifier tags note)
            (error_result "Error removing tags from alert: ").

(** The [try] block of [get_alert_count]. *)
Definition get_alert_count_try (client : OpsGenieClient.t) (remote : Remote)
           (query : option string) : M CallToolResult :=
  let* response :=
    OpsGenieClient.countAlerts client (fetch_count remote)
      {| AlertCountParams.query := truthy query;
         AlertCountParams.searchIdentifier := None;
         AlertCountParams.searchIdentifierType := None |} in
  let count := CountData.count (GetCountAlertsResponse.data response) in
  ret (text_result
         match truthy query with
         | Some q => "Found " +:+ Str.of_Z count +:+ " alerts matching query "
                     +:+ Str.dquote +:+ q +:+ Str.dquote
         | None => "Total alerts: " +:+ Str.of_Z count
         end).

Definition get_alert_count (client : OpsGenieClient.t) (remote : Remote)
           (query : option string) : M CallToolResult :=
  try_catch (get_alert_count_try client remote query)
            (error_result "Error getting alert count: ").

(** *** The tool registry *)

(** An invocation of a registered tool, with the arguments of its input
    schema. *)
Inductive ToolCall : Type :=
| GetAlertDetails (identifier : string)
| GetAlertNotes (identifier : string) (limit : option Number.t)
| SearchAlerts (query : string) (limit : option Number.t)
| CloseAlert (identifier : string) (note : option string)
| AcknowledgeAlert (identifier : string) (note : option string)
| CreateAlert (message : string) (description : option string)
              (priority : option Priority) (tags : option (list string))
              (alias entity source note : option string)
| AddNoteToAlert (identifier note : string)
| AssignAlert (identifier : string) (responderType : ResponderType)
              (responderId : string) (note : option string)
| SnoozeAlert (identifier endTime : string) (note : option string)
| UnacknowledgeAlert (identifier : string) (note : option string)
| EscalateAlert (identifier escalationName : string) (note : option string)
| AddTagsToAlert (identifier : string) (tags : list string) (note : option string)
| RemoveTagsFromAlert (identifier : string) (tags : list string)
                      (note : option string)
| GetAlertCount (query : option string).

(** Whether the registered input schema accepts the arguments of [call].
    The constructors type the arguments as the schemas do; the one
    constraint on a value is [z.number().min(1).max(100).optional()], on
    the [limit] of [get-alert-notes] and of [search-alerts]. *)
Definition inputSchema_accepts (call : ToolCall) : bool :=
  match call with
  | GetAlertNotes _ (Some limit) | SearchAlerts _ (Some limit) =>
      Number.within 1 100 limit
  | _ => true
  end.

(** The alert identifier among the arguments of [call], which the client
    gives to [encodeURIComponent] before it sends anything. *)
Definition identifier_of (call : ToolCall) : option string :=
  match call with
  | GetAlertDetails identifier | GetAlertNotes identifier _
  | CloseAlert identifier _ | AcknowledgeAlert identifier _
  | AddNoteToAlert identifier _ | AssignAlert identifier _ _ _
  | SnoozeAlert identifier _ _ | UnacknowledgeAlert identifier _
  | EscalateAlert identifier _ _ | AddTagsToAlert identifier _ _
  | RemoveTagsFromAlert identifier _ _ => Some identifier
  | SearchAlerts _ _ | CreateAlert _ _ _ _ _ _ _ _ | GetAlertCount _ => None
  end.

(** The identifier of [call], if it has one, holds no lone surrogate. *)
Definition identifier_encodes (call : ToolCall) : bool :=
  match identifier_of call with
  | Some identifier => Utf8.well_formed identifier
  | None => true
  end.

(** The name each tool is registered under. *)
Definition tool_name (call : ToolCall) : string :=
  match call with
  | GetAlertDetails _ => "get-alert-details"
  | GetAlertNotes _ _ => "get-alert-notes"
  | SearchAlerts _ _ => "search-alerts"
  | CloseAlert _ _ => "close-alert"
  | AcknowledgeAlert _ _ => "acknowledge-alert"
  | CreateAlert _ _ _ _ _ _ _ _ => "create-alert"
  | AddNoteToAlert _ _ => "add-note-to-alert"
  | AssignAlert _ _ _ _ => "assign-alert"
  | SnoozeAlert _ _ _ => "snooze-alert"
  | UnacknowledgeAlert _ _ => "unacknowledge-alert"
  | EscalateAlert _ _ _ => "escalate-alert"
  | AddTagsToAlert _ _ _ => "add-tags-to-alert"
  | RemoveTagsFromAlert _ _ _ => "remove-tags-from-alert"
  | GetAlertCount _ => "get-alert-count"
  end.

(** The text that starts the message of each tool's [catch] block. *)
Definition tool_error_prefix (call : ToolCall) : string :=
  match call with
  | GetAlertDetails _ => "Error fetching alert details: "
  | GetAlertNotes _ _ => "Error fetching alert notes: "
  | SearchAlerts _ _ => "Error searching alerts: "
  | CloseAlert _ _ => "Error closing alert: "
  | AcknowledgeAlert _ _ => "Error acknowledging alert: "
  | CreateAlert _ _ _ _ _ _ _ _ => "Error creating alert: "
  | AddNoteToAlert _ _ => "Error adding note to alert: "
  | AssignAlert _ _ _ _ => "Error assigning alert: "
  | SnoozeAlert _ _ _ => "Error snoozing alert: "
  | UnacknowledgeAlert _ _ => "Error unacknowledging alert: "
  | EscalateAlert _ _ _ => "Error escalating alert: "
  | AddTagsToAlert _ _ _ => "Error adding tags to alert: "
  | RemoveTagsFromAlert _ _ _ => "Error removing tags from alert: "
  | GetAlertCount _ => "Error getting alert count: "
  end.

(** The handler registered for each tool. *)
Definition callTool (client : OpsGenieClient.t) (remote : Remote)
           (call : ToolCall) : M CallToolResult :=
  match call with
  | GetAlertDetails identifier => get_alert_details client remote identifier
  | GetAlertNotes identifier limit => get_alert_notes client remote identifier limit
  | SearchAlerts query limit => search_alerts client remote query limit
  | CloseAlert identifier note => close_alert client remote identifier note
  | AcknowledgeAlert identifier note =>
      acknowledge_alert client remote identifier note
  | CreateAlert message description priority tags alias entity source note =>
      create_alert client remote message description priority tags alias entity
                   source note
  | AddNoteToAlert identifier note => add_note_to_alert client remote identifier note
  | AssignAlert identifier responderType responderId note =>
      assign_alert client remote identifier responderType responderId note
  | SnoozeAlert identifier endTime note =>
      snooze_alert client remote identifier endTime note
  | UnacknowledgeAlert identifier note =>
      unacknowledge_alert client remote identifier note
  | EscalateAlert identifier escalationName note =>
      escalate_alert client remote identifier escalationName note
  | AddTagsToAlert identifier tags note =>
      add_tags_to_alert client remote identifier tags note
  | RemoveTagsFromAlert identifier tags note =>
      remove_tags_from_alert client remote identifier tags note
  | GetAlertCount query => get_alert_count client remote query
  end.

(** The [try] block of the handler registered for each tool. *)
Definition tool_try (client : OpsGenieClient.t) (remote : Remote)
           (call : ToolCall) : M CallToolResult :=
  match call with
  | GetAlertDetails identifier => get_alert_details_try client remote identifier
  | GetAlertNotes identifier limit =>
      get_alert_notes_try client remote identifier
                          (default (Number.of_Z 10) limit)
  | SearchAlerts query limit =>
      search_alerts_try client remote query (default (Number.of_Z 20) limit)
  | CloseAlert identifier note => close_alert_try client remote identifier note
  | AcknowledgeAlert identifier note =>
      acknowledge_alert_try client remote identifier note
  | CreateAlert message description priority tags alias entity source note =>
      create_alert_try client remote message description priority tags alias
                       entity source note
  | AddNoteToAlert identifier note =>
      add_note_to_alert_try client remote identifier note
  | AssignAlert identifier responderType responderId note =>
      assign_alert_try client remote identifier responderType responderId note
  | SnoozeAlert identifier endTime note =>
      snooze_alert_try client remote identifier endTime note
  | UnacknowledgeAlert identifier note =>
      unacknowledge_alert_try client remote identifier note
  | EscalateAlert identifier escalationName note =>
      escalate_alert_try client remote identifier escalationName note
  | AddTagsToAlert identifier tags note =>
      add_tags_to_alert_try client remote identifier tags note
  | RemoveTagsFromAlert identifier tags note =>
      remove_tags_from_alert_try client remote identifier tags note
  | GetAlertCount query => get_alert_count_try client remote query
  end.

(** *** The resource registry *)

(** A read of a registered resource, with the variables its template
    binds. *)
Inductive ResourceRead : Type :=
| AlertDetails (href : string) (alertId : option TemplateVariable)
| AlertNotes (href : string) (alertId : option TemplateVariable)
| AlertSearch (href : string) (query : option TemplateVariable)
| RecentAlerts (href : string).

Definition readResource (client : OpsGenieClient.t) (remote : Remote)
           (read : ResourceRead) : M ReadResourceResult :=
  match read with
  | AlertDetails href alertId => alert_details client remote href alertId
  | AlertNotes href alertId => alert_notes client remote href alertId
  | AlertSearch href query => alert_search client remote href query
  | RecentAlerts href => recent_alerts client remote href
  end.

(** The [try] block of the handler registered for each resource. *)
Definition resource_try (client : OpsGenieClient.t) (remote : Remote)
           (read : ResourceRead) : M ReadResourceResult :=
  match read with
  | AlertDetails href alertId => alert_details_try client remote href alertId
  | AlertNotes href alertId => alert_notes_try client remote href alertId
  | AlertSearch href query => alert_search_try client remote href query
  | RecentAlerts href => recent_alerts_try client remote href
  end.

(** The text that starts the message of each resource's [catch] block. *)
Definition resource_error_prefix (read : ResourceRead) : string :=
  match read with
  | AlertDetails _ _ => "Failed to fetch alert details: "
  | AlertNotes _ _ => "Failed to fetch alert notes: "
  | AlertSearch _ _ => "Failed to search alerts: "
  | RecentAlerts _ => "Failed to fetch recent alerts: "
  end.



(** Modelled from the spec: the matcher of the protocol SDK that resolves
    a request URI against a registered template; the SDK is not part of
    the sources. The spec (4.3, 4.4) has the named placeholder resolved
    positionally against the request URI and the identifier embedded in
    the URI extracted and passed to the read function. Here a template
    is a literal prefix, one placeholder and a literal suffix, and the
    placeholder stands for a non-empty run of bytes other than [/] and
    [,]. *)
Fixpoint take_segment (s : string) : string * string :=
  match s with
  | EmptyString => (EmptyString, EmptyString)
  | String a r =>
      if Str.ascii_eqb a "/" || Str.ascii_eqb a "," then (EmptyString, s)
      else let '(seg, rest) := take_segment r in (String a seg, rest)
  end.

Definition match_template (prefix suffix uri : string) : option TemplateVariable :=
  match Str.strip_prefix prefix uri with
  | Some rest =>
      let '(seg, tail) := take_segment rest in
      if bool_decide (seg <> EmptyString) && bool_decide (tail = suffix)
      then Some (One seg) else None
  | None => None
  end.

(** The read that the template [opsgenie://alerts/{alertId}] of the
    [alert-details] resource resolves [uri] to. *)
Definition resolve_alert_details (uri : string) : option ResourceRead :=
  match match_template "opsgenie://alerts/" EmptyString uri with
  | Some alertId => Some (AlertDetails uri (Some alertId))
  | None => None
  end.

End Server.

(** ** The operations that name one alert *)

Module Operations.
Import Json Http.

(** A call of one of the client operations that take an alert
    identifier, with its other arguments. *)
Inductive AlertOperation : Type :=
| GetAlert
| GetAlertNotes (params : AlertNotesParams.t)
| CloseAlert (note : option string)
| AcknowledgeAlert (note : option string)
| UnacknowledgeAlert (note : option string)
| SnoozeAlert (snoozeData : JValue)
| AssignAlert (assignData : JValue)
| EscalateAlert (escalationData : JValue)
| AddNoteToAlert (noteData : JValue)
| AddTagsToAlert (tags : list string) (note : option string)
| RemoveTagsFromAlert (tags : list string) (note : option string).

(** The calls of [fetch] the operation makes once [identifier] is
    encoded. *)
Definition requests (this : OpsGenieClient.t) (remote : Server.Remote)
           (identifier : string) (op : AlertOperation) : list FetchCall :=
  let any := Server.fetch_any remote in
  match op with
  | GetAlert =>
      calls (OpsGenieClient.getAlert this (Server.fetch_alert remote) identifier)
  | GetAlertNotes params =>
      calls (OpsGenieClient.getAlertNotes this (Server.fetch_notes remote)
                                          identifier params)
  | CloseAlert note => calls (OpsGenieClient.closeAlert this any identifier note)
  | AcknowledgeAlert note =>
      calls (OpsGenieClient.acknowledgeAlert this any identifier note)
  | UnacknowledgeAlert note =>
      calls (OpsGenieClient.unacknowledgeAlert this any identifier note)
  | SnoozeAlert snoozeData =>
      calls (OpsGenieClient.snoozeAlert this any identifier snoozeData)
  | AssignAlert assignData =>
      calls (OpsGenieClient.assignAlert this any identifier assignData)
  | EscalateAlert escalationData =>
      calls (OpsGenieClient.escalateAlert this any identifier escalationData)
  | AddNoteToAlert noteData =>
      calls (OpsGenieClient.addNoteToAlert this any identifier noteData)
  | AddTagsToAlert tags note =>
      calls (OpsGenieClient.addTagsToAlert this any identifier tags note)
  | RemoveTagsFromAlert tags note =>
      calls (OpsGenieClient.removeTagsFromAlert this any identifier tags note)
  end.

(** The operation on the alert [identifier], as the method runs it on any
    string; the value it returns is left out. *)
Definition run (this : OpsGenieClient.t) (remote : Server.Remote)
           (identifier : string) (op : AlertOperation) : M unit :=
  let any := Server.fetch_any remote in
  let done {A} (m : M A) : M unit := let* _ := m in ret tt in
  match op with
  | GetAlert => done (Method.getAlert this (Server.fetch_alert remote) identifier)
  | GetAlertNotes params =>
      done (Method.getAlertNotes this (Server.fetch_notes remote)
                                 identifier params)
  | CloseAlert note => done (Method.closeAlert this any identifier note)
  | AcknowledgeAlert note =>
      done (Method.acknowledgeAlert this any identifier note)
  | UnacknowledgeAlert note =>
      done (Method.unacknowledgeAlert this any identifier note)
  | SnoozeAlert snoozeData =>
      done (Method.snoozeAlert this any identifier snoozeData)
  | AssignAlert assignData =>
      done (Method.assignAlert this any identifier assignData)
  | EscalateAlert escalationData =>
      done (Method.escalateAlert this any identifier escalationData)
  | AddNoteToAlert noteData =>
      done (Method.addNoteToAlert this any identifier noteData)
  | AddTagsToAlert tags note =>
      done (Method.addTagsToAlert this any identifier tags note)
  | RemoveTagsFromAlert tags note =>
      done (Method.removeTagsFromAlert this any identifier tags note)
  end.

(** The calls of [fetch] the operation makes on the alert [identifier]. *)
Definition issued (this : OpsGenieClient.t) (remote : Server.Remote)
           (identifier : string) (op : AlertOperation) : list FetchCall :=
  calls (run this remote identifier op).

End Operations.

(** ** Example data: a client, documents and remotes used to run the model *)

Module Sample.
Import Json Http Server.

(** The configuration the server builds from the key [k1], and its
    client. *)
Definition config : OpsGenieClientConfig.t :=
  {| OpsGenieClientConfig.apiKey := "k1"; OpsGenieClientConfig.baseUrl := None |}.

Definition client : OpsGenieClient.t := OpsGenieClient.constructor config.

Definition base_A1 : BaseAlert.t :=
  {| BaseAlert.id := "A1"; BaseAlert.tinyId := None; BaseAlert.alias := None;
     BaseAlert.message := Some "Disk full"; BaseAlert.status := Some "open";
     BaseAlert.acknowledged := Some false; BaseAlert.isSeen := None;
     BaseAlert.tags := Some ["db"; "prod"]; BaseAlert.snoozed := None;
     BaseAlert.snoozedUntil := None; BaseAlert.count := Some 1;
     BaseAlert.lastOccurredAt := None; BaseAlert.createdAt := None;
     BaseAlert.updatedAt := None; BaseAlert.source := None;
     BaseAlert.owner := None; BaseAlert.priority := Some "P1";
     BaseAlert.responders := None; BaseAlert.integration := None;
     BaseAlert.report := None |}.

Definition alert_A1 : Alert.t :=
  {| Alert.base := base_A1; Alert.actions := None; Alert.entity := None;
     Alert.description := None; Alert.details := None |}.

Definition document_A1 : GetAlertResponse.t :=
  {| GetAlertResponse.requestId := "r1"; GetAlertResponse.data := alert_A1 |}.


(** Search parameters with a query, an offset of zero and a limit. *)
Definition search_page : AlertSearchParams.t :=
  {| AlertSearchParams.query := Some "status:open AND tag:db";
     AlertSearchParams.searchIdentifier := None;
     AlertSearchParams.searchIdentifierType := None;
     AlertSearchParams.offset := Some Number.Zero;
     AlertSearchParams.limit := Some (Number.of_Z 20);
     AlertSearchParams.sort := Some EmptyString;
     AlertSearchParams.order := Some "desc" |}.

(** Options whose [headers] set an [Authorization] of their own. *)
Definition options_with_authorization : RequestInit :=
  {| method := None;
     headers := Some (<["Authorization" := "Bearer other"]> ∅);
     body := None |}.

(** Options whose [body] is an object, not a string. *)
Definition options_with_object_body : RequestInit :=
  {| method := Some "POST"; headers := None;
     body := Some (BodyObject "[object Object]") |}.

(** A response with status 200 whose JSON body is [document]. *)
Definition response_200 {T} (document : T) : Response T :=
  {| status := 200; statusText := "OK";
     Http.text := inr EmptyString; json := inr document |}.

(** A response with status 404 and the body [not found]. *)
Definition response_404 {T} : Response T :=
  {| status := 404; statusText := "Not Found";
     Http.text := inr "not found";
     json := inl (ErrorObject "Unexpected token o in JSON") |}.

(** A remote that answers every request with the same response. *)
Definition always {T} (response : Response T) : Fetch T :=
  fun _ _ => inr response.

(** A remote whose every request is rejected with [error]. *)
Definition rejecting {T} (error : thrown) : Fetch T :=
  fun _ _ => inl error.

Definition remote_404 : Remote :=
  {| fetch_alert := always response_404; fetch_alerts := always response_404;
     fetch_count := always response_404; fetch_notes := always response_404;
     fetch_any := always response_404 |}.

Definition remote_rejecting (error : thrown) : Remote :=
  {| fetch_alert := rejecting error; fetch_alerts := rejecting error;
     fetch_count := rejecting error; fetch_notes := rejecting error;
     fetch_any := rejecting error |}.

(** A string that is one lone surrogate, U+D800. *)
Definition lone_surrogate : string :=
  String (ascii_of_N 237) (String (ascii_of_N 160)
    (String (ascii_of_N 128) EmptyString)).


(** A response with status 500 whose body cannot be read. *)
Definition response_500_unreadable {T} : Response T :=
  {| status := 500; statusText := "Internal Server Error";
     Http.text := inl (ErrorObject "Premature close");
     json := inl (ErrorObject "Premature close") |}.

(** Two responses with status 502 that differ in status text and body. *)
Definition response_502_a {T} : Response T :=
  {| status := 502; statusText := "Bad Gateway - upstream";
     Http.text := inr "timeout";
     json := inl (ErrorObject "Unexpected token t in JSON") |}.

Definition response_502_b {T} : Response T :=
  {| status := 502; statusText := "Bad Gateway";
     Http.text := inr "upstream - timeout";
     json := inl (ErrorObject "Unexpected token u in JSON") |}.

(** The stub remote that returns the fixed document of alert A1. *)
Definition remote_A1 : Remote :=
  {| fetch_alert := always (response_200 document_A1);
     fetch_alerts := always response_404;
     fetch_count := always response_404;
     fetch_notes := always response_404;
     fetch_any := always (response_200 (JObj [])) |}.

End Sample.

(** ** Reading back a JSON string literal *)

Module JsonText.

(** The text between the quotes of a JSON string literal, with the
    escapes that [JSON.stringify] writes undone: a backslash before a
    quote, a backslash or one of [b f n r t], and [u00XY]. *)
Fixpoint unescape (s : string) : string :=
  match s with
  | EmptyString => EmptyString
  | String a r =>
      if Str.ascii_eqb a "\" then
        match r with
        | String c r1 =>
            if (Str.code c =? 34)%N then String c (unescape r1)
            else if Str.ascii_eqb c "\" then String c (unescape r1)
            else if Str.ascii_eqb c "b" then String (ascii_of_N 8) (unescape r1)
            else if Str.ascii_eqb c "f" then String (ascii_of_N 12) (unescape r1)
            else if Str.ascii_eqb c "n" then String (ascii_of_N 10) (unescape r1)
            else if Str.ascii_eqb c "r" then String (ascii_of_N 13) (unescape r1)
            else if Str.ascii_eqb c "t" then String (ascii_of_N 9) (unescape r1)
            else if Str.ascii_eqb c "u" then
              match r1 with
              | String _ (String _ (String h (String l r2))) =>
                  match Uri.hex_value h, Uri.hex_value l with
                  | Some x, Some y =>
                      String (ascii_of_N (16 * x + y)) (unescape r2)
                  | _, _ => String a (unescape r)
                  end
              | _ => String a (unescape r)
              end
            else String a (unescape r)
        | EmptyString => String a EmptyString
        end
      else String a (unescape r)
  end.

End JsonText.

(** ** The request line of each operation on one alert *)

Module Endpoints.
Import Operations.

(** The method each operation sets; [getAlert] and [getAlertNotes] set
    none. *)
Definition method_of (op : AlertOperation) : string :=
  match op with
  | GetAlert | GetAlertNotes _ => "GET"
  | RemoveTagsFromAlert _ _ => "DELETE"
  | _ => "POST"
  end.

(** What follows the encoded identifier in the path. *)
Definition path_suffix (op : AlertOperation) : string :=
  match op with
  | GetAlert => EmptyString
  | GetAlertNotes _ => "/notes"
  | CloseAlert _ => "/close"
  | AcknowledgeAlert _ => "/acknowledge"
  | UnacknowledgeAlert _ => "/unacknowledge"
  | SnoozeAlert _ => "/snooze"
  | AssignAlert _ => "/assign"
  | EscalateAlert _ => "/escalate"
  | AddNoteToAlert _ => "/notes"
  | AddTagsToAlert _ _ => "/tags"
  | RemoveTagsFromAlert _ _ => "/tags"
  end.

(** The name-value pairs of the query. *)
Definition query_of (op : AlertOperation) : Uri.URLSearchParams :=
  match op with
  | GetAlertNotes params => OpsGenieClient.getAlertNotes_search params
  | _ => [("identifierType", "id")]
  end.

(** The object whose JSON text is the payload, for the operations that
    send one. *)
Definition payload_of (op : AlertOperation) : option Json.JValue :=
  match op with
  | GetAlert | GetAlertNotes _ => None
  | CloseAlert note | AcknowledgeAlert note | UnacknowledgeAlert note =>
      Some (OpsGenieClient.body_with_note [] note)
  | SnoozeAlert data | AssignAlert data | EscalateAlert data
  | AddNoteToAlert data => Some data
  | AddTagsToAlert tags note | RemoveTagsFromAlert tags note =>
      Some (OpsGenieClient.body_with_note (OpsGenieClient.tags_member tags) note)
  end.

(** No string of the paging parameters of [getAlertNotes] holds a lone
    surrogate; the other operations write their query themselves. *)
Definition query_well_formed (op : AlertOperation) : bool :=
  match op with
  | GetAlertNotes params => AlertNotesParams.well_formed params
  | _ => true
  end.

End Endpoints.

(** ** More example data *)

Module Fixture.
Import Json Http Server.




(** A remote with one note on every alert and no alert for any search. *)
Definition one_note : ListAlertNotesResponse.t :=
  {| ListAlertNotesResponse.requestId := "n1";
     ListAlertNotesResponse.data :=
       [ {| AlertNote.note := "restarted"; AlertNote.owner := "ops@example.com";
            AlertNote.createdAt := "2024-01-01T00:00:00Z";
            AlertNote.offset := None |} ] |}.

Definition no_alerts : ListAlertsResponse.t :=
  {| ListAlertsResponse.requestId := "s1"; ListAlertsResponse.data := [];
     ListAlertsResponse.paging := None |}.

Definition remote_lists : Remote :=
  {| fetch_alert := Sample.always Sample.response_404;
     fetch_alerts := Sample.always (Sample.response_200 no_alerts);
     fetch_count := Sample.always Sample.response_404;
     fetch_notes := Sample.always (Sample.response_200 one_note);
     fetch_any := Sample.always Sample.response_404 |}.

(** Notes parameters with a continuation offset given as a string. *)
Definition notes_page : AlertNotesParams.t :=
  {| AlertNotesParams.offset := Some (inl "abc=1&x");
     AlertNotesParams.direction := Some "next";
     AlertNotesParams.limit := Some (Number.of_Z 30);
     AlertNotesParams.order := Some EmptyString |}.


End Fixture.

(** * Properties *)

(** ** Strings, cuts and splits *)

#[local] Arguments String.append !_ _ / : simpl nomatch.

Lemma append_nil_r (s : string) : s +:+ EmptyString = s.
Proof. induction s as [|a s IH]; cbn; [reflexivity | now rewrite IH]. Qed.

Lemma append_assoc (a b c : string) : (a +:+ b) +:+ c = a +:+ (b +:+ c).
Proof. induction a as [|x a IH]; cbn; [reflexivity | now rewrite IH]. Qed.

Lemma ascii_eqb_refl (a : ascii) : Str.ascii_eqb a a = true.
Proof. apply Ascii.eqb_refl. Qed.

Lemma includes_refl (s : string) : Str.includes s s.
Proof. exists EmptyString, EmptyString. now rewrite append_nil_r. Qed.

Lemma includes_append_l (s t u : string) : Str.includes t u -> Str.includes (s +:+ t) u.
Proof.
  intros (pre & post & ->). exists (s +:+ pre), post.
  now rewrite append_assoc.
Qed.

Lemma includes_append_r (s t u : string) : Str.includes s u -> Str.includes (s +:+ t) u.
Proof.
  intros (pre & post & ->). exists pre, (post +:+ t).
  now rewrite !append_assoc.
Qed.

Lemma endsWith_append (s t u : string) : Str.endsWith t u -> Str.endsWith (s +:+ t) u.
Proof.
  intros (pre & ->). exists (s +:+ pre). now rewrite append_assoc.
Qed.

Lemma has_byte_append (c : ascii) (a b : string) :
  Str.has_byte c (a +:+ b) = Str.has_byte c a || Str.has_byte c b.
Proof.
  induction a as [|x a IH]; cbn; [reflexivity|].
  rewrite IH. now rewrite orb_assoc.
Qed.

Lemma cut_absent (c : ascii) (s : string) :
  Str.has_byte c s = false -> Str.cut c s = (s, None).
Proof.
  induction s as [|a s IH]; cbn; [reflexivity|].
  intros H. apply orb_false_iff in H as [Ha Hs].
  rewrite Ha, (IH Hs). reflexivity.
Qed.

Lemma cut_first (c : ascii) (x y : string) :
  Str.has_byte c x = false -> Str.cut c (x +:+ String c y) = (x, Some y).
Proof.
  induction x as [|a x IH]; cbn.
  - intros _. now rewrite ascii_eqb_refl.
  - intros H. apply orb_false_iff in H as [Ha Hx].
    rewrite Ha, (IH Hx). reflexivity.
Qed.

Lemma split_absent (c : ascii) (s : string) :
  Str.has_byte c s = false -> Str.split c s = [s].
Proof.
  induction s as [|a s IH]; cbn; [reflexivity|].
  intros H. apply orb_false_iff in H as [Ha Hs].
  rewrite Ha, (IH Hs). reflexivity.
Qed.

Lemma split_first (c : ascii) (x y : string) :
  Str.has_byte c x = false ->
  Str.split c (x +:+ String c y) = x :: Str.split c y.
Proof.
  induction x as [|a x IH]; cbn.
  - intros _. now rewrite ascii_eqb_refl.
  - intros H. apply orb_false_iff in H as [Ha Hx].
    rewrite Ha, (IH Hx). reflexivity.
Qed.

(** ** Percent-encoding *)

Ltac each_byte a := destruct a as [[] [] [] [] [] [] [] []].

Lemma delimiter_cases (c : ascii) :
  Uri.delimiter c = true ->
  c = "&"%char \/ c = "="%char \/ c = "#"%char \/ c = "?"%char \/ c = "/"%char
  \/ c = ","%char.
Proof. each_byte c; intros H; try discriminate H; tauto. Qed.

Lemma form_encode_byte_clean (a c : ascii) :
  Uri.delimiter c = true -> Str.has_byte c (Uri.form_encode_byte a) = false.
Proof.
  intros H. apply delimiter_cases in H.
  destruct H as [->|[->|[->|[->|[->| ->]]]]]; each_byte a; reflexivity.
Qed.

Lemma form_encode_clean (s : string) (c : ascii) :
  Uri.delimiter c = true -> Str.has_byte c (Uri.form_encode s) = false.
Proof.
  intros H. induction s as [|a s IH]; [reflexivity|].
  cbn [Uri.form_encode]. rewrite has_byte_append, IH.
  now rewrite form_encode_byte_clean.
Qed.

Lemma encodeURIComponent_byte_clean (a c : ascii) :
  Uri.delimiter c = true ->
  Str.has_byte c (if Uri.uri_unreserved a then String a EmptyString
                  else Uri.percent a) = false.
Proof.
  intros H. apply delimiter_cases in H.
  destruct H as [->|[->|[->|[->|[->| ->]]]]]; each_byte a; reflexivity.
Qed.

Lemma encodeURIComponent_clean (s : string) (c : ascii) :
  Uri.delimiter c = true -> Str.has_byte c (Uri.encodeURIComponent s) = false.
Proof.
  intros H. induction s as [|a s IH]; [reflexivity|].
  cbn [Uri.encodeURIComponent]. rewrite has_byte_append, IH.
  now rewrite encodeURIComponent_byte_clean.
Qed.

Lemma form_decode_encode_byte (a : ascii) (t : string) :
  Uri.form_decode (Uri.form_encode_byte a +:+ t) = String a (Uri.form_decode t).
Proof. each_byte a; reflexivity. Qed.

Lemma form_decode_encode (s : string) : Uri.form_decode (Uri.form_encode s) = s.
Proof.
  induction s as [|a s IH]; [reflexivity|].
  cbn [Uri.form_encode]. now rewrite form_decode_encode_byte, IH.
Qed.

Lemma parse_pair_encode (k v : string) :
  Uri.parse_pair (Uri.form_encode k +:+ "=" +:+ Uri.form_encode v) = (k, v).
Proof.
  unfold Uri.parse_pair.
  change ("=" +:+ Uri.form_encode v) with (String "=" (Uri.form_encode v)).
  rewrite cut_first by now apply form_encode_clean.
  cbn. now rewrite !form_decode_encode.
Qed.

Lemma split_join (c : ascii) (pieces : list string) :
  Forall (fun piece => Str.has_byte c piece = false) pieces ->
  pieces <> [] ->
  Str.split c (Str.join (String c EmptyString) pieces) = pieces.
Proof.
  induction pieces as [|x r IH]; [congruence|].
  intros Hall _. inversion Hall as [|? ? Hx Hr]; subst.
  destruct r as [|y r].
  - cbn. now apply split_absent.
  - change (Str.join (String c EmptyString) (x :: y :: r))
      with (x +:+ String c EmptyString +:+ Str.join (String c EmptyString) (y :: r)).
    change (String c EmptyString +:+ Str.join (String c EmptyString) (y :: r))
      with (String c (Str.join (String c EmptyString) (y :: r))).
    rewrite split_first by assumption.
    now rewrite IH.
Qed.

(** Reading back the query string that [URLSearchParams.toString] wrote
    gives the pairs that were appended. *)
Lemma parse_query_toString (search : Uri.URLSearchParams) :
  Uri.parse_query (Uri.toString search) = search.
Proof.
  unfold Uri.parse_query, Uri.toString.
  destruct search as [|p search]; [reflexivity|].
  set (enc := fun kv : string * string =>
                Uri.form_encode (fst kv) +:+ "=" +:+ Uri.form_encode (snd kv)).
  rewrite split_join.
  - assert (Hne : forall l : list (string * string),
               filter (fun piece => piece <> EmptyString) (map enc l) = map enc l).
    { induction l as [|q l IH]; [reflexivity|].
      cbn [map]. rewrite filter_cons_True.
      - now rewrite IH.
      - unfold enc. destruct (Uri.form_encode (fst q)); discriminate. }
    rewrite Hne, map_map.
    rewrite <- (map_id (p :: search)) at 2.
    apply map_ext. intros [k v]. apply parse_pair_encode.
  - apply List.Forall_forall. intros piece Hin.
    apply List.in_map_iff in Hin as ([k v] & <- & _). unfold enc. cbn [fst snd].
    rewrite !has_byte_append, !form_encode_clean by reflexivity. reflexivity.
  - discriminate.
Qed.

(** ** Reading an encoded identifier back *)

Lemma append_cancel_l (p a b : string) : p +:+ a = p +:+ b -> a = b.
Proof.
  induction p as [|x p IH]; cbn; [trivial|]. intros [= H]. now apply IH.
Qed.

Lemma length_append (a b : string) :
  String.length (a +:+ b) = (String.length a + String.length b)%nat.
Proof. induction a as [|x a IH]; cbn; [reflexivity | now rewrite IH]. Qed.

Lemma append_cancel_r (a b r : string) : a +:+ r = b +:+ r -> a = b.
Proof.
  revert b. induction a as [|x a IH]; intros [|y b] H; cbn in H.
  - reflexivity.
  - apply (f_equal String.length) in H. cbn in H. rewrite length_append in H. lia.
  - apply (f_equal String.length) in H. cbn in H. rewrite length_append in H. lia.
  - injection H as -> H. f_equal. now apply IH.
Qed.

Lemma code_injective (a b : ascii) : Str.code a = Str.code b -> a = b.
Proof.
  unfold Str.code. intros H.
  rewrite <- (ascii_N_embedding a), <- (ascii_N_embedding b). now rewrite H.
Qed.

Lemma escaped_bytes_encode_byte (a : ascii) (t : string) :
  Uri.escaped_bytes
    ((if Uri.uri_unreserved a then String a EmptyString else Uri.percent a) +:+ t)
  = cons (negb (Uri.uri_unreserved a), Str.code a) <$> Uri.escaped_bytes t.
Proof. each_byte a; reflexivity. Qed.

(** The escapes of [encodeURIComponent] read back as the bytes of the
    string, each marked as escaped or not. *)
Lemma escaped_bytes_encode (s : string) :
  Uri.escaped_bytes (Uri.encodeURIComponent s)
  = Some (map (fun a => (negb (Uri.uri_unreserved a), Str.code a))
              (list_ascii_of_string s)).
Proof.
  induction s as [|a s IH]; [reflexivity|].
  cbn [Uri.encodeURIComponent list_ascii_of_string map].
  now rewrite escaped_bytes_encode_byte, IH.
Qed.

Lemma encodeURIComponent_injective (s t : string) :
  Uri.encodeURIComponent s = Uri.encodeURIComponent t -> s = t.
Proof.
  intros H. apply (f_equal Uri.escaped_bytes) in H.
  rewrite !escaped_bytes_encode in H. injection H as H.
  rewrite <- (string_of_list_ascii_of_string s),
          <- (string_of_list_ascii_of_string t).
  f_equal.
  revert H. generalize (list_ascii_of_string s), (list_ascii_of_string t).
  induction l as [|a l IH]; intros [|b l'] H; try discriminate H; [reflexivity|].
  cbn [map] in H. injection H as _ Hc Hl.
  f_equal; [now apply code_injective | now apply IH].
Qed.

Lemma unreserved_is_ascii (a : ascii) :
  Uri.uri_unreserved a = true -> (Str.code a <? 128)%N = true.
Proof. each_byte a; intros H; try discriminate H; reflexivity. Qed.

Lemma continuation_escaped (lo hi : N) (c : ascii) :
  (128 <=? lo)%N = true ->
  Uri.between lo hi (Str.code c) = true ->
  Uri.continuation lo hi (negb (Uri.uri_unreserved c), Str.code c) = true.
Proof.
  intros Hlo Hb. unfold Uri.continuation. cbn [fst snd]. rewrite Hb, andb_true_r.
  destruct (Uri.uri_unreserved c) eqn:U; [|reflexivity].
  apply unreserved_is_ascii in U.
  unfold Uri.between in Hb. apply andb_true_iff in Hb as [H1 _].
  apply N.leb_le in Hlo, H1. apply N.ltb_lt in U. lia.
Qed.

Lemma push_Some (a : ascii) (s : string) :
  Uri.push (Str.code a) (Some s) = Some (String a s).
Proof. unfold Uri.push, Str.code. cbn. now rewrite ascii_N_embedding. Qed.

Lemma utf8_groups_escaped (n : nat) (l : list ascii) :
  (length l <= n)%nat ->
  Utf8.well_formed_bytes (map Str.code l) = true ->
  Uri.utf8_groups (map (fun a => (negb (Uri.uri_unreserved a), Str.code a)) l)
  = Some (string_of_list_ascii l).
Proof.
  revert l. induction n as [|n IH]; intros l Hlen Hwf.
  { destruct l; [reflexivity | cbn in Hlen; lia]. }
  destruct l as [|a l]; [reflexivity|].
  cbn [map string_of_list_ascii]. cbn [map Utf8.well_formed_bytes] in Hwf.
  destruct (Uri.uri_unreserved a) eqn:U; cbn [negb].
  - rewrite (unreserved_is_ascii a U) in Hwf.
    cbn [Uri.utf8_groups]. rewrite IH by (cbn in Hlen; assumption || lia).
    apply push_Some.
  - cbn [Uri.utf8_groups].
    destruct (Str.code a <? 128)%N eqn:H1.
    { rewrite IH by (cbn in Hlen; assumption || lia). apply push_Some. }
    destruct (Uri.between 194 223 (Str.code a)) eqn:H2.
    { destruct l as [|c1 l]; [discriminate Hwf|].
      cbn [map] in *. apply andb_true_iff in Hwf as [Hc1 Hwf].
      rewrite continuation_escaped by (reflexivity || assumption).
      cbn [snd]. rewrite IH by (cbn in Hlen; assumption || lia).
      now rewrite !push_Some. }
    destruct (Uri.between 224 239 (Str.code a)) eqn:H3.
    { destruct l as [|c1 [|c2 l]]; try discriminate Hwf.
      cbn [map] in *. cbn zeta in *.
      apply andb_true_iff in Hwf as [Hc Hwf].
      apply andb_true_iff in Hc as [Hc1 Hc2].
      rewrite (continuation_escaped _ _ c1)
        by (assumption || destruct (Str.code a =? 224)%N; reflexivity).
      rewrite (continuation_escaped _ _ c2) by (reflexivity || assumption).
      cbn [andb snd].
      rewrite IH by (cbn in Hlen; assumption || lia).
      now rewrite !push_Some. }
    destruct (Uri.between 240 244 (Str.code a)) eqn:H4; [|discriminate Hwf].
    destruct l as [|c1 [|c2 [|c3 l]]]; try discriminate Hwf.
    cbn [map] in *. cbn zeta in *.
    apply andb_true_iff in Hwf as [Hc Hwf].
    apply andb_true_iff in Hc as [Hc Hc3].
    apply andb_true_iff in Hc as [Hc1 Hc2].
    rewrite (continuation_escaped _ _ c1)
      by (assumption || destruct (Str.code a =? 240)%N; reflexivity).
    rewrite (continuation_escaped _ _ c2) by (reflexivity || assumption).
    rewrite (continuation_escaped _ _ c3) by (reflexivity || assumption).
    cbn [andb snd].
    rewrite IH by (cbn in Hlen; assumption || lia).
    now rewrite !push_Some.
Qed.

(** For a string without a lone surrogate, [decodeURIComponent] gives the
    string back from what [encodeURIComponent] returns. *)
Lemma decode_encoded (s : string) :
  Utf8.well_formed s = true ->
  Uri.decodeURIComponent (Uri.encodeURIComponent s) = Some s.
Proof.
  intros Hwf. unfold Uri.decodeURIComponent.
  rewrite escaped_bytes_encode. cbn [mbind option_bind].
  rewrite (utf8_groups_escaped (length (list_ascii_of_string s)))
    by (lia || exact Hwf).
  now rewrite string_of_list_ascii_of_string.
Qed.

(** ** URLs *)

Lemma url_parts (p q : string) :
  Str.has_byte "?" p = false -> Str.has_byte "#" p = false ->
  Str.has_byte "#" q = false ->
  Uri.url_path_part (p +:+ String "?" q) = p
  /\ Uri.url_query (p +:+ String "?" q) = Some q.
Proof.
  intros Hq Hf Hfq.
  unfold Uri.url_path_part, Uri.url_query, Uri.without_fragment.
  rewrite (cut_absent "#").
  - cbn [fst]. rewrite cut_first by assumption. split; reflexivity.
  - rewrite has_byte_append, Hf. cbn. exact Hfq.
Qed.

Lemma toString_clean (search : Uri.URLSearchParams) (c : ascii) :
  c = "#"%char \/ c = "?"%char ->
  Str.has_byte c (Uri.toString search) = false.
Proof.
  intros Hc. unfold Uri.toString.
  assert (Hd : Uri.delimiter c = true) by (destruct Hc as [-> | ->]; reflexivity).
  induction search as [|[k v] search IH]; [reflexivity|].
  assert (Hkv : Str.has_byte c (Uri.form_encode k +:+ "=" +:+ Uri.form_encode v)
                = false).
  { rewrite !has_byte_append, !form_encode_clean by assumption.
    destruct Hc as [-> | ->]; reflexivity. }
  destruct search as [|kv' search]; [exact Hkv|].
  cbn [map fst snd] in *.
  change (Str.join "&" (?x :: ?y :: ?r)) with (x +:+ "&" +:+ Str.join "&" (y :: r)).
  rewrite !has_byte_append, IH, !form_encode_clean by assumption.
  destruct Hc as [-> | ->]; reflexivity.
Qed.

(** The client builds every URL as [baseUrl + path + "?" + query]; when the
    path and the query hold no delimiter of their own, these are the path
    part and the query of the URL. *)
Lemma client_url_parts (this : OpsGenieClient.t) (path q : string) :
  OpsGenieClient.plain_base this = true ->
  Str.has_byte "?" path = false -> Str.has_byte "#" path = false ->
  Str.has_byte "#" q = false ->
  let url := OpsGenieClient.this_baseUrl this +:+ path +:+ String "?" q in
  Uri.url_path_part url = OpsGenieClient.this_baseUrl this +:+ path
  /\ Uri.url_query url = Some q.
Proof.
  intros Hbase Hp1 Hp2 Hq url. subst url.
  unfold OpsGenieClient.plain_base in Hbase.
  apply andb_true_iff in Hbase as [H1 H2].
  apply negb_true_iff in H1, H2.
  rewrite <- append_assoc.
  apply url_parts; [| |assumption]; rewrite has_byte_append.
  - now rewrite H1, Hp1.
  - now rewrite H2, Hp2.
Qed.

(** ** One request per call of [request] *)

Lemma request_calls {T} (this : OpsGenieClient.t) (fetch : Http.Fetch T)
      (endpoint : string) (options : Http.RequestInit) :
  Http.calls (OpsGenieClient.request this fetch endpoint options)
  = [ {| Http.call_url := OpsGenieClient.this_baseUrl this +:+ endpoint;
         Http.call_init := OpsGenieClient.fetchOptions this options |} ].
Proof.
  unfold OpsGenieClient.request, Http.calls, Http.bind, Http.call_fetch.
  destruct (fetch _ _) as [e|response]; [reflexivity|].
  destruct (negb (Http.ok response)); cbn.
  - destruct (Http.text response); reflexivity.
  - reflexivity.
Qed.

Lemma searchParams_client (this : OpsGenieClient.t) (path q : string) :
  OpsGenieClient.plain_base this = true ->
  Str.has_byte "?" path = false -> Str.has_byte "#" path = false ->
  Str.has_byte "#" q = false ->
  Uri.searchParams (OpsGenieClient.this_baseUrl this +:+ path +:+ String "?" q)
  = Uri.parse_query q.
Proof.
  intros Hb H1 H2 H3. unfold Uri.searchParams.
  destruct (client_url_parts this path q Hb H1 H2 H3) as [_ ->]. reflexivity.
Qed.

Lemma alert_path_clean (identifier rest : string) (c : ascii) :
  Uri.delimiter c = true -> c <> "/"%char -> Str.has_byte c rest = false ->
  Str.has_byte c ("/v2/alerts/" +:+ Uri.encodeURIComponent identifier +:+ rest)
  = false.
Proof.
  intros Hd Hc Hr.
  rewrite !has_byte_append, encodeURIComponent_clean, Hr by assumption.
  apply delimiter_cases in Hd.
  destruct Hd as [->|[->|[->|[->|[->| ->]]]]]; try reflexivity; congruence.
Qed.

Lemma action_endpoint_split (identifier action : string) :
  OpsGenieClient.action_endpoint identifier action
  = ("/v2/alerts/" +:+ Uri.encodeURIComponent identifier +:+ "/" +:+ action)
    +:+ String "?" "identifierType=id".
Proof.
  unfold OpsGenieClient.action_endpoint. now rewrite !append_assoc.
Qed.

Lemma action_searchParams (this : OpsGenieClient.t) (identifier action : string) :
  OpsGenieClient.plain_base this = true ->
  Str.has_byte "?" action = false -> Str.has_byte "#" action = false ->
  Uri.searchParams (OpsGenieClient.this_baseUrl this
                    +:+ OpsGenieClient.action_endpoint identifier action)
  = [("identifierType", "id")].
Proof.
  intros Hb H1 H2. rewrite action_endpoint_split.
  rewrite searchParams_client; try assumption; try reflexivity.
  - apply alert_path_clean; [reflexivity | discriminate |].
    rewrite has_byte_append, H1. reflexivity.
  - apply alert_path_clean; [reflexivity | discriminate |].
    rewrite has_byte_append, H2. reflexivity.
Qed.

(** ** The operations on an identifier that encodes, and on one that does
    not *)

Lemma bind_ret {A B} (a : A) (k : A -> Http.M B) : Http.bind (Http.ret a) k = k a.
Proof. unfold Http.bind, Http.ret. destruct (k a). reflexivity. Qed.


Lemma bind_throw {A B} (e : Http.thrown) (k : A -> Http.M B) :
  Http.bind (Http.throw e) k = Http.throw e.
Proof. reflexivity. Qed.

Lemma calls_done {A} (m : Http.M A) :
  Http.calls (let* _ := m in Http.ret tt) = Http.calls m.
Proof. destruct m as [cs [e|a]]; cbn; [reflexivity | apply app_nil_r]. Qed.

Lemma encodeURIComponent_returns (s : string) :
  Utf8.well_formed s = true ->
  Method.encodeURIComponent s = Http.ret (Uri.encodeURIComponent s).
Proof. intros H. unfold Method.encodeURIComponent. now rewrite H. Qed.

Lemma encodeURIComponent_throws (s : string) :
  Utf8.well_formed s = false ->
  Method.encodeURIComponent s = Http.throw (Http.ErrorObject "URI malformed").
Proof. intros H. unfold Method.encodeURIComponent. now rewrite H. Qed.

Lemma getAlert_encodes (this : OpsGenieClient.t)
      (fetch : Http.Fetch GetAlertResponse.t) (identifier : string) :
  Utf8.well_formed identifier = true ->
  Method.getAlert this fetch identifier
  = OpsGenieClient.getAlert this fetch identifier.
Proof.
  intros H. unfold Method.getAlert.
  rewrite encodeURIComponent_returns by assumption.
  rewrite bind_ret. reflexivity.
Qed.

Lemma getAlertNotes_encodes (this : OpsGenieClient.t)
      (fetch : Http.Fetch ListAlertNotesResponse.t) (identifier : string)
      (params : AlertNotesParams.t) :
  Utf8.well_formed identifier = true ->
  Method.getAlertNotes this fetch identifier params
  = OpsGenieClient.getAlertNotes this fetch identifier params.
Proof.
  intros H. unfold Method.getAlertNotes. cbn zeta.
  rewrite encodeURIComponent_returns by assumption.
  rewrite bind_ret. reflexivity.
Qed.

Lemma action_encodes (this : OpsGenieClient.t) (fetch : Http.Fetch Json.JValue)
      (identifier name method_ : string) (payload : Json.JValue) :
  Utf8.well_formed identifier = true ->
  Method.action this fetch identifier name method_ payload
  = OpsGenieClient.request this fetch
      (OpsGenieClient.action_endpoint identifier name)
      (OpsGenieClient.json_request method_ payload).
Proof.
  intros H. unfold Method.action, Method.action_endpoint.
  rewrite encodeURIComponent_returns by assumption.
  now rewrite !bind_ret.
Qed.

Lemma action_throws (this : OpsGenieClient.t) (fetch : Http.Fetch Json.JValue)
      (identifier name method_ : string) (payload : Json.JValue) :
  Utf8.well_formed identifier = false ->
  Method.action this fetch identifier name method_ payload
  = Http.throw (Http.ErrorObject "URI malformed").
Proof.
  intros H. unfold Method.action, Method.action_endpoint.
  now rewrite encodeURIComponent_throws by assumption.
Qed.

(** On an identifier without a lone surrogate the operation issues the
    requests of [Operations.requests]. *)
Lemma issued_encodes (this : OpsGenieClient.t) (remote : Server.Remote)
      (identifier : string) (op : Operations.AlertOperation) :
  Utf8.well_formed identifier = true ->
  Operations.issued this remote identifier op
  = Operations.requests this remote identifier op.
Proof.
  intros H. unfold Operations.issued.
  destruct op; cbn [Operations.run Operations.requests]; rewrite calls_done;
    unfold Method.closeAlert, Method.acknowledgeAlert, Method.unacknowledgeAlert,
           Method.snoozeAlert, Method.assignAlert, Method.escalateAlert,
           Method.addNoteToAlert, Method.addTagsToAlert,
           Method.removeTagsFromAlert;
    rewrite ?getAlert_encodes, ?getAlertNotes_encodes, ?action_encodes
      by assumption;
    reflexivity.
Qed.

(** On an identifier with a lone surrogate the operation throws the
    URIError of [encodeURIComponent] and issues nothing. *)
Lemma run_throws (this : OpsGenieClient.t) (remote : Server.Remote)
      (identifier : string) (op : Operations.AlertOperation) :
  Utf8.well_formed identifier = false ->
  Operations.run this remote identifier op
  = ([], inl (Http.ErrorObject "URI malformed")).
Proof.
  intros H.
  destruct op; cbn [Operations.run];
    unfold Method.getAlert, Method.getAlertNotes,
           Method.closeAlert, Method.acknowledgeAlert, Method.unacknowledgeAlert,
           Method.snoozeAlert, Method.assignAlert, Method.escalateAlert,
           Method.addNoteToAlert, Method.addTagsToAlert,
           Method.removeTagsFromAlert;
    rewrite ?action_throws, ?encodeURIComponent_throws by assumption;
    reflexivity.
Qed.

Lemma issued_throws (this : OpsGenieClient.t) (remote : Server.Remote)
      (identifier : string) (op : Operations.AlertOperation) :
  Utf8.well_formed identifier = false ->
  Operations.issued this remote identifier op = [].
Proof.
  intros H. unfold Operations.issued. now rewrite run_throws.
Qed.

(** ** C7: [getAlert] *)

Lemma alert_prefix_clean (identifier : string) (c : ascii) :
  c = "?"%char \/ c = "#"%char ->
  Str.has_byte c ("/v2/alerts/" +:+ Uri.encodeURIComponent identifier) = false.
Proof.
  intros Hc. rewrite has_byte_append, encodeURIComponent_clean.
  - destruct Hc as [-> | ->]; reflexivity.
  - destruct Hc as [-> | ->]; reflexivity.
Qed.

Lemma getAlert_url_parts (this : OpsGenieClient.t) (identifier : string) :
  OpsGenieClient.plain_base this = true ->
  let url := OpsGenieClient.this_baseUrl this
             +:+ ("/v2/alerts/" +:+ Uri.encodeURIComponent identifier
                  +:+ "?identifierType=id") in
  Uri.url_path_part url
  = OpsGenieClient.this_baseUrl this +:+ "/v2/alerts/"
    +:+ Uri.encodeURIComponent identifier
  /\ Uri.url_query url = Some "identifierType=id".
Proof.
  intros Hb.
  pose proof (client_url_parts this
                ("/v2/alerts/" +:+ Uri.encodeURIComponent identifier)
                "identifierType=id" Hb
                (alert_prefix_clean identifier "?" (or_introl eq_refl))
                (alert_prefix_clean identifier "#" (or_intror eq_refl))
                eq_refl) as H.
  cbn zeta in H. rewrite (append_assoc "/v2/alerts/") in H. exact H.
Qed.

(** C7, as the code has it. On a client whose base URL has no query or
    fragment of its own, and for an identifier without a lone surrogate,
    [getAlert] issues exactly one request; it is a GET without a body, to
    the base URL followed by [/v2/alerts/], the percent-encoded identifier
    and [?identifierType=id]. The path part of that URL is the base URL
    followed by [/v2/alerts/] and the encoded identifier, from which
    [decodeURIComponent] gives the identifier back, and its query is the
    literal [identifierType=id]. For an identifier with a lone surrogate
    [getAlert] throws the URIError of [encodeURIComponent] and issues no
    request. *)
Theorem getAlert_issues_one_GET
        (this : OpsGenieClient.t) (fetch : Http.Fetch GetAlertResponse.t)
        (identifier : string) :
  OpsGenieClient.plain_base this = true ->
  if Utf8.well_formed identifier then
    exists segment url init,
      Http.calls (Method.getAlert this fetch identifier)
      = [ {| Http.call_url := url; Http.call_init := init |} ]
      /\ url = OpsGenieClient.this_baseUrl this +:+ "/v2/alerts/" +:+ segment
               +:+ "?identifierType=id"
      /\ Http.wire_method init = "GET"
      /\ Http.wire_body init = None
      /\ segment = Uri.encodeURIComponent identifier
      /\ Uri.decodeURIComponent segment = Some identifier
      /\ Uri.url_path_part url
         = OpsGenieClient.this_baseUrl this +:+ "/v2/alerts/" +:+ segment
      /\ Str.includes (Uri.url_path_part url) segment
      /\ Uri.url_query url = Some "identifierType=id"
  else
    Method.getAlert this fetch identifier
    = ([], inl (Http.ErrorObject "URI malformed")).
Proof.
  intros Hb. destruct (Utf8.well_formed identifier) eqn:Hwf.
  - rewrite getAlert_encodes by assumption.
    unfold OpsGenieClient.getAlert. rewrite request_calls.
    exists (Uri.encodeURIComponent identifier). eexists. eexists.
    split; [reflexivity|]. split; [reflexivity|].
    split; [reflexivity|]. split; [reflexivity|]. split; [reflexivity|].
    split; [now apply decode_encoded|].
    destruct (getAlert_url_parts this identifier Hb) as [Hpath Hquery].
    rewrite Hpath, Hquery. split; [reflexivity|]. split; [|reflexivity].
    apply includes_append_l, includes_append_l, includes_refl.
  - unfold Method.getAlert. now rewrite encodeURIComponent_throws.
Qed.

Lemma getAlert_issues_one_GET_witness :
  exists segment url init,
    Http.calls (Method.getAlert Sample.client
                  (Sample.always (Sample.response_200 Sample.document_A1))
                  "A 1/x")
    = [ {| Http.call_url := url; Http.call_init := init |} ]
    /\ url = "https://api.opsgenie.com/v2/alerts/" +:+ segment
             +:+ "?identifierType=id"
    /\ Http.wire_method init = "GET"
    /\ Http.wire_body init = None
    /\ segment = "A%201%2Fx"
    /\ Uri.decodeURIComponent segment = Some "A 1/x"
    /\ Uri.url_path_part url = "https://api.opsgenie.com/v2/alerts/" +:+ segment
    /\ Str.includes (Uri.url_path_part url) segment
    /\ Uri.url_query url = Some "identifierType=id".
Proof.
  exact (getAlert_issues_one_GET Sample.client
           (Sample.always (Sample.response_200 Sample.document_A1)) "A 1/x"
           eq_refl).
Defined.

(** The request for the identifier [A 1/x], and for one that is not
    ASCII. *)
Example getAlert_urls :
  map Http.call_url
      (Http.calls (Method.getAlert Sample.client
                     (Sample.always (Sample.response_200 Sample.document_A1))
                     "A 1/x"))
  = ["https://api.opsgenie.com/v2/alerts/A%201%2Fx?identifierType=id"]
  /\ map Http.call_url
         (Http.calls (Method.getAlert Sample.client
                        (Sample.always (Sample.response_200 Sample.document_A1))
                        "é"))
     = ["https://api.opsgenie.com/v2/alerts/%C3%A9?identifierType=id"].
Proof. split; reflexivity. Qed.

(** C7 as stated fails: for the identifier that is one lone surrogate,
    [getAlert] issues no request; it throws the URIError of
    [encodeURIComponent]. *)
Lemma getAlert_lone_surrogate_issues_no_request :
  Utf8.well_formed Sample.lone_surrogate = false
  /\ Method.getAlert Sample.client
       (Sample.always (Sample.response_200 Sample.document_A1))
       Sample.lone_surrogate
     = ([], inl (Http.ErrorObject "URI malformed"))
  /\ Http.calls (Method.getAlert Sample.client
                   (Sample.always (Sample.response_200 Sample.document_A1))
                   Sample.lone_surrogate)
     = [].
Proof. split; [reflexivity|]. split; reflexivity. Qed.

(** ** C6: every operation on one alert pins [identifierType=id] *)

Lemma getAlert_searchParams (this : OpsGenieClient.t) (identifier : string) :
  OpsGenieClient.plain_base this = true ->
  Uri.searchParams
    (OpsGenieClient.this_baseUrl this
     +:+ ("/v2/alerts/" +:+ Uri.encodeURIComponent identifier
          +:+ "?identifierType=id"))
  = [("identifierType", "id")].
Proof.
  intros Hb. unfold Uri.searchParams.
  destruct (getAlert_url_parts this identifier Hb) as [_ ->]. reflexivity.
Qed.

Lemma getAlertNotes_searchParams
      (this : OpsGenieClient.t) (identifier : string) (params : AlertNotesParams.t) :
  OpsGenieClient.plain_base this = true ->
  Uri.searchParams
    (OpsGenieClient.this_baseUrl this
     +:+ ("/v2/alerts/" +:+ Uri.encodeURIComponent identifier +:+ "/notes?"
          +:+ Uri.toString (OpsGenieClient.getAlertNotes_search params)))
  = OpsGenieClient.getAlertNotes_search params.
Proof.
  intros Hb.
  set (q := Uri.toString (OpsGenieClient.getAlertNotes_search params)).
  replace ("/v2/alerts/" +:+ Uri.encodeURIComponent identifier +:+ "/notes?" +:+ q)
    with (("/v2/alerts/" +:+ Uri.encodeURIComponent identifier +:+ "/notes")
          +:+ String "?" q)
    by now rewrite !append_assoc.
  rewrite searchParams_client; try assumption.
  - apply parse_query_toString.
  - apply alert_path_clean; [reflexivity | discriminate | reflexivity].
  - apply alert_path_clean; [reflexivity | discriminate | reflexivity].
  - apply toString_clean. now left.
Qed.





(** The request of that call. *)
Example getAlertNotes_request_of_A1 :
  map Http.call_url
      (Operations.issued Sample.client Sample.remote_A1 "A1"
         (Operations.GetAlertNotes
            {| AlertNotesParams.offset := Some (inr (Number.of_Z 5));
               AlertNotesParams.direction := Some "next";
               AlertNotesParams.limit := Some (Number.of_Z 10);
               AlertNotesParams.order := None |}))
  = ["https://api.opsgenie.com/v2/alerts/A1/notes?offset=5&direction=next&limit=10&identifierType=id"].
Proof. reflexivity. Qed.


(** ** C1: the query string of [searchAlerts] *)

Lemma truthy_Some (o : option string) (v : string) :
  truthy o = Some v <-> o = Some v /\ v <> EmptyString.
Proof.
  unfold truthy. destruct o as [s|].
  - destruct (decide (s = EmptyString)) as [-> | Hne].
    + split; [discriminate | intros [[= <-] H]; congruence].
    + split; [intros [= <-]; now split | intros [[= <-] _]; reflexivity].
  - split; [discriminate | intros [H _]; discriminate].
Qed.

Lemma toString_Some (o : option Number.t) (v : string) :
  Number.toString <$> o = Some v <-> exists n, o = Some n /\ v = Number.toString n.
Proof.
  destruct o as [n|]; cbn.
  - split; [intros [= <-]; eauto | intros (m & [= <-] & ->); reflexivity].
  - split; [discriminate | intros (m & H & _); discriminate].
Qed.

Lemma In_append_when (o : option string) (name : string)
      (search : Uri.URLSearchParams) (k v : string) :
  In (k, v) (OpsGenieClient.append_when o name search)
  <-> In (k, v) search \/ (name = k /\ o = Some v).
Proof.
  unfold OpsGenieClient.append_when, Uri.append. destruct o as [s|].
  - rewrite in_app_iff. cbn. split.
    + intros [H | [[= <- <-] | []]]; auto.
    + intros [H | [<- [= <-]]]; auto.
  - split; [auto | intros [H | [_ H]]; [assumption | discriminate]].
Qed.



Lemma searchAlerts_searchParams (this : OpsGenieClient.t) (params : AlertSearchParams.t) :
  OpsGenieClient.plain_base this = true ->
  Uri.searchParams
    (OpsGenieClient.this_baseUrl this
     +:+ ("/v2/alerts?" +:+ Uri.toString (OpsGenieClient.searchAlerts_search params)))
  = OpsGenieClient.searchAlerts_search params.
Proof.
  intros Hb.
  change ("/v2/alerts?" +:+ ?q) with ("/v2/alerts" +:+ String "?" q).
  rewrite searchParams_client; try assumption; try reflexivity.
  - apply parse_query_toString.
  - apply toString_clean. now left.
Qed.

Lemma length_drop_trailing_zeros (s : string) :
  (String.length (Str.drop_trailing_zeros s) <= String.length s)%nat.
Proof.
  induction s as [|a r IH]; cbn; [lia|].
  destruct (Str.drop_trailing_zeros r) as [|b r'].
  - destruct (Str.ascii_eqb a "0"); cbn; lia.
  - cbn in *. lia.
Qed.

Lemma drop_trailing_zeros_zeros (s : string) :
  Str.drop_trailing_zeros s
  +:+ Str.zeros (String.length s - String.length (Str.drop_trailing_zeros s))
  = s.
Proof.
  induction s as [|a r IH]; [reflexivity|].
  cbn [Str.drop_trailing_zeros].
  destruct (Str.drop_trailing_zeros r) as [|b r'] eqn:E.
  - cbn [String.length] in IH. rewrite Nat.sub_0_r in IH.
    change (Str.zeros (String.length r) = r) in IH.
    destruct (Str.ascii_eqb a "0") eqn:Ea.
    + apply Ascii.eqb_eq in Ea. subst a. cbn. now rewrite IH.
    + cbn. rewrite Nat.sub_0_r. now rewrite IH.
  - change (String a (String b r'
                      +:+ Str.zeros (String.length (String a r)
                                     - String.length (String a (String b r'))))
            = String a r).
    f_equal. exact IH.
Qed.

(** [String(n)] of an integer of at most 21 digits is its decimal
    digits. *)
Lemma toString_of_Z (n : Z) :
  (String.length (Str.of_Z (Z.abs n)) <= 21)%nat ->
  Number.toString (Number.of_Z n) = Str.of_Z n.
Proof.
  assert (finite : forall all : string,
             (String.length all <= 21)%nat -> Number.toString_finite all 0 = all).
  { intros all H. unfold Number.toString_finite. cbn zeta.
    pose proof (length_drop_trailing_zeros all) as Hk.
    rewrite Z.add_0_r.
    replace (Z.of_nat (String.length (Str.drop_trailing_zeros all))
             <=? Z.of_nat (String.length all)) with true
      by (symmetry; apply Z.leb_le; lia).
    replace (Z.of_nat (String.length all) <=? 21) with true
      by (symmetry; apply Z.leb_le; lia).
    cbn [andb]. rewrite <- Nat2Z.inj_sub, Nat2Z.id by assumption.
    apply drop_trailing_zeros_zeros. }
  destruct n as [|p|p]; cbn [Z.abs Number.of_Z Number.toString]; intros H.
  - reflexivity.
  - now rewrite finite.
  - now rewrite finite.
Qed.

(** [String(n)] for some numbers that are not such integers. *)
Example toString_examples :
  Number.toString (Number.Finite false 15 (-1)) = "1.5"
  /\ Number.toString (Number.Finite true 25 (-2)) = "-0.25"
  /\ Number.toString (Number.Finite false 5 (-6)) = "0.000005"
  /\ Number.toString (Number.Finite false 1 (-7)) = "1e-7"
  /\ Number.toString (Number.Finite false 123 (-9)) = "1.23e-7"
  /\ Number.toString (Number.Finite false 1 20) = "100000000000000000000"
  /\ Number.toString (Number.Finite false 1 21) = "1e+21"
  /\ Number.toString (Number.Finite false 12 20) = "1.2e+21"
  /\ Number.toString (Number.of_Z 1200) = "1200"
  /\ Number.toString (Number.of_Z (-7)) = "-7"
  /\ Number.toString Number.NaN = "NaN"
  /\ Number.toString (Number.Infinity true) = "-Infinity".
Proof. repeat split; reflexivity. Qed.



(** The query string issued for [Sample.search_page]: the empty [sort]
    is left out, the zero [offset] is kept. *)
Example searchAlerts_page_url :
  map Http.call_url
      (Http.calls (OpsGenieClient.searchAlerts Sample.client
                     (Sample.always Sample.response_404) Sample.search_page))
  = ["https://api.opsgenie.com/v2/alerts?query=status%3Aopen+AND+tag%3Adb&offset=0&limit=20&order=desc"].
Proof. reflexivity. Qed.

(** A limit that is not an integer below 10^21 is sent as [String] prints
    it. *)
Example searchAlerts_odd_limits :
  map Http.call_url
      (Http.calls (OpsGenieClient.searchAlerts Sample.client
                     (Sample.always Sample.response_404)
                     {| AlertSearchParams.query := None;
                        AlertSearchParams.searchIdentifier := None;
                        AlertSearchParams.searchIdentifierType := None;
                        AlertSearchParams.offset := Some Number.NaN;
                        AlertSearchParams.limit := Some (Number.Finite false 1 21);
                        AlertSearchParams.sort := None;
                        AlertSearchParams.order := None |}))
  = ["https://api.opsgenie.com/v2/alerts?offset=NaN&limit=1e%2B21"].
Proof. reflexivity. Qed.


(** ** C3: a response outside the success range *)


(** C3, as the code has it. When [fetch] resolves to a response whose
    status is outside 200..299, [request] makes that one call, reads the
    body as text and returns no value. If the read gives the text
    [errorText], it throws one plain [Error] whose message is
    [OpsGenie API error: <status> <statusText> - <errorText>]: the status
    in decimal, the status text and the whole body text are parts of that
    one message, the body at its end, and the error has no field for any of
    them. If the read fails, [request] throws what the read threw. *)
Theorem request_raises_on_non_success
        {T} (this : OpsGenieClient.t) (fetch : Http.Fetch T)
        (endpoint : string) (options : Http.RequestInit)
        (response : Http.Response T) :
  fetch (OpsGenieClient.this_baseUrl this +:+ endpoint)
        (OpsGenieClient.fetchOptions this options) = inr response ->
  Http.ok response = false ->
  OpsGenieClient.request this fetch endpoint options
  = ([ {| Http.call_url := OpsGenieClient.this_baseUrl this +:+ endpoint;
          Http.call_init := OpsGenieClient.fetchOptions this options |} ],
     match Http.text response with
     | inr errorText =>
         inl (Http.ErrorObject
                ("OpsGenie API error: " +:+ Str.of_Z (Http.status response)
                 +:+ " " +:+ Http.statusText response
                 +:+ " - " +:+ errorText))
     | inl failure => inl failure
     end)
  /\ forall errorText : string,
       Http.text response = inr errorText ->
       exists message,
         Http.outcome (OpsGenieClient.request this fetch endpoint options)
         = inl (Http.ErrorObject message)
         /\ Str.includes message (Str.of_Z (Http.status response))
         /\ Str.includes message (Http.statusText response)
         /\ Str.endsWith message errorText.
Proof.
  intros Hfetch Hok.
  assert (Hrequest :
            OpsGenieClient.request this fetch endpoint options
            = ([ {| Http.call_url := OpsGenieClient.this_baseUrl this +:+ endpoint;
                    Http.call_init := OpsGenieClient.fetchOptions this options |} ],
               match Http.text response with
               | inr errorText =>
                   inl (Http.ErrorObject
                          ("OpsGenie API error: "
                           +:+ Str.of_Z (Http.status response)
                           +:+ " " +:+ Http.statusText response
                           +:+ " - " +:+ errorText))
               | inl failure => inl failure
               end)).
  { unfold OpsGenieClient.request, Http.bind, Http.call_fetch.
    rewrite Hfetch, Hok. cbn.
    destruct (Http.text response) as [failure|errorText]; reflexivity. }
  split; [exact Hrequest|].
  intros errorText Htext. rewrite Hrequest, Htext. eexists.
  split; [reflexivity|]. split; [|split].
  - apply includes_append_l, includes_append_r, includes_refl.
  - apply includes_append_l, includes_append_l, includes_append_l,
          includes_append_r, includes_refl.
  - exists ("OpsGenie API error: " +:+ Str.of_Z (Http.status response)
            +:+ " " +:+ Http.statusText response +:+ " - ").
    now rewrite !append_assoc.
Qed.

Lemma request_raises_on_non_success_witness :
  OpsGenieClient.request Sample.client
    (Sample.always (Sample.response_404 (T := Json.JValue)))
    "/v2/alerts/A1?identifierType=id" Http.no_options
  = ([ {| Http.call_url :=
            "https://api.opsgenie.com/v2/alerts/A1?identifierType=id";
          Http.call_init :=
            OpsGenieClient.fetchOptions Sample.client Http.no_options |} ],
     inl (Http.ErrorObject "OpsGenie API error: 404 Not Found - not found")).
Proof.
  exact (proj1 (request_raises_on_non_success Sample.client
                  (Sample.always (Sample.response_404 (T := Json.JValue)))
                  "/v2/alerts/A1?identifierType=id" Http.no_options
                  Sample.response_404 eq_refl eq_refl)).
Defined.

(** C3 as stated fails, in two ways. When the body of a response with
    status 500 cannot be read, [request] throws the failure of that read,
    not an error with the status. And the error is one message, not a
    record of status, status text and body: two responses that differ in
    status text and in body give the same error. *)
Lemma request_error_is_one_message :
  OpsGenieClient.request Sample.client
    (Sample.always (Sample.response_500_unreadable (T := Json.JValue)))
    "/v2/alerts" Http.no_options
  = ([ {| Http.call_url := "https://api.opsgenie.com/v2/alerts";
          Http.call_init :=
            OpsGenieClient.fetchOptions Sample.client Http.no_options |} ],
     inl (Http.ErrorObject "Premature close"))
  /\ (Http.statusText (Sample.response_502_a (T := Json.JValue)),
      Http.text (Sample.response_502_a (T := Json.JValue)))
     <> (Http.statusText (Sample.response_502_b (T := Json.JValue)),
         Http.text (Sample.response_502_b (T := Json.JValue)))
  /\ Http.outcome
       (OpsGenieClient.request Sample.client
          (Sample.always (Sample.response_502_a (T := Json.JValue)))
          "/v2/alerts" Http.no_options)
     = inl (Http.ErrorObject
              "OpsGenie API error: 502 Bad Gateway - upstream - timeout")
  /\ Http.outcome
       (OpsGenieClient.request Sample.client
          (Sample.always (Sample.response_502_b (T := Json.JValue)))
          "/v2/alerts" Http.no_options)
     = inl (Http.ErrorObject
              "OpsGenie API error: 502 Bad Gateway - upstream - timeout").
Proof.
  split; [reflexivity|]. split; [discriminate|]. split; reflexivity.
Qed.

(** ** C9: the body put on the wire *)

(** C9. [request] makes one call of [fetch], and the payload of that call
    is [s] exactly when the options carried the string [s] as their body;
    a body that is an object is removed from the options given to [fetch],
    which then sends no payload for it. *)
Theorem request_sends_string_bodies_only
        {T} (this : OpsGenieClient.t) (fetch : Http.Fetch T)
        (endpoint : string) (options : Http.RequestInit) :
  exists url init,
    Http.calls (OpsGenieClient.request this fetch endpoint options)
    = [ {| Http.call_url := url; Http.call_init := init |} ]
    /\ (forall payload : string,
          Http.wire_body init = Some payload
          <-> Http.body options = Some (Http.BodyString payload))
    /\ (forall wire : string,
          Http.body options = Some (Http.BodyObject wire) ->
          Http.body init = None /\ Http.wire_body init = None).
Proof.
  rewrite request_calls. eexists. eexists. split; [reflexivity|].
  unfold Http.wire_body, OpsGenieClient.fetchOptions,
         OpsGenieClient.body_truthy, OpsGenieClient.body_is_string.
  cbn [Http.body].
  destruct (Http.body options) as [[s| |wire]|]; cbn.
  - rewrite andb_false_r. split.
    + intros payload. split; intros [= ->]; reflexivity.
    + intros wire [=].
  - split.
    + intros payload. split; intros [=].
    + intros wire [=].
  - split.
    + intros payload. split; intros [=].
    + intros w _. split; reflexivity.
  - split.
    + intros payload. split; intros [=].
    + intros wire [=].
Qed.

(** An object body is dropped: the call goes out without a payload, where
    [fetch] given the same options would have sent the object's text. *)
Example object_body_is_stripped :
  Http.wire_body Sample.options_with_object_body = Some "[object Object]"
  /\ map (fun call => Http.wire_body (Http.call_init call))
         (Http.calls (OpsGenieClient.request Sample.client
                        (Sample.always (Sample.response_200 Json.JNull))
                        "/v2/alerts" Sample.options_with_object_body))
     = [None].
Proof. split; reflexivity. Qed.

(** ** C4: the [note] of close, acknowledge and unacknowledge *)




(** The two bodies the specification lists. *)
Example closeAlert_without_note :
  map (fun call => Http.wire_body (Http.call_init call))
      (Http.calls (OpsGenieClient.closeAlert Sample.client
                     (Sample.always (Sample.response_200 (Json.JObj [])))
                     "A1" None))
  = [Some "{}"].
Proof. reflexivity. Qed.

Example closeAlert_with_note :
  map (fun call => Http.wire_body (Http.call_init call))
      (Http.calls (OpsGenieClient.closeAlert Sample.client
                     (Sample.always (Sample.response_200 (Json.JObj [])))
                     "A1" (Some "done")))
  = [Some ("{" +:+ Str.dquote +:+ "note" +:+ Str.dquote +:+ ":"
           +:+ Str.dquote +:+ "done" +:+ Str.dquote +:+ "}")].
Proof. reflexivity. Qed.


(** ** C5: the [Authorization] header *)

Lemma drop_ws_fixed (k : string) :
  Str.starts_with_ws k = false -> Str.drop_ws k = k.
Proof.
  destruct k as [|a [|b [|c r]]]; cbn; intros H; try reflexivity.
  - now rewrite H.
  - apply orb_false_iff in H as [H1 H2]. now rewrite H1, H2.
  - apply orb_false_iff in H as [H12 H3].
    apply orb_false_iff in H12 as [H1 H2]. now rewrite H1, H2, H3.
Qed.

Lemma drop_ws_done_upto (n : nat) (r : string) :
  (String.length r <= n)%nat -> Str.starts_with_ws (Str.drop_ws r) = false.
Proof.
  revert r. induction n as [|n IH]; intros r Hlen.
  - destruct r; [reflexivity | cbn in Hlen; lia].
  - destruct r as [|a [|b [|c r]]]; cbn [Str.drop_ws].
    + reflexivity.
    + destruct (Str.ws1 a) eqn:H1; [reflexivity|]. cbn. exact H1.
    + destruct (Str.ws1 a) eqn:H1.
      { apply (IH (String b EmptyString)). cbn in *. lia. }
      destruct (Str.ws2 a b) eqn:H2; [reflexivity|]. cbn. now rewrite H1, H2.
    + destruct (Str.ws1 a) eqn:H1.
      { apply (IH (String b (String c r))). cbn in *. lia. }
      destruct (Str.ws2 a b) eqn:H2.
      { apply (IH (String c r)). cbn in *. lia. }
      destruct (Str.ws3 a b c) eqn:H3.
      { apply (IH r). cbn in *. lia. }
      cbn. now rewrite H1, H2, H3.
Qed.

Lemma drop_ws_done (r : string) : Str.starts_with_ws (Str.drop_ws r) = false.
Proof. apply (drop_ws_done_upto (String.length r)). lia. Qed.

(** A key that does not start with white space is stripped to a key that
    does not start with white space. *)
Lemma strip_scheme_no_ws (key : string) :
  Str.starts_with_ws key = false ->
  Str.starts_with_ws (OpsGenieClient.strip_scheme key) = false.
Proof.
  intros H. unfold OpsGenieClient.strip_scheme.
  destruct (Str.strip_prefix "GenieKey" key) as [rest|]; [|exact H].
  destruct (Str.starts_with_ws rest); [apply drop_ws_done | exact H].
Qed.

(** Stripping undoes the canonical prefix. *)
Lemma strip_scheme_canonical (k : string) :
  Str.starts_with_ws k = false ->
  OpsGenieClient.strip_scheme ("GenieKey " +:+ k) = k.
Proof.
  intros H. unfold OpsGenieClient.strip_scheme.
  change (Str.strip_prefix "GenieKey" ("GenieKey " +:+ k))
    with (Some (String " " k)).
  assert (Hws : Str.starts_with_ws (String " " k) = true)
    by (destruct k as [|b [|c r]]; reflexivity).
  cbn beta iota. rewrite Hws.
  change (Str.drop_ws (String " " k)) with (Str.drop_ws k).
  now apply drop_ws_fixed.
Qed.

Lemma one_entry_per_key (m : gmap string string) (k v : string) :
  m !! k = Some v ->
  length (filter (fun kv : string * string => kv.1 = k) (map_to_list m)) = 1%nat.
Proof.
  intros Hk. rewrite <- (map_to_list_delete m k v Hk).
  rewrite filter_cons_True by reflexivity. cbn. f_equal.
  assert (Hnone : forall l : list (string * string),
             Forall (fun kv => kv.1 <> k) l ->
             filter (fun kv : string * string => kv.1 = k) l = []).
  { induction l as [|x l IH]; intros Hall; [reflexivity|].
    inversion Hall; subst.
    rewrite filter_cons_False by assumption. now apply IH. }
  rewrite Hnone; [reflexivity|].
  apply List.Forall_forall. intros [k' v'] Hin Heq. cbn in Heq. subst k'.
  apply list_elem_of_In, elem_of_map_to_list in Hin.
  rewrite lookup_delete_eq in Hin. discriminate.
Qed.

Lemma request_headers_lookup (this : OpsGenieClient.t)
      (options : Http.RequestInit) (name : string) :
  OpsGenieClient.request_headers this options !! name
  = match default ∅ (Http.headers options) !! name with
    | Some value => Some value
    | None =>
        if decide (name = "Content-Type") then Some "application/json"
        else if decide (name = "Authorization")
             then Some (OpsGenieClient.authorization this)
             else None
    end.
Proof.
  unfold OpsGenieClient.request_headers.
  rewrite lookup_union.
  set (defaults := <["Content-Type" := "application/json"]>
                     (<["Authorization" := OpsGenieClient.authorization this]> ∅)
                   : gmap string string).
  assert (Hdefaults :
    defaults !! name
    = if decide (name = "Content-Type") then Some "application/json"
      else if decide (name = "Authorization")
           then Some (OpsGenieClient.authorization this)
           else None).
  { subst defaults.
    destruct (decide (name = "Content-Type")) as [-> | Hct].
    - now rewrite lookup_insert_eq.
    - rewrite lookup_insert_ne by congruence.
      destruct (decide (name = "Authorization")) as [-> | Ha].
      + now rewrite lookup_insert_eq.
      + rewrite lookup_insert_ne by congruence. apply lookup_empty. }
  rewrite <- Hdefaults.
  destruct (default ∅ (Http.headers options) !! name) as [value|];
    destruct (defaults !! name); reflexivity.
Qed.

(** C5, as the code has it. Every call of [fetch] that [request] makes
    carries a header record with exactly one [Authorization] entry. The
    headers given in the options take precedence over both defaults,
    [Authorization] included; where the options set no [Authorization],
    its value is [GenieKey ] followed by the configured key with a leading
    [GenieKey] and the white space after it removed, and [Content-Type]
    likewise defaults to [application/json]. Deriving the header again
    from that value gives the same value, for a key that does not start
    with white space. *)
Theorem authorization_header
        {T} (config : OpsGenieClientConfig.t) (fetch : Http.Fetch T)
        (endpoint : string) (options : Http.RequestInit) :
  let this := OpsGenieClient.constructor config in
  let overrides : gmap string string := default ∅ (Http.headers options) in
  exists url init sent,
    Http.calls (OpsGenieClient.request this fetch endpoint options)
    = [ {| Http.call_url := url; Http.call_init := init |} ]
    /\ Http.headers init = Some sent
    /\ length (filter (fun kv : string * string => kv.1 = "Authorization")
                      (map_to_list sent)) = 1%nat
    /\ (forall name value : string,
          overrides !! name = Some value -> sent !! name = Some value)
    /\ (overrides !! "Authorization" = None ->
        sent !! "Authorization"
        = Some ("GenieKey "
                +:+ OpsGenieClient.strip_scheme (OpsGenieClientConfig.apiKey config)))
    /\ (overrides !! "Content-Type" = None ->
        sent !! "Content-Type" = Some "application/json")
    /\ (Str.starts_with_ws (OpsGenieClientConfig.apiKey config) = false ->
        OpsGenieClient.authorization
          (OpsGenieClient.constructor
             {| OpsGenieClientConfig.apiKey := OpsGenieClient.authorization this;
                OpsGenieClientConfig.baseUrl := OpsGenieClientConfig.baseUrl config |})
        = OpsGenieClient.authorization this).
Proof.
  intros this overrides. rewrite request_calls.
  eexists. eexists. eexists. split; [reflexivity|]. split; [reflexivity|].
  split; [|split; [|split; [|split]]].
  - pose proof (request_headers_lookup this options "Authorization") as H.
    destruct (default ∅ (Http.headers options) !! "Authorization") as [value|];
      cbn in H; eapply one_entry_per_key; exact H.
  - intros name value Ho. rewrite request_headers_lookup.
    fold overrides. now rewrite Ho.
  - intros Ho. rewrite request_headers_lookup. fold overrides.
    now rewrite Ho.
  - intros Ho. rewrite request_headers_lookup. fold overrides.
    now rewrite Ho.
  - intros Hws. unfold OpsGenieClient.authorization at 1.
    cbn [OpsGenieClient.constructor OpsGenieClient.this_apiKey
         OpsGenieClientConfig.apiKey].
    unfold OpsGenieClient.authorization.
    rewrite strip_scheme_canonical; [reflexivity|].
    subst this. cbn [OpsGenieClient.constructor OpsGenieClient.this_apiKey].
    now apply strip_scheme_no_ws.
Qed.

(** C5 as stated fails: an [Authorization] set in the options replaces the
    value computed from the key. *)
Lemma authorization_override_wins :
  OpsGenieClient.authorization Sample.client = "GenieKey k1"
  /\ map (fun call => Http.headers (Http.call_init call)
                      ≫= fun sent => sent !! "Authorization")
         (Http.calls (OpsGenieClient.request Sample.client
                        (Sample.always (Sample.response_200 Json.JNull))
                        "/v2/alerts" Sample.options_with_authorization))
     = [Some "Bearer other"].
Proof. split; vm_compute; reflexivity. Qed.

(** The prefix is stripped once, with the white space after it. *)
Example strip_scheme_examples :
  OpsGenieClient.strip_scheme "GenieKey   abc" = "abc"
  /\ OpsGenieClient.strip_scheme "abc" = "abc"
  /\ OpsGenieClient.strip_scheme "GenieKeyabc" = "GenieKeyabc"
  /\ OpsGenieClient.strip_scheme "GenieKey GenieKey abc" = "GenieKey abc".
Proof. repeat split; reflexivity. Qed.

(** A key that starts with white space is kept as it is, and deriving the
    header again from the header value then gives another value. *)
Example authorization_of_a_key_with_leading_space :
  OpsGenieClient.authorization
    (OpsGenieClient.constructor
       {| OpsGenieClientConfig.apiKey := " k1";
          OpsGenieClientConfig.baseUrl := None |}) = "GenieKey  k1"
  /\ OpsGenieClient.authorization
       (OpsGenieClient.constructor
          {| OpsGenieClientConfig.apiKey := "GenieKey  k1";
             OpsGenieClientConfig.baseUrl := None |}) = "GenieKey k1".
Proof. split; reflexivity. Qed.

Lemma authorization_header_witness :
  exists sent : gmap string string,
    map (fun call => Http.headers (Http.call_init call))
        (Http.calls (OpsGenieClient.request Sample.client
                       (Sample.always (Sample.response_200 Json.JNull))
                       "/v2/alerts" Http.no_options))
    = [Some sent]
    /\ sent !! "Authorization" = Some "GenieKey k1"
    /\ sent !! "Content-Type" = Some "application/json"
    /\ OpsGenieClient.authorization
         (OpsGenieClient.constructor
            {| OpsGenieClientConfig.apiKey := "GenieKey k1";
               OpsGenieClientConfig.baseUrl := None |})
       = "GenieKey k1".
Proof.
  destruct (authorization_header Sample.config
              (Sample.always (Sample.response_200 Json.JNull))
              "/v2/alerts" Http.no_options)
    as (url & init & sent & Hcalls & Hsent & _ & _ & Hauth & Hct & Hidem).
  exists sent. fold Sample.client in Hcalls. rewrite Hcalls. cbn [map Http.call_init].
  rewrite Hsent. split; [reflexivity|].
  split; [exact (Hauth eq_refl)|]. split; [exact (Hct eq_refl)|].
  exact (Hidem eq_refl).
Defined.

(** ** The handlers: what [try] and [catch] do *)

Lemma tool_catch (client : OpsGenieClient.t) (remote : Server.Remote)
      (call : Server.ToolCall) :
  Server.callTool client remote call
  = Http.try_catch (Server.tool_try client remote call)
                   (Server.error_result (Server.tool_error_prefix call)).
Proof. destruct call; reflexivity. Qed.

Lemma resource_catch (client : OpsGenieClient.t) (remote : Server.Remote)
      (read : Server.ResourceRead) :
  Server.readResource client remote read
  = Http.try_catch (Server.resource_try client remote read)
                   (Server.rethrow (Server.resource_error_prefix read)).
Proof. destruct read; reflexivity. Qed.

(** Whatever the [try] block of a tool throws, the tool returns a result
    flagged as an error, with one text block. *)
Lemma tool_catches (client : OpsGenieClient.t) (remote : Server.Remote)
      (call : Server.ToolCall) (cs : list Http.FetchCall) (e : Http.thrown) :
  Server.tool_try client remote call = (cs, inl e) ->
  Server.callTool client remote call
  = (cs, inr {| Server.content :=
                  [Server.TextContent
                     (Server.tool_error_prefix call +:+ Http.message_of e)];
                Server.isError := Some true |}).
Proof.
  intros H. rewrite tool_catch, H. cbn. now rewrite app_nil_r.
Qed.

(** What the [try] block of a tool returns, the tool returns. *)
Lemma tool_returns (client : OpsGenieClient.t) (remote : Server.Remote)
      (call : Server.ToolCall) (cs : list Http.FetchCall)
      (result : Server.CallToolResult) :
  Server.tool_try client remote call = (cs, inr result) ->
  Server.callTool client remote call = (cs, inr result).
Proof. intros H. now rewrite tool_catch, H. Qed.

(** Whatever the [try] block of a resource throws, the resource throws an
    error of its own. *)
Lemma resource_rethrows (client : OpsGenieClient.t) (remote : Server.Remote)
      (read : Server.ResourceRead) (cs : list Http.FetchCall) (e : Http.thrown) :
  Server.resource_try client remote read = (cs, inl e) ->
  Server.readResource client remote read
  = (cs, inl (Http.ErrorObject
                (Server.resource_error_prefix read +:+ Http.message_of e))).
Proof.
  intros H. rewrite resource_catch, H. cbn. now rewrite app_nil_r.
Qed.

(** A tool never throws. *)
Lemma tool_never_throws (client : OpsGenieClient.t) (remote : Server.Remote)
      (call : Server.ToolCall) :
  exists result, Http.outcome (Server.callTool client remote call) = inr result.
Proof.
  destruct (Server.tool_try client remote call) as [cs [e|result]] eqn:H.
  - rewrite (tool_catches _ _ _ _ _ H). eauto.
  - rewrite (tool_returns _ _ _ _ _ H). eauto.
Qed.

(** ** C10: a thrown value that is not an [Error] *)

(** C10. When the [try] block of a tool throws [e], the tool returns the
    flagged result whose one text block is the tool's prefix followed by
    the message of [e] if [e] is an instance of [Error], and by the fixed
    text [Unknown error] otherwise: then the text ends with
    [Unknown error] and nothing of the thrown value is in the result. *)
Theorem tool_reports_unknown_error
        (client : OpsGenieClient.t) (remote : Server.Remote)
        (call : Server.ToolCall) (cs : list Http.FetchCall) (e : Http.thrown) :
  Server.tool_try client remote call = (cs, inl e) ->
  exists text,
    Server.callTool client remote call
    = (cs, inr {| Server.content := [Server.TextContent text];
                  Server.isError := Some true |})
    /\ text = Server.tool_error_prefix call
              +:+ match e with
                  | Http.ErrorObject message => message
                  | Http.NonError _ => "Unknown error"
                  end
    /\ (forall v, e = Http.NonError v -> Str.endsWith text "Unknown error").
Proof.
  intros H. eexists. split; [apply tool_catches; exact H|].
  split; [destruct e; reflexivity|].
  intros v ->. cbn. exists (Server.tool_error_prefix call). reflexivity.
Qed.

Lemma tool_reports_unknown_error_witness :
  exists text,
    Server.callTool Sample.client
      (Sample.remote_rejecting (Http.NonError (Json.JStr "socket hang up")))
      (Server.CloseAlert "A1" None)
    = ([ {| Http.call_url :=
              "https://api.opsgenie.com/v2/alerts/A1/close?identifierType=id";
            Http.call_init :=
              OpsGenieClient.fetchOptions Sample.client
                (OpsGenieClient.json_request "POST" (Json.JObj [])) |} ],
       inr {| Server.content := [Server.TextContent text];
              Server.isError := Some true |})
    /\ text = "Error closing alert: " +:+ "Unknown error"
    /\ (forall v,
          Http.NonError (Json.JStr "socket hang up") = Http.NonError v ->
          Str.endsWith text "Unknown error").
Proof.
  apply (tool_reports_unknown_error Sample.client
           (Sample.remote_rejecting (Http.NonError (Json.JStr "socket hang up")))
           (Server.CloseAlert "A1" None)
           [ {| Http.call_url :=
                  "https://api.opsgenie.com/v2/alerts/A1/close?identifierType=id";
                Http.call_init :=
                  OpsGenieClient.fetchOptions Sample.client
                    (OpsGenieClient.json_request "POST" (Json.JObj [])) |} ]
           (Http.NonError (Json.JStr "socket hang up"))).
  reflexivity.
Defined.

(** The [catch] block of a resource does the same with a value that is not
    an [Error], inside the error it throws. *)
Lemma resource_rethrows_unknown_error
      (client : OpsGenieClient.t) (remote : Server.Remote)
      (read : Server.ResourceRead) (cs : list Http.FetchCall) (v : Json.JValue) :
  Server.resource_try client remote read = (cs, inl (Http.NonError v)) ->
  Server.readResource client remote read
  = (cs, inl (Http.ErrorObject
                (Server.resource_error_prefix read +:+ "Unknown error"))).
Proof. intros H. now rewrite (resource_rethrows _ _ _ _ _ H). Qed.

(** ** C2: errors in tools and in resources *)







(** The two handlers against the 404 remote, evaluated. *)
Example get_alert_details_404 :
  Http.outcome (Server.callTool Sample.client Sample.remote_404
                  (Server.GetAlertDetails "A1"))
  = inr {| Server.content :=
             [Server.TextContent
                "Error fetching alert details: OpsGenie API error: 404 Not Found - not found"];
           Server.isError := Some true |}
  /\ Http.outcome (Server.readResource Sample.client Sample.remote_404
                     (Server.AlertDetails "opsgenie://alerts/A1"
                                          (Some (Server.One "A1"))))
     = inl (Http.ErrorObject
              "Failed to fetch alert details: OpsGenie API error: 404 Not Found - not found").
Proof. split; reflexivity. Qed.

(** ** C8: from the tool [get-alert-details] to the resource and back *)

Lemma request_ok {T} (this : OpsGenieClient.t) (fetch : Http.Fetch T)
      (endpoint : string) (options : Http.RequestInit)
      (response : Http.Response T) :
  fetch (OpsGenieClient.this_baseUrl this +:+ endpoint)
        (OpsGenieClient.fetchOptions this options) = inr response ->
  Http.ok response = true ->
  OpsGenieClient.request this fetch endpoint options
  = ([ {| Http.call_url := OpsGenieClient.this_baseUrl this +:+ endpoint;
          Http.call_init := OpsGenieClient.fetchOptions this options |} ],
     Http.json response).
Proof.
  intros Hfetch Hok.
  unfold OpsGenieClient.request, Http.bind, Http.call_fetch.
  rewrite Hfetch, Hok. reflexivity.
Qed.

Lemma or_NA_truthy (m : string) : m <> EmptyString -> Server.or_NA (Some m) = m.
Proof.
  intros H. unfold Server.or_NA, truthy.
  destruct (decide (m = EmptyString)); [contradiction | reflexivity].
Qed.

Lemma formatAlertDetails_message (alert : Alert.t) (m : string) :
  BaseAlert.message (Alert.base alert) = Some m -> m <> EmptyString ->
  Str.includes (Server.formatAlertDetails alert) m.
Proof.
  intros Hm Hne. unfold Server.formatAlertDetails. rewrite Hm, or_NA_truthy by assumption.
  do 6 apply includes_append_l. apply includes_append_r, includes_refl.
Qed.

Lemma unreserved_is_segment_byte (a : ascii) :
  Uri.uri_unreserved a = true ->
  Str.ascii_eqb a "/" || Str.ascii_eqb a "," = false.
Proof. each_byte a; intros H; try discriminate H; reflexivity. Qed.

Lemma take_segment_unreserved (s : string) :
  Uri.all_unreserved s = true -> Server.take_segment s = (s, EmptyString).
Proof.
  induction s as [|a s IH]; [reflexivity|].
  cbn [Uri.all_unreserved Server.take_segment]. intros H.
  apply andb_true_iff in H as [Ha Hs].
  rewrite (unreserved_is_segment_byte a Ha), (IH Hs). reflexivity.
Qed.

Lemma resolve_alert_details_link (identifier : string) :
  Uri.is_plain identifier = true ->
  Server.resolve_alert_details ("opsgenie://alerts/" +:+ identifier)
  = Some (Server.AlertDetails ("opsgenie://alerts/" +:+ identifier)
                              (Some (Server.One identifier))).
Proof.
  intros H. unfold Uri.is_plain in H. apply andb_true_iff in H as [Hne Hall].
  apply negb_true_iff, bool_decide_eq_false in Hne.
  unfold Server.resolve_alert_details, Server.match_template.
  change (Str.strip_prefix "opsgenie://alerts/" ("opsgenie://alerts/" +:+ identifier))
    with (Some identifier).
  cbn beta iota. rewrite (take_segment_unreserved identifier Hall).
  rewrite bool_decide_eq_true_2 by assumption.
  rewrite bool_decide_eq_true_2 by reflexivity. reflexivity.
Qed.

(** C8. Let the remote answer every request with one successful response
    whose JSON body is a document of the alert [identifier], with a
    message [m] that is not empty, and let [identifier] be made of
    characters that need no escaping. Then the tool registered as
    [get-alert-details], called with [identifier], returns a text block
    that holds [m] and a link to the resource
    [opsgenie://alerts/<identifier>]; the template of the [alert-details]
    resource resolves that URI to a read whose variable is [identifier]
    again, from which the resource handler takes [identifier] and issues
    the very request the tool issued. *)
Theorem get_alert_details_round_trip
        (client : OpsGenieClient.t) (remote : Server.Remote)
        (identifier : string) (response : Http.Response GetAlertResponse.t)
        (document : GetAlertResponse.t) (m : string) :
  (forall url init, Server.fetch_alert remote url init = inr response) ->
  Http.ok response = true ->
  Http.json response = inr document ->
  BaseAlert.id (Alert.base (GetAlertResponse.data document)) = identifier ->
  BaseAlert.message (Alert.base (GetAlertResponse.data document)) = Some m ->
  m <> EmptyString ->
  Uri.is_plain identifier = true ->
  Server.tool_name (Server.GetAlertDetails identifier) = "get-alert-details"
  /\ exists cs text uri name description alertId,
      Server.callTool client remote (Server.GetAlertDetails identifier)
      = (cs, inr {| Server.content :=
                      [ Server.TextContent text;
                        Server.ResourceLink uri name description "application/json" ];
                    Server.isError := None |})
      /\ Str.includes text m
      /\ uri = "opsgenie://alerts/" +:+ identifier
      /\ Server.resolve_alert_details uri = Some (Server.AlertDetails uri alertId)
      /\ Server.first_value alertId = Some identifier
      /\ Http.calls (Server.readResource client remote
                       (Server.AlertDetails uri alertId)) = cs
      /\ cs = Http.calls (OpsGenieClient.getAlert client (Server.fetch_alert remote)
                                                  identifier).
Proof.
  intros Hfetch Hok Hjson Hid Hm Hne Hplain.
  split; [reflexivity|].
  assert (Hget :
    OpsGenieClient.getAlert client (Server.fetch_alert remote) identifier
    = ([ {| Http.call_url :=
              OpsGenieClient.this_baseUrl client
              +:+ ("/v2/alerts/" +:+ Uri.encodeURIComponent identifier
                   +:+ "?identifierType=id");
            Http.call_init := OpsGenieClient.fetchOptions client Http.no_options |} ],
       inr document)).
  { unfold OpsGenieClient.getAlert.
    rewrite (request_ok _ _ _ _ response (Hfetch _ _) Hok). now rewrite Hjson. }
  assert (Htruthy : truthy (Some identifier) = Some identifier).
  { unfold truthy. unfold Uri.is_plain in Hplain.
    apply andb_true_iff in Hplain as [Hn _].
    apply negb_true_iff, bool_decide_eq_false in Hn.
    destruct (decide (identifier = EmptyString)); [contradiction | reflexivity]. }
  eexists. exists (Server.formatAlertDetails (GetAlertResponse.data document)).
  exists ("opsgenie://alerts/" +:+ identifier).
  eexists. eexists. exists (Some (Server.One identifier)).
  split; [|split; [|split; [|split; [|split; [|split]]]]].
  - cbn [Server.callTool]. unfold Server.get_alert_details,
      Server.get_alert_details_try.
    rewrite Hget. unfold Http.try_catch, Http.bind, Http.ret.
    rewrite Hid. reflexivity.
  - now apply formatAlertDetails_message.
  - reflexivity.
  - now apply resolve_alert_details_link.
  - reflexivity.
  - cbn [Server.readResource]. unfold Server.alert_details,
      Server.alert_details_try, Server.required.
    cbn [Server.first_value]. rewrite Htruthy, bind_ret, Hget. reflexivity.
  - rewrite Hget. reflexivity.
Qed.

Lemma get_alert_details_round_trip_witness :
  Server.tool_name (Server.GetAlertDetails "A1") = "get-alert-details"
  /\ exists cs text uri name description alertId,
      Server.callTool Sample.client Sample.remote_A1 (Server.GetAlertDetails "A1")
      = (cs, inr {| Server.content :=
                      [ Server.TextContent text;
                        Server.ResourceLink uri name description "application/json" ];
                    Server.isError := None |})
      /\ Str.includes text "Disk full"
      /\ uri = "opsgenie://alerts/" +:+ "A1"
      /\ Server.resolve_alert_details uri = Some (Server.AlertDetails uri alertId)
      /\ Server.first_value alertId = Some "A1"
      /\ Http.calls (Server.readResource Sample.client Sample.remote_A1
                       (Server.AlertDetails uri alertId)) = cs
      /\ cs = Http.calls (OpsGenieClient.getAlert Sample.client
                            (Server.fetch_alert Sample.remote_A1) "A1").
Proof.
  apply (get_alert_details_round_trip Sample.client Sample.remote_A1 "A1"
           (Sample.response_200 Sample.document_A1) Sample.document_A1 "Disk full");
    try reflexivity.
  discriminate.
Defined.

(** The round trip, evaluated: the result of the tool, and the resource
    read its link resolves to. *)
Example get_alert_details_A1 :
  Http.outcome (Server.callTool Sample.client Sample.remote_A1
                  (Server.GetAlertDetails "A1"))
  = inr {| Server.content :=
             [ Server.TextContent
                 (Server.formatAlertDetails Sample.alert_A1);
               Server.ResourceLink "opsgenie://alerts/A1" "Alert A1"
                 "Detailed JSON data for alert A1" "application/json" ];
           Server.isError := None |}
  /\ Server.resolve_alert_details "opsgenie://alerts/A1"
     = Some (Server.AlertDetails "opsgenie://alerts/A1" (Some (Server.One "A1")))
  /\ map Http.call_url
         (Http.calls (Server.readResource Sample.client Sample.remote_A1
                        (Server.AlertDetails "opsgenie://alerts/A1"
                                             (Some (Server.One "A1")))))
     = ["https://api.opsgenie.com/v2/alerts/A1?identifierType=id"].
Proof. repeat split; reflexivity. Qed.

(** ** The calls of [fetch] that a handler makes *)

Lemma calls_bind {A B} (m : Http.M A) (k : A -> Http.M B) :
  Http.calls (Http.bind m k)
  = Http.calls m ++ match Http.outcome m with
                    | inr a => Http.calls (k a)
                    | inl _ => []
                    end.
Proof.
  destruct m as [cs [e|a]]; cbn.
  - now rewrite app_nil_r.
  - destruct (k a). reflexivity.
Qed.

Lemma calls_bind_quiet {A B} (m : Http.M A) (k : A -> Http.M B) :
  Http.calls m = [] -> (forall a, Http.calls (k a) = []) ->
  Http.calls (Http.bind m k) = [].
Proof.
  intros Hm Hk. rewrite calls_bind, Hm.
  destruct (Http.outcome m); [reflexivity | apply Hk].
Qed.

Lemma calls_error_result {A} (m : Http.M A) (handler : Http.thrown -> Http.M A) :
  (forall e, Http.calls (handler e) = []) ->
  Http.calls (Http.try_catch m handler) = Http.calls m.
Proof.
  intros Hh. destruct m as [cs [e|a]]; cbn; [|reflexivity].
  specialize (Hh e). destruct (handler e) as [cs' r]. cbn in *. subst.
  apply app_nil_r.
Qed.

Ltac quiet :=
  repeat first
    [ reflexivity
    | apply calls_bind_quiet; [|intros]
    | match goal with
      | |- context [if ?b then _ else _] => destruct b
      | |- context [match ?x with _ => _ end] => destruct x
      end ].

(** * Further properties *)

(** ** The query strings of [countAlerts] and [getAlertNotes] *)



Lemma getAlertNotes_search_In (params : AlertNotesParams.t) (k v : string) :
  In (k, v) (OpsGenieClient.getAlertNotes_search params)
  <-> (k = "offset"
       /\ exists o, AlertNotesParams.offset params = Some o
                    /\ v = OpsGenieClient.String_of_offset o)
      \/ (k = "direction"
          /\ AlertNotesParams.direction params = Some v /\ v <> EmptyString)
      \/ (k = "limit"
          /\ exists n, AlertNotesParams.limit params = Some n
                       /\ v = Number.toString n)
      \/ (k = "order" /\ AlertNotesParams.order params = Some v /\ v <> EmptyString)
      \/ (k = "identifierType" /\ v = "id").
Proof.
  unfold OpsGenieClient.getAlertNotes_search, Uri.append.
  rewrite in_app_iff, !In_append_when, !truthy_Some, !toString_Some. cbn [In].
  assert (Hoff : OpsGenieClient.String_of_offset <$> AlertNotesParams.offset params
                 = Some v
                 <-> exists o, AlertNotesParams.offset params = Some o
                               /\ v = OpsGenieClient.String_of_offset o).
  { destruct (AlertNotesParams.offset params) as [o|]; cbn.
    - split; [intros [= <-]; eauto | intros (o' & [= <-] & ->); reflexivity].
    - split; [discriminate | intros (o' & H & _); discriminate]. }
  rewrite Hoff.
  split.
  - intros [[[[[[] | [<- H]] | [<- H]] | [<- H]] | [<- H]] | [[= <- <-] | []]];
      tauto.
  - intros [[-> H] | [[-> H] | [[-> H] | [[-> H] | [-> ->]]]]]; tauto.
Qed.

(** X2. On a client whose base URL has no query or fragment of its own,
    for an identifier and parameter strings without a lone surrogate,
    [getAlertNotes] issues one GET without a body to
    [/v2/alerts/<encoded identifier>/notes] whose query string holds
    [identifierType=id] always, [offset] and [limit] whenever they are
    defined (an offset given as the empty string included, a zero limit
    included), a number as [String] prints it, and [direction] and [order]
    when they are defined and not empty; it holds nothing else. *)
Theorem getAlertNotes_query_string
        (this : OpsGenieClient.t) (fetch : Http.Fetch ListAlertNotesResponse.t)
        (identifier : string) (params : AlertNotesParams.t) :
  OpsGenieClient.plain_base this = true ->
  Utf8.well_formed identifier = true ->
  AlertNotesParams.well_formed params = true ->
  exists url init,
    Http.calls (Method.getAlertNotes this fetch identifier params)
    = [ {| Http.call_url := url; Http.call_init := init |} ]
    /\ Http.wire_method init = "GET"
    /\ Http.wire_body init = None
    /\ Uri.url_path_part url
       = OpsGenieClient.this_baseUrl this +:+ "/v2/alerts/"
         +:+ Uri.encodeURIComponent identifier +:+ "/notes"
    /\ Uri.decodeURIComponent (Uri.encodeURIComponent identifier)
       = Some identifier
    /\ forall k v : string,
         In (k, v) (Uri.searchParams url)
         <-> (k = "offset"
              /\ exists o, AlertNotesParams.offset params = Some o
                           /\ v = OpsGenieClient.String_of_offset o)
             \/ (k = "direction"
                 /\ AlertNotesParams.direction params = Some v
                 /\ v <> EmptyString)
             \/ (k = "limit"
                 /\ exists n, AlertNotesParams.limit params = Some n
                              /\ v = Number.toString n)
             \/ (k = "order"
                 /\ AlertNotesParams.order params = Some v /\ v <> EmptyString)
             \/ (k = "identifierType" /\ v = "id").
Proof.
  intros Hb Hwf _. rewrite getAlertNotes_encodes by assumption.
  unfold OpsGenieClient.getAlertNotes. rewrite request_calls.
  eexists. eexists. split; [reflexivity|]. split; [reflexivity|].
  split; [reflexivity|]. cbn [Http.call_url]. split; [|split].
  - set (q := Uri.toString (OpsGenieClient.getAlertNotes_search params)).
    replace ("/v2/alerts/" +:+ Uri.encodeURIComponent identifier +:+ "/notes?" +:+ q)
      with (("/v2/alerts/" +:+ Uri.encodeURIComponent identifier +:+ "/notes")
            +:+ String "?" q)
      by now rewrite !append_assoc.
    destruct (client_url_parts this
                ("/v2/alerts/" +:+ Uri.encodeURIComponent identifier +:+ "/notes") q Hb)
      as [Hpath _].
    + apply alert_path_clean; [reflexivity | discriminate | reflexivity].
    + apply alert_path_clean; [reflexivity | discriminate | reflexivity].
    + apply toString_clean. now left.
    + exact Hpath.
  - now apply decode_encoded.
  - intros k v. rewrite getAlertNotes_searchParams by assumption.
    apply getAlertNotes_search_In.
Qed.

Lemma getAlertNotes_query_string_witness :
  exists url init,
    Http.calls (Method.getAlertNotes Sample.client
                  (Sample.always Sample.response_404) "A 1" Fixture.notes_page)
    = [ {| Http.call_url := url; Http.call_init := init |} ]
    /\ Http.wire_method init = "GET"
    /\ Http.wire_body init = None
    /\ Uri.url_path_part url = "https://api.opsgenie.com/v2/alerts/A%201/notes"
    /\ Uri.decodeURIComponent "A%201" = Some "A 1"
    /\ forall k v : string,
         In (k, v) (Uri.searchParams url)
         <-> In (k, v) [("offset", "abc=1&x"); ("direction", "next");
                        ("limit", "30"); ("identifierType", "id")].
Proof.
  destruct (getAlertNotes_query_string Sample.client
              (Sample.always Sample.response_404) "A 1" Fixture.notes_page
              eq_refl eq_refl eq_refl)
    as (url & init & Hcalls & Hmethod & Hbody & Hpath & Hdecode & Hpairs).
  exists url, init. split; [exact Hcalls|]. split; [exact Hmethod|].
  split; [exact Hbody|]. split; [exact Hpath|]. split; [exact Hdecode|].
  intros k v. rewrite (Hpairs k v). cbn. split.
  - intros [(-> & o & [= <-] & ->) | [(-> & [= <-] & _)
      | [(-> & n & [= <-] & ->) | [(_ & [= <-] & H) | (-> & ->)]]]];
      try (now contradict H); auto 10.
  - intros [[= <- <-] | [[= <- <-] | [[= <- <-] | [[= <- <-] | []]]]].
    + left. split; [reflexivity|]. now exists (inl "abc=1&x").
    + right. left. repeat split. discriminate.
    + do 2 right. left. split; [reflexivity|]. now exists (Number.of_Z 30).
    + do 4 right. now split.
Defined.

(** The URL issued for [Fixture.notes_page]. *)
Example getAlertNotes_page_url :
  map Http.call_url
      (Http.calls (Method.getAlertNotes Sample.client
                     (Sample.always Sample.response_404) "A1" Fixture.notes_page))
  = ["https://api.opsgenie.com/v2/alerts/A1/notes?offset=abc%3D1%26x&direction=next&limit=30&identifierType=id"].
Proof. reflexivity. Qed.

(** ** A request determines the alert and the note it was made for *)

Lemma requests_determine_the_alert
      (this : OpsGenieClient.t) (remote : Server.Remote)
      (i1 i2 : string) (op : Operations.AlertOperation) :
  Operations.requests this remote i1 op = Operations.requests this remote i2 op ->
  i1 = i2.
Proof.
  destruct op; cbn [Operations.requests];
    unfold OpsGenieClient.getAlert, OpsGenieClient.getAlertNotes,
           OpsGenieClient.closeAlert, OpsGenieClient.acknowledgeAlert,
           OpsGenieClient.unacknowledgeAlert, OpsGenieClient.snoozeAlert,
           OpsGenieClient.assignAlert, OpsGenieClient.escalateAlert,
           OpsGenieClient.addNoteToAlert, OpsGenieClient.addTagsToAlert,
           OpsGenieClient.removeTagsFromAlert, OpsGenieClient.action_endpoint;
    rewrite !request_calls; intros [= H];
    apply append_cancel_l, (append_cancel_l "/v2/alerts/"), append_cancel_r in H;
    now apply encodeURIComponent_injective.
Qed.

Lemma requests_one (this : OpsGenieClient.t) (remote : Server.Remote)
      (identifier : string) (op : Operations.AlertOperation) :
  exists call, Operations.requests this remote identifier op = [call].
Proof.
  destruct op; cbn [Operations.requests];
    unfold OpsGenieClient.getAlert, OpsGenieClient.getAlertNotes,
           OpsGenieClient.closeAlert, OpsGenieClient.acknowledgeAlert,
           OpsGenieClient.unacknowledgeAlert, OpsGenieClient.snoozeAlert,
           OpsGenieClient.assignAlert, OpsGenieClient.escalateAlert,
           OpsGenieClient.addNoteToAlert, OpsGenieClient.addTagsToAlert,
           OpsGenieClient.removeTagsFromAlert;
    rewrite request_calls; eauto.
Qed.

(** X3. When one of the eleven operations on an alert issues the same
    requests for two identifiers, the identifiers are the same, or both
    hold a lone surrogate and nothing was issued for either: the identifier
    can be read back from a request. *)
Theorem operations_determine_the_alert
        (this : OpsGenieClient.t) (remote : Server.Remote)
        (i1 i2 : string) (op : Operations.AlertOperation) :
  Operations.issued this remote i1 op = Operations.issued this remote i2 op ->
  i1 = i2
  \/ (Utf8.well_formed i1 = false /\ Utf8.well_formed i2 = false
      /\ Operations.issued this remote i1 op = []).
Proof.
  destruct (Utf8.well_formed i1) eqn:H1, (Utf8.well_formed i2) eqn:H2.
  - rewrite !issued_encodes by assumption. intros H. left.
    now apply (requests_determine_the_alert this remote i1 i2 op).
  - rewrite (issued_encodes this remote i1) by assumption.
    rewrite (issued_throws this remote i2) by assumption.
    destruct (requests_one this remote i1 op) as [call ->]. discriminate.
  - rewrite (issued_throws this remote i1) by assumption.
    rewrite (issued_encodes this remote i2) by assumption.
    destruct (requests_one this remote i2 op) as [call ->]. discriminate.
  - intros _. right. split; [reflexivity|]. split; [reflexivity|].
    now apply issued_throws.
Qed.

Lemma operations_determine_the_alert_witness :
  "A 1" = "A 1"
  \/ (Utf8.well_formed "A 1" = false /\ Utf8.well_formed "A 1" = false
      /\ Operations.issued Sample.client Sample.remote_A1 "A 1"
           (Operations.CloseAlert (Some "done")) = []).
Proof.
  apply (operations_determine_the_alert Sample.client Sample.remote_A1
           "A 1" "A 1" (Operations.CloseAlert (Some "done"))).
  reflexivity.
Defined.

(** Two identifiers that differ only in how a character is written give
    different requests, and two lone surrogates give none. *)
Example operations_on_close_identifiers :
  map Http.call_url
      (Operations.issued Sample.client Sample.remote_A1 "a/b" Operations.GetAlert)
  = ["https://api.opsgenie.com/v2/alerts/a%2Fb?identifierType=id"]
  /\ map Http.call_url
         (Operations.issued Sample.client Sample.remote_A1 "a%2Fb"
            Operations.GetAlert)
     = ["https://api.opsgenie.com/v2/alerts/a%252Fb?identifierType=id"]
  /\ Operations.issued Sample.client Sample.remote_A1 Sample.lone_surrogate
       Operations.GetAlert = [].
Proof. repeat split; reflexivity. Qed.

Lemma unescape_escape_byte (a : ascii) (t : string) :
  JsonText.unescape (Json.escape_byte a +:+ t) = String a (JsonText.unescape t).
Proof. each_byte a; reflexivity. Qed.

Lemma unescape_escape (s : string) : JsonText.unescape (Json.escape s) = s.
Proof.
  induction s as [|a s IH]; [reflexivity|].
  cbn [Json.escape]. now rewrite unescape_escape_byte, IH.
Qed.

Lemma escape_injective (s t : string) : Json.escape s = Json.escape t -> s = t.
Proof.
  intros H. apply (f_equal JsonText.unescape) in H.
  now rewrite !unescape_escape in H.
Qed.

Lemma note_object_text (n : string) :
  Json.stringify (Json.JObj [("note", Json.JStr n)])
  = ("{" +:+ Json.quote "note" +:+ ":" +:+ Str.dquote)
    +:+ Json.escape n +:+ (Str.dquote +:+ "}").
Proof.
  cbn [Json.stringify map fst snd Str.join]. unfold Json.quote at 2.
  now rewrite !append_assoc.
Qed.

Lemma body_with_note_injective (n1 n2 : option string) :
  Json.stringify (OpsGenieClient.body_with_note [] n1)
  = Json.stringify (OpsGenieClient.body_with_note [] n2) ->
  truthy n1 = truthy n2.
Proof.
  unfold OpsGenieClient.body_with_note.
  destruct (truthy n1) as [a|], (truthy n2) as [b|]; cbn [Json.assign].
  - rewrite !note_object_text. intros H.
    apply append_cancel_l, append_cancel_r, escape_injective in H. now subst.
  - rewrite note_object_text. intros H. discriminate H.
  - rewrite note_object_text. intros H. discriminate H.
  - reflexivity.
Qed.

Lemma encoded_note_actions_determine_the_note
      (this : OpsGenieClient.t) (fetch : Http.Fetch Json.JValue)
      (i1 i2 action : string) (n1 n2 : option string) :
  Http.calls (OpsGenieClient.request this fetch
                (OpsGenieClient.action_endpoint i1 action)
                (OpsGenieClient.json_request "POST"
                   (OpsGenieClient.body_with_note [] n1)))
  = Http.calls (OpsGenieClient.request this fetch
                  (OpsGenieClient.action_endpoint i2 action)
                  (OpsGenieClient.json_request "POST"
                     (OpsGenieClient.body_with_note [] n2))) ->
  i1 = i2 /\ truthy n1 = truthy n2.
Proof.
  unfold OpsGenieClient.action_endpoint. rewrite !request_calls.
  unfold OpsGenieClient.fetchOptions, OpsGenieClient.json_request,
         OpsGenieClient.body_truthy, OpsGenieClient.body_is_string.
  cbn [Http.body Http.method Http.headers negb]. rewrite !andb_false_r.
  intros [= Hurl Hbody]. split.
  - apply append_cancel_l, (append_cancel_l "/v2/alerts/"), append_cancel_r in Hurl.
    now apply encodeURIComponent_injective.
  - now apply body_with_note_injective.
Qed.

Lemma note_action_same_calls
      (this : OpsGenieClient.t) (fetch : Http.Fetch Json.JValue)
      (i1 i2 action : string) (n1 n2 : option string) :
  Utf8.well_formed i1 = true ->
  Http.calls (Method.action this fetch i1 action "POST"
                (OpsGenieClient.body_with_note [] n1))
  = Http.calls (Method.action this fetch i2 action "POST"
                  (OpsGenieClient.body_with_note [] n2)) ->
  i1 = i2 /\ truthy n1 = truthy n2.
Proof.
  intros H1. rewrite (action_encodes this fetch i1) by assumption.
  destruct (Utf8.well_formed i2) eqn:H2.
  - rewrite (action_encodes this fetch i2) by assumption.
    apply encoded_note_actions_determine_the_note.
  - rewrite (action_throws this fetch i2) by assumption.
    rewrite request_calls. discriminate.
Qed.

(** X4. When [closeAlert], [acknowledgeAlert] or [unacknowledgeAlert]
    issues, for an identifier without a lone surrogate, the same request
    as it does for a second call, the two calls name the same alert and
    carry the same note, an empty note counting as none: the note text is
    not altered beyond recovery by the JSON escaping. *)
Theorem note_actions_determine_the_note
        (this : OpsGenieClient.t) (fetch : Http.Fetch Json.JValue)
        (i1 i2 : string) (n1 n2 : option string) :
  Utf8.well_formed i1 = true ->
  Http.calls (Method.closeAlert this fetch i1 n1)
  = Http.calls (Method.closeAlert this fetch i2 n2)
  \/ Http.calls (Method.acknowledgeAlert this fetch i1 n1)
     = Http.calls (Method.acknowledgeAlert this fetch i2 n2)
  \/ Http.calls (Method.unacknowledgeAlert this fetch i1 n1)
     = Http.calls (Method.unacknowledgeAlert this fetch i2 n2) ->
  i1 = i2 /\ truthy n1 = truthy n2.
Proof.
  intros H1.
  unfold Method.closeAlert, Method.acknowledgeAlert, Method.unacknowledgeAlert.
  intros [H | [H | H]]; revert H; now apply note_action_same_calls.
Qed.

Lemma note_actions_determine_the_note_witness :
  "A 1" = "A 1" /\ truthy (Some EmptyString) = truthy None.
Proof.
  apply (note_actions_determine_the_note Sample.client
           (Sample.always (Sample.response_200 (Json.JObj []))) "A 1" "A 1"
           (Some EmptyString) None).
  - reflexivity.
  - left. reflexivity.
Defined.

(** The payloads of two notes that differ only in an escape. *)
Example closeAlert_payloads :
  map (fun call => Http.wire_body (Http.call_init call))
      (Http.calls (Method.closeAlert Sample.client
                     (Sample.always (Sample.response_200 (Json.JObj [])))
                     "A1" (Some "a\b")))
  = [Some ("{" +:+ Str.dquote +:+ "note" +:+ Str.dquote +:+ ":" +:+ Str.dquote
           +:+ "a\\b" +:+ Str.dquote +:+ "}")]
  /\ map (fun call => Http.wire_body (Http.call_init call))
         (Http.calls (Method.closeAlert Sample.client
                        (Sample.always (Sample.response_200 (Json.JObj [])))
                        "A1" (Some "a\\b")))
     = [Some ("{" +:+ Str.dquote +:+ "note" +:+ Str.dquote +:+ ":" +:+ Str.dquote
              +:+ "a\\\\b" +:+ Str.dquote +:+ "}")].
Proof. split; reflexivity. Qed.

(** ** [decodeURIComponent] after [encodeURIComponent] *)

(** X5. For every string that is well-formed UTF-8,
    [decodeURIComponent(encodeURIComponent(s))] succeeds and gives [s]
    back. *)
Theorem decodeURIComponent_encodeURIComponent (s : string) :
  Utf8.well_formed s = true ->
  Uri.decodeURIComponent (Uri.encodeURIComponent s) = Some s.
Proof.
  intros Hwf. unfold Uri.decodeURIComponent.
  rewrite escaped_bytes_encode. cbn [mbind option_bind].
  rewrite (utf8_groups_escaped (length (list_ascii_of_string s))) by (lia || exact Hwf).
  now rewrite string_of_list_ascii_of_string.
Qed.

Lemma decodeURIComponent_encodeURIComponent_witness :
  Uri.decodeURIComponent (Uri.encodeURIComponent "tag:db AND status:open/é?&=")
  = Some "tag:db AND status:open/é?&=".
Proof.
  apply (decodeURIComponent_encodeURIComponent "tag:db AND status:open/é?&=").
  reflexivity.
Defined.

(** ** From the link of [search-alerts] to the [alert-search] resource *)

Lemma encodeURIComponent_not_empty (s : string) :
  s <> EmptyString -> Uri.encodeURIComponent s <> EmptyString.
Proof.
  destruct s as [|a s]; [congruence|]. intros _.
  cbn [Uri.encodeURIComponent].
  destruct (Uri.uri_unreserved a); discriminate.
Qed.

Lemma truthy_not_empty (s : string) : s <> EmptyString -> truthy (Some s) = Some s.
Proof.
  intros H. unfold truthy. destruct (decide (s = EmptyString)); [contradiction|].
  reflexivity.
Qed.

(** X6. The tool [search-alerts] links to
    [opsgenie://search?query=<encodeURIComponent(query)>]. For a query
    that is not empty and is well-formed UTF-8, the [alert-search]
    resource, given that encoded value, decodes it and issues exactly the
    request the tool issues with its default limit: one GET for
    [query=<query>] and [limit=20]. *)
Theorem search_link_reads_the_same_search
        (client : OpsGenieClient.t) (remote : Server.Remote)
        (href query : string) :
  query <> EmptyString ->
  Utf8.well_formed query = true ->
  Http.calls (Server.readResource client remote
                (Server.AlertSearch href
                   (Some (Server.One (Uri.encodeURIComponent query)))))
  = Http.calls (Server.callTool client remote (Server.SearchAlerts query None))
  /\ Http.calls (Server.callTool client remote (Server.SearchAlerts query None))
     = [ {| Http.call_url :=
              OpsGenieClient.this_baseUrl client +:+ "/v2/alerts?"
              +:+ Uri.toString [("query", query); ("limit", "20")];
            Http.call_init := OpsGenieClient.fetchOptions client Http.no_options |} ].
Proof.
  intros Hne Hwf.
  assert (Htool :
    Http.calls (Server.callTool client remote (Server.SearchAlerts query None))
    = [ {| Http.call_url :=
             OpsGenieClient.this_baseUrl client +:+ "/v2/alerts?"
             +:+ Uri.toString [("query", query); ("limit", "20")];
           Http.call_init := OpsGenieClient.fetchOptions client Http.no_options |} ]).
  { rewrite tool_catch, calls_error_result by reflexivity.
    cbn [Server.tool_try]. unfold Server.search_alerts_try, OpsGenieClient.searchAlerts.
    rewrite calls_bind, request_calls.
    unfold OpsGenieClient.searchAlerts_search. cbn [AlertSearchParams.query
      AlertSearchParams.searchIdentifier AlertSearchParams.searchIdentifierType
      AlertSearchParams.offset AlertSearchParams.limit AlertSearchParams.sort
      AlertSearchParams.order].
    rewrite truthy_not_empty by assumption.
    destruct (Http.outcome _); [reflexivity|]. cbn [app]. f_equal. quiet. }
  split; [|exact Htool]. rewrite Htool.
  rewrite resource_catch, calls_error_result by reflexivity.
  cbn [Server.resource_try]. unfold Server.alert_search_try, Server.required.
  cbn [Server.first_value].
  rewrite truthy_not_empty by now apply encodeURIComponent_not_empty.
  rewrite bind_ret. unfold Server.decode_or_throw, Uri.decodeURIComponent.
  rewrite escaped_bytes_encode. cbn [mbind option_bind].
  rewrite (utf8_groups_escaped (length (list_ascii_of_string query)))
    by (lia || exact Hwf).
  rewrite string_of_list_ascii_of_string, bind_ret.
  unfold OpsGenieClient.searchAlerts. rewrite calls_bind, request_calls.
  unfold OpsGenieClient.searchAlerts_search. cbn [AlertSearchParams.query
    AlertSearchParams.searchIdentifier AlertSearchParams.searchIdentifierType
    AlertSearchParams.offset AlertSearchParams.limit AlertSearchParams.sort
    AlertSearchParams.order].
  rewrite truthy_not_empty by assumption.
  destruct (Http.outcome _); reflexivity.
Qed.

Lemma search_link_reads_the_same_search_witness :
  Http.calls (Server.readResource Sample.client Sample.remote_404
                (Server.AlertSearch "opsgenie://search?query=tag%3Adb"
                   (Some (Server.One (Uri.encodeURIComponent "tag:db")))))
  = Http.calls (Server.callTool Sample.client Sample.remote_404
                  (Server.SearchAlerts "tag:db" None))
  /\ Http.calls (Server.callTool Sample.client Sample.remote_404
                   (Server.SearchAlerts "tag:db" None))
     = [ {| Http.call_url :=
              OpsGenieClient.this_baseUrl Sample.client +:+ "/v2/alerts?"
              +:+ Uri.toString [("query", "tag:db"); ("limit", "20")];
            Http.call_init :=
              OpsGenieClient.fetchOptions Sample.client Http.no_options |} ].
Proof.
  apply (search_link_reads_the_same_search Sample.client Sample.remote_404
           "opsgenie://search?query=tag%3Adb" "tag:db").
  - discriminate.
  - reflexivity.
Defined.

(** ** Resources that fail before any request *)

(** X7. When the variable of the template is missing, is the empty
    string, or is a list whose first element is missing or empty, the
    resources [alert-details], [alert-notes] and [alert-search] throw
    without calling [fetch]; the message is the resource's prefix followed
    by [Alert ID is required] or [Query is required]. *)
Theorem resources_require_their_variable
        (client : OpsGenieClient.t) (remote : Server.Remote)
        (href : string) (variable : option Server.TemplateVariable) :
  variable = None \/ variable = Some (Server.One EmptyString)
  \/ variable = Some (Server.Many [])
  \/ (exists rest, variable = Some (Server.Many (EmptyString :: rest))) ->
  Server.readResource client remote (Server.AlertDetails href variable)
  = ([], inl (Http.ErrorObject
                "Failed to fetch alert details: Alert ID is required"))
  /\ Server.readResource client remote (Server.AlertNotes href variable)
     = ([], inl (Http.ErrorObject
                   "Failed to fetch alert notes: Alert ID is required"))
  /\ Server.readResource client remote (Server.AlertSearch href variable)
     = ([], inl (Http.ErrorObject "Failed to search alerts: Query is required")).
Proof.
  intros [-> | [-> | [-> | [rest ->]]]]; repeat split; reflexivity.
Qed.

Lemma resources_require_their_variable_witness :
  Server.readResource Sample.client Sample.remote_A1
    (Server.AlertDetails "opsgenie://alerts/" (Some (Server.Many [])))
  = ([], inl (Http.ErrorObject
                "Failed to fetch alert details: Alert ID is required"))
  /\ Server.readResource Sample.client Sample.remote_A1
       (Server.AlertNotes "opsgenie://alerts/" (Some (Server.Many [])))
     = ([], inl (Http.ErrorObject
                   "Failed to fetch alert notes: Alert ID is required"))
  /\ Server.readResource Sample.client Sample.remote_A1
       (Server.AlertSearch "opsgenie://alerts/" (Some (Server.Many [])))
     = ([], inl (Http.ErrorObject "Failed to search alerts: Query is required")).
Proof.
  apply (resources_require_their_variable Sample.client Sample.remote_A1
           "opsgenie://alerts/" (Some (Server.Many []))).
  right. right. left. reflexivity.
Defined.

Lemma escaped_bytes_lone_percent (pre : string) :
  Uri.escaped_bytes (pre +:+ "%") = None.
Proof.
  assert (H : forall n (s : string),
             (String.length s <= n)%nat -> Uri.escaped_bytes (s +:+ "%") = None).
  { induction n as [|n IH]; intros s Hlen.
    - destruct s; [reflexivity | cbn in Hlen; lia].
    - destruct s as [|a s]; [reflexivity|].
      cbn [String.append Uri.escaped_bytes].
      destruct (Str.ascii_eqb a "%").
      + destruct s as [|h [|l s]].
        * reflexivity.
        * cbn [String.append]. destruct (Uri.hex_value h); reflexivity.
        * cbn [String.append].
          destruct (Uri.hex_value h), (Uri.hex_value l); try reflexivity.
          rewrite IH by (cbn in Hlen; lia). reflexivity.
      + rewrite IH by (cbn in Hlen; lia). reflexivity. }
  apply (H (String.length pre)). lia.
Qed.

(** X8. A query value that ends in a percent sign with no two digits
    after it is not a valid escape: [decodeURIComponent] throws, and the
    [alert-search] resource throws
    [Failed to search alerts: URI malformed] without calling [fetch]. *)
Theorem alert_search_rejects_a_lone_percent
        (client : OpsGenieClient.t) (remote : Server.Remote)
        (href before : string) :
  Uri.decodeURIComponent (before +:+ "%") = None
  /\ Server.readResource client remote
       (Server.AlertSearch href (Some (Server.One (before +:+ "%"))))
     = ([], inl (Http.ErrorObject "Failed to search alerts: URI malformed")).
Proof.
  assert (Hd : Uri.decodeURIComponent (before +:+ "%") = None).
  { unfold Uri.decodeURIComponent. now rewrite escaped_bytes_lone_percent. }
  split; [exact Hd|].
  cbn [Server.readResource]. unfold Server.alert_search, Server.alert_search_try,
    Server.required. cbn [Server.first_value].
  rewrite truthy_not_empty by (destruct before; discriminate).
  rewrite bind_ret. unfold Server.decode_or_throw. rewrite Hd. reflexivity.
Qed.

(** ** The request line and the payload of each operation on one alert *)

Lemma wire_body_json_request (this : OpsGenieClient.t) (method_ : string)
      (payload : Json.JValue) :
  Http.wire_body (OpsGenieClient.fetchOptions this
                    (OpsGenieClient.json_request method_ payload))
  = Some (Json.stringify payload).
Proof.
  unfold OpsGenieClient.fetchOptions, OpsGenieClient.body_truthy,
         OpsGenieClient.body_is_string, Http.wire_body.
  cbn. now rewrite andb_false_r.
Qed.

Lemma action_path_part (this : OpsGenieClient.t) (identifier action : string) :
  OpsGenieClient.plain_base this = true ->
  Str.has_byte "?" action = false -> Str.has_byte "#" action = false ->
  Uri.url_path_part (OpsGenieClient.this_baseUrl this
                     +:+ OpsGenieClient.action_endpoint identifier action)
  = OpsGenieClient.this_baseUrl this +:+ "/v2/alerts/"
    +:+ Uri.encodeURIComponent identifier +:+ "/" +:+ action.
Proof.
  intros Hb H1 H2. rewrite action_endpoint_split.
  apply client_url_parts; try assumption; try reflexivity.
  - apply alert_path_clean; [reflexivity | discriminate |].
    rewrite has_byte_append, H1. reflexivity.
  - apply alert_path_clean; [reflexivity | discriminate |].
    rewrite has_byte_append, H2. reflexivity.
Qed.

Lemma getAlertNotes_path_part
      (this : OpsGenieClient.t) (identifier : string) (params : AlertNotesParams.t) :
  OpsGenieClient.plain_base this = true ->
  Uri.url_path_part
    (OpsGenieClient.this_baseUrl this
     +:+ ("/v2/alerts/" +:+ Uri.encodeURIComponent identifier +:+ "/notes?"
          +:+ Uri.toString (OpsGenieClient.getAlertNotes_search params)))
  = OpsGenieClient.this_baseUrl this +:+ "/v2/alerts/"
    +:+ Uri.encodeURIComponent identifier +:+ "/notes".
Proof.
  intros Hb.
  set (q := Uri.toString (OpsGenieClient.getAlertNotes_search params)).
  replace ("/v2/alerts/" +:+ Uri.encodeURIComponent identifier +:+ "/notes?" +:+ q)
    with (("/v2/alerts/" +:+ Uri.encodeURIComponent identifier +:+ "/notes")
          +:+ String "?" q)
    by now rewrite !append_assoc.
  apply client_url_parts; try assumption.
  - apply alert_path_clean; [reflexivity | discriminate | reflexivity].
  - apply alert_path_clean; [reflexivity | discriminate | reflexivity].
  - apply toString_clean. now left.
Qed.

Lemma requests_request_line
      (this : OpsGenieClient.t) (remote : Server.Remote)
      (identifier : string) (op : Operations.AlertOperation) :
  OpsGenieClient.plain_base this = true ->
  exists call,
    Operations.requests this remote identifier op = [call]
    /\ Http.wire_method (Http.call_init call) = Endpoints.method_of op
    /\ Uri.url_path_part (Http.call_url call)
       = OpsGenieClient.this_baseUrl this +:+ "/v2/alerts/"
         +:+ Uri.encodeURIComponent identifier +:+ Endpoints.path_suffix op
    /\ Uri.searchParams (Http.call_url call) = Endpoints.query_of op
    /\ Http.wire_body (Http.call_init call)
       = Json.stringify <$> Endpoints.payload_of op.
Proof.
  intros Hb.
  destruct op; cbn [Operations.requests];
    unfold OpsGenieClient.getAlert, OpsGenieClient.getAlertNotes,
           OpsGenieClient.closeAlert, OpsGenieClient.acknowledgeAlert,
           OpsGenieClient.unacknowledgeAlert, OpsGenieClient.snoozeAlert,
           OpsGenieClient.assignAlert, OpsGenieClient.escalateAlert,
           OpsGenieClient.addNoteToAlert, OpsGenieClient.addTagsToAlert,
           OpsGenieClient.removeTagsFromAlert;
    rewrite request_calls; eexists; (split; [reflexivity|]);
    cbn [Http.call_url Http.call_init Endpoints.method_of Endpoints.path_suffix
         Endpoints.query_of Endpoints.payload_of fmap option_fmap option_map].
  - split; [reflexivity|]. split; [|split; [|reflexivity]].
    + rewrite append_nil_r. now apply getAlert_url_parts.
    + now apply getAlert_searchParams.
  - split; [reflexivity|]. split; [|split; [|reflexivity]].
    + now apply getAlertNotes_path_part.
    + now apply getAlertNotes_searchParams.
  - split; [reflexivity|]. split; [|split].
    + now apply action_path_part.
    + now apply action_searchParams.
    + apply wire_body_json_request.
  - split; [reflexivity|]. split; [|split].
    + now apply action_path_part.
    + now apply action_searchParams.
    + apply wire_body_json_request.
  - split; [reflexivity|]. split; [|split].
    + now apply action_path_part.
    + now apply action_searchParams.
    + apply wire_body_json_request.
  - split; [reflexivity|]. split; [|split].
    + now apply action_path_part.
    + now apply action_searchParams.
    + apply wire_body_json_request.
  - split; [reflexivity|]. split; [|split].
    + now apply action_path_part.
    + now apply action_searchParams.
    + apply wire_body_json_request.
  - split; [reflexivity|]. split; [|split].
    + now apply action_path_part.
    + now apply action_searchParams.
    + apply wire_body_json_request.
  - split; [reflexivity|]. split; [|split].
    + now apply action_path_part.
    + now apply action_searchParams.
    + apply wire_body_json_request.
  - split; [reflexivity|]. split; [|split].
    + now apply action_path_part.
    + now apply action_searchParams.
    + apply wire_body_json_request.
  - split; [reflexivity|]. split; [|split].
    + now apply action_path_part.
    + now apply action_searchParams.
    + apply wire_body_json_request.
Qed.

(** X9. On a client whose base URL has no query or fragment of its own,
    each of the eleven operations on one alert, given an identifier
    without a lone surrogate, issues one request whose method is the one
    of the operation (GET, POST, or DELETE for [removeTagsFromAlert]),
    whose path is [/v2/alerts/<encoded identifier>] followed by the fixed
    suffix of the operation, whose query holds [identifierType=id] and, for
    [getAlertNotes] only, the paging parameters before it, and whose
    payload is the JSON text of the operation's object (none for the two
    GETs). The identifier adds no path segment and no query parameter,
    and [decodeURIComponent] reads it back from its segment. Given an
    identifier with a lone surrogate the operation throws a URIError and
    issues nothing. *)
Theorem alert_operations_request_line
        (this : OpsGenieClient.t) (remote : Server.Remote)
        (identifier : string) (op : Operations.AlertOperation) :
  OpsGenieClient.plain_base this = true ->
  Endpoints.query_well_formed op = true ->
  if Utf8.well_formed identifier then
    exists segment call,
      Operations.issued this remote identifier op = [call]
      /\ Http.wire_method (Http.call_init call) = Endpoints.method_of op
      /\ segment = Uri.encodeURIComponent identifier
      /\ Uri.decodeURIComponent segment = Some identifier
      /\ Uri.url_path_part (Http.call_url call)
         = OpsGenieClient.this_baseUrl this +:+ "/v2/alerts/"
           +:+ segment +:+ Endpoints.path_suffix op
      /\ Uri.searchParams (Http.call_url call) = Endpoints.query_of op
      /\ Http.wire_body (Http.call_init call)
         = Json.stringify <$> Endpoints.payload_of op
  else
    Operations.run this remote identifier op
    = ([], inl (Http.ErrorObject "URI malformed")).
Proof.
  intros Hb _. destruct (Utf8.well_formed identifier) eqn:Hwf.
  - rewrite issued_encodes by assumption.
    destruct (requests_request_line this remote identifier op Hb)
      as (call & Hcalls & Hmethod & Hpath & Hquery & Hbody).
    exists (Uri.encodeURIComponent identifier), call.
    split; [exact Hcalls|]. split; [exact Hmethod|]. split; [reflexivity|].
    split; [now apply decode_encoded|]. now repeat split.
  - now apply run_throws.
Qed.

Lemma alert_operations_request_line_witness :
  exists segment call,
    Operations.issued Sample.client Sample.remote_A1 "a/b?c=d#e"
      (Operations.RemoveTagsFromAlert ["x"; "y"] None)
    = [call]
    /\ Http.wire_method (Http.call_init call) = "DELETE"
    /\ segment = "a%2Fb%3Fc%3Dd%23e"
    /\ Uri.decodeURIComponent segment = Some "a/b?c=d#e"
    /\ Uri.url_path_part (Http.call_url call)
       = "https://api.opsgenie.com/v2/alerts/" +:+ segment +:+ "/tags"
    /\ Uri.searchParams (Http.call_url call) = [("identifierType", "id")]
    /\ Http.wire_body (Http.call_init call)
       = Some ("{" +:+ Str.dquote +:+ "tags" +:+ Str.dquote +:+ ":["
               +:+ Str.dquote +:+ "x" +:+ Str.dquote +:+ ","
               +:+ Str.dquote +:+ "y" +:+ Str.dquote +:+ "]}").
Proof.
  exact (alert_operations_request_line Sample.client Sample.remote_A1 "a/b?c=d#e"
           (Operations.RemoveTagsFromAlert ["x"; "y"] None) eq_refl eq_refl).
Defined.

(** ** The key and the base URL of the client *)

Lemma strip_prefix_Some (p s r : string) :
  Str.strip_prefix p s = Some r -> s = p +:+ r.
Proof.
  revert s. induction p as [|a p IH]; intros s H; cbn in H.
  - now injection H as ->.
  - destruct s as [|b s]; [discriminate H|].
    destruct (Str.ascii_eqb a b) eqn:E; [|discriminate H].
    apply Ascii.eqb_eq in E. subst b. cbn. f_equal. now apply IH.
Qed.

Lemma drop_ws_suffix_upto (n : nat) (r : string) :
  (String.length r <= n)%nat -> Str.endsWith r (Str.drop_ws r).
Proof.
  revert r. induction n as [|n IH]; intros r Hlen.
  - destruct r; [exists EmptyString; reflexivity | cbn in Hlen; lia].
  - assert (Hself : forall s : string, Str.endsWith s s)
      by (intros s; exists EmptyString; reflexivity).
    assert (Hcons : forall (p t u : string), Str.endsWith t u -> Str.endsWith (p +:+ t) u)
      by (intros p t u; apply endsWith_append).
    destruct r as [|a [|b [|c r]]]; cbn [Str.drop_ws].
    + apply Hself.
    + destruct (Str.ws1 a); [exists (String a EmptyString); reflexivity | apply Hself].
    + destruct (Str.ws1 a).
      { apply (Hcons (String a EmptyString)), (IH (String b EmptyString)).
        cbn in *. lia. }
      destruct (Str.ws2 a b);
        [exists (String a (String b EmptyString)); reflexivity | apply Hself].
    + destruct (Str.ws1 a).
      { apply (Hcons (String a EmptyString)), (IH (String b (String c r))).
        cbn in *. lia. }
      destruct (Str.ws2 a b).
      { apply (Hcons (String a (String b EmptyString))), (IH (String c r)).
        cbn in *. lia. }
      destruct (Str.ws3 a b c).
      { apply (Hcons (String a (String b (String c EmptyString)))), (IH r).
        cbn in *. lia. }
      apply Hself.
Qed.

(** X10. The constructor never invents key material: the key it keeps is a
    suffix of the configured key. It is the configured key itself unless
    that key starts with [GenieKey] followed by white space, and then it
    is what follows that white space, so it does not start with white
    space. *)
Theorem strip_scheme_keeps_a_suffix (key : string) :
  Str.endsWith key (OpsGenieClient.strip_scheme key)
  /\ (OpsGenieClient.strip_scheme key = key
      \/ exists rest,
           key = "GenieKey" +:+ rest
           /\ Str.starts_with_ws rest = true
           /\ OpsGenieClient.strip_scheme key = Str.drop_ws rest
           /\ Str.starts_with_ws (OpsGenieClient.strip_scheme key) = false).
Proof.
  unfold OpsGenieClient.strip_scheme.
  destruct (Str.strip_prefix "GenieKey" key) as [rest|] eqn:Hp.
  - apply strip_prefix_Some in Hp.
    destruct (Str.starts_with_ws rest) eqn:Hws.
    + split.
      * rewrite Hp. apply endsWith_append.
        apply (drop_ws_suffix_upto (String.length rest)). lia.
      * right. exists rest. repeat split; try assumption. apply drop_ws_done.
    + split; [exists EmptyString; reflexivity | now left].
  - split; [exists EmptyString; reflexivity | now left].
Qed.

(** The handler of a tool, run on its arguments, makes one request. *)
Lemma tool_calls_url (client : OpsGenieClient.t) (remote : Server.Remote)
      (call : Server.ToolCall) :
  exists c rest,
    Http.calls (Server.callTool client remote call) = [c]
    /\ Http.call_url c = OpsGenieClient.this_baseUrl client +:+ "/v2/alerts" +:+ rest.
Proof.
  rewrite tool_catch, calls_error_result by reflexivity.
  destruct call; cbn [Server.tool_try];
    unfold Server.get_alert_details_try, Server.get_alert_notes_try,
           Server.search_alerts_try, Server.close_alert_try,
           Server.acknowledge_alert_try, Server.create_alert_try,
           Server.add_note_to_alert_try, Server.assign_alert_try,
           Server.snooze_alert_try, Server.unacknowledge_alert_try,
           Server.escalate_alert_try, Server.add_tags_to_alert_try,
           Server.remove_tags_from_alert_try, Server.get_alert_count_try,
           Server.with_request_id, Server.result_text,
           OpsGenieClient.getAlert, OpsGenieClient.getAlertNotes,
           OpsGenieClient.searchAlerts, OpsGenieClient.countAlerts,
           OpsGenieClient.createAlert, OpsGenieClient.closeAlert,
           OpsGenieClient.acknowledgeAlert, OpsGenieClient.unacknowledgeAlert,
           OpsGenieClient.snoozeAlert, OpsGenieClient.assignAlert,
           OpsGenieClient.escalateAlert, OpsGenieClient.addNoteToAlert,
           OpsGenieClient.addTagsToAlert, OpsGenieClient.removeTagsFromAlert,
           OpsGenieClient.action_endpoint;
    rewrite calls_bind, request_calls;
    (eexists; eexists; split;
     [ destruct (Http.outcome _); [reflexivity|]; cbn [app]; f_equal; quiet
     | cbn [Http.call_url]; f_equal; cbn [String.append]; reflexivity ]).
Qed.

(** X11. The server starts only with an API key that is set and not
    empty. The client it then builds uses the base URL
    [https://api.opsgenie.com], which has no query or fragment, and sends
    [GenieKey ] followed by the stripped key; no call of a tool makes more
    than one request, and every request a tool makes goes to a URL that
    starts with [https://api.opsgenie.com/v2/alerts]. *)
Theorem server_requests_go_to_opsgenie
        (OPSGENIE_API_KEY : option string) (client : OpsGenieClient.t)
        (remote : Server.Remote) (call : Server.ToolCall) :
  Server.opsgenieClient OPSGENIE_API_KEY = inr client ->
  (exists key,
      OPSGENIE_API_KEY = Some key /\ key <> EmptyString
      /\ OpsGenieClient.authorization client
         = "GenieKey " +:+ OpsGenieClient.strip_scheme key)
  /\ OpsGenieClient.plain_base client = true
  /\ (length (Http.calls (Server.callTool client remote call)) <= 1)%nat
  /\ List.Forall
       (fun c => exists rest,
            Http.call_url c = "https://api.opsgenie.com/v2/alerts" +:+ rest)
       (Http.calls (Server.callTool client remote call)).
Proof.
  unfold Server.opsgenieClient.
  destruct (truthy OPSGENIE_API_KEY) as [key|] eqn:Hkey; [|discriminate].
  intros [= <-]. apply truthy_Some in Hkey as [-> Hne].
  split; [exists key; repeat split; assumption|].
  split; [reflexivity|].
  destruct (tool_calls_url
              (OpsGenieClient.constructor
                 {| OpsGenieClientConfig.apiKey := key;
                    OpsGenieClientConfig.baseUrl := None |}) remote call)
    as (c & rest & Hcalls & Hurl).
  rewrite Hcalls. split; [cbn; lia|].
  constructor; [|constructor]. exists rest. rewrite Hurl. reflexivity.
Qed.

Lemma server_requests_go_to_opsgenie_witness :
  (exists key,
      Some "k1" = Some key /\ key <> EmptyString
      /\ OpsGenieClient.authorization Sample.client
         = "GenieKey " +:+ OpsGenieClient.strip_scheme key)
  /\ OpsGenieClient.plain_base Sample.client = true
  /\ (length (Http.calls (Server.callTool Sample.client Sample.remote_404
                            (Server.GetAlertCount None))) <= 1)%nat
  /\ List.Forall
       (fun c => exists rest,
            Http.call_url c = "https://api.opsgenie.com/v2/alerts" +:+ rest)
       (Http.calls (Server.callTool Sample.client Sample.remote_404
                      (Server.GetAlertCount None))).
Proof.
  apply (server_requests_go_to_opsgenie (Some "k1") Sample.client
           Sample.remote_404 (Server.GetAlertCount None)).
  reflexivity.
Defined.

(** The server does not start without a key. *)
Example server_needs_a_key :
  Server.opsgenieClient None
  = inl (Http.ErrorObject "OPSGENIE_API_KEY environment variable is required")
  /\ Server.opsgenieClient (Some EmptyString)
     = inl (Http.ErrorObject "OPSGENIE_API_KEY environment variable is required").
Proof. split; reflexivity. Qed.

(** ** What the tools send *)

Lemma tool_calls_of_request {T} (client : OpsGenieClient.t) (fetch : Http.Fetch T)
      (endpoint : string) (options : Http.RequestInit)
      (k : T -> Http.M Server.CallToolResult) (prefix : string) :
  (forall a, Http.calls (k a) = []) ->
  Http.calls (Http.try_catch
                (Http.bind (OpsGenieClient.request client fetch endpoint options) k)
                (Server.error_result prefix))
  = [ {| Http.call_url := OpsGenieClient.this_baseUrl client +:+ endpoint;
         Http.call_init := OpsGenieClient.fetchOptions client options |} ].
Proof.
  intros Hk. rewrite calls_error_result by reflexivity.
  rewrite calls_bind, request_calls.
  destruct (Http.outcome _); [reflexivity|]. now rewrite Hk.
Qed.

Lemma In_member {A} (name : string) (f : A -> Json.JValue) (o : option A)
      (k : string) (v : Json.JValue) :
  In (k, v) (Server.member name f o)
  <-> name = k /\ exists a, o = Some a /\ v = f a.
Proof.
  unfold Server.member. destruct o as [a|]; cbn.
  - split.
    + intros [[= <- <-] | []]. eauto.
    + intros [<- (a' & [= <-] & ->)]. now left.
  - split; [intros [] | intros (_ & a & H & _); discriminate].
Qed.

Lemma In_spread_string (name : string) (o : option string)
      (k : string) (v : Json.JValue) :
  In (k, v) (Server.spread_string name o)
  <-> name = k /\ exists d, o = Some d /\ d <> EmptyString /\ v = Json.JStr d.
Proof.
  unfold Server.spread_string. rewrite In_member. split.
  - intros [-> (d & Ht & ->)]. apply truthy_Some in Ht as [-> Hne]. eauto.
  - intros [-> (d & -> & Hne & ->)]. split; [reflexivity|].
    exists d. split; [now apply truthy_not_empty | reflexivity].
Qed.

(** X12. The tool [create-alert] sends one POST to [/v2/alerts] whose
    payload is the JSON text of an object that starts with [message] and
    holds, after it, [description], [alias], [entity], [source] and [note]
    exactly when they are given and not empty, [priority] when it is
    given, and [tags] when it is given, an empty list of tags included. *)
Theorem create_alert_payload
        (client : OpsGenieClient.t) (remote : Server.Remote)
        (message : string) (description : option string)
        (priority : option Server.Priority) (tags : option (list string))
        (alias entity source note : option string) :
  exists c members,
    Http.calls (Server.callTool client remote
                  (Server.CreateAlert message description priority tags
                                      alias entity source note)) = [c]
    /\ Http.call_url c = OpsGenieClient.this_baseUrl client +:+ "/v2/alerts"
    /\ Http.wire_method (Http.call_init c) = "POST"
    /\ Http.wire_body (Http.call_init c) = Some (Json.stringify (Json.JObj members))
    /\ head members = Some ("message", Json.JStr message)
    /\ forall (k : string) (v : Json.JValue),
         In (k, v) members
         <-> (k = "message" /\ v = Json.JStr message)
             \/ (k = "description"
                 /\ exists d, description = Some d /\ d <> EmptyString
                              /\ v = Json.JStr d)
             \/ (k = "priority"
                 /\ exists p, priority = Some p
                              /\ v = Json.JStr (Server.Priority_string p))
             \/ (k = "tags"
                 /\ exists l, tags = Some l /\ v = Json.JArr (map Json.JStr l))
             \/ (k = "alias"
                 /\ exists d, alias = Some d /\ d <> EmptyString /\ v = Json.JStr d)
             \/ (k = "entity"
                 /\ exists d, entity = Some d /\ d <> EmptyString /\ v = Json.JStr d)
             \/ (k = "source"
                 /\ exists d, source = Some d /\ d <> EmptyString /\ v = Json.JStr d)
             \/ (k = "note"
                 /\ exists d, note = Some d /\ d <> EmptyString /\ v = Json.JStr d).
Proof.
  cbn [Server.callTool]. unfold Server.create_alert, Server.create_alert_try,
    OpsGenieClient.createAlert.
  rewrite tool_calls_of_request by (intros; quiet).
  eexists. eexists. split; [reflexivity|]. cbn [Http.call_url Http.call_init].
  split; [reflexivity|]. split; [reflexivity|].
  split; [apply wire_body_json_request|]. split; [reflexivity|].
  intros k v.
  rewrite !in_app_iff, !In_spread_string, !In_member. cbn [In].
  unfold Server.strings.
  split.
  - intros [[[= <- <-] | []] | [[<- H] | [[<- H] | [[<- H] | [[<- H] | [[<- H]
            | [[<- H] | [<- H]]]]]]]]; tauto.
  - intros [[-> ->] | [[-> H] | [[-> H] | [[-> H] | [[-> H] | [[-> H]
            | [[-> H] | [-> H]]]]]]]]; tauto.
Qed.

(** The payload for a message alone, and for empty optional values. *)
Example create_alert_message_only :
  map (fun c => Http.wire_body (Http.call_init c))
      (Http.calls (Server.callTool Sample.client Sample.remote_404
                     (Server.CreateAlert "X" (Some EmptyString) None (Some [])
                                         None None None None)))
  = [Some (Json.stringify
             (Json.JObj [("message", Json.JStr "X"); ("tags", Json.JArr [])]))].
Proof. reflexivity. Qed.

(** X13. On a client whose base URL has no query or fragment of its own,
    for an identifier and a query without a lone surrogate and a limit
    that the input schema accepts (none, or a number from 1 to 100), the
    tools [get-alert-notes] and [search-alerts] ask for 10 notes and 20
    alerts when no limit is given, and for the given limit otherwise, as
    [String] prints it; [get-alert-notes] sends the limit and
    [identifierType=id] only, and [search-alerts] sends the limit and,
    unless it is the empty string, the query. *)
Theorem tools_default_limits
        (client : OpsGenieClient.t) (remote : Server.Remote)
        (identifier query : string) (limit : option Number.t) :
  OpsGenieClient.plain_base client = true ->
  Utf8.well_formed identifier = true ->
  Utf8.well_formed query = true ->
  Server.inputSchema_accepts (Server.GetAlertNotes identifier limit) = true ->
  Server.inputSchema_accepts (Server.SearchAlerts query limit) = true ->
  (exists c,
      Http.calls (Server.callTool client remote
                    (Server.GetAlertNotes identifier limit)) = [c]
      /\ Uri.searchParams (Http.call_url c)
         = [("limit", Number.toString (default (Number.of_Z 10) limit));
            ("identifierType", "id")])
  /\ (exists c,
        Http.calls (Server.callTool client remote
                      (Server.SearchAlerts query limit)) = [c]
        /\ Uri.searchParams (Http.call_url c)
           = (if decide (query = EmptyString) then [] else [("query", query)])
             ++ [("limit", Number.toString (default (Number.of_Z 20) limit))]).
Proof.
  intros Hb _ _ _ _. split.
  - cbn [Server.callTool]. unfold Server.get_alert_notes, Server.get_alert_notes_try,
      OpsGenieClient.getAlertNotes.
    rewrite tool_calls_of_request by (intros; quiet).
    eexists. split; [reflexivity|]. cbn [Http.call_url].
    now rewrite getAlertNotes_searchParams.
  - cbn [Server.callTool]. unfold Server.search_alerts, Server.search_alerts_try,
      OpsGenieClient.searchAlerts.
    rewrite tool_calls_of_request by (intros; quiet).
    eexists. split; [reflexivity|]. cbn [Http.call_url].
    rewrite searchAlerts_searchParams by assumption.
    unfold OpsGenieClient.searchAlerts_search, truthy.
    cbn [AlertSearchParams.query AlertSearchParams.searchIdentifier
         AlertSearchParams.searchIdentifierType AlertSearchParams.offset
         AlertSearchParams.limit AlertSearchParams.sort AlertSearchParams.order].
    destruct (decide (query = EmptyString)); reflexivity.
Qed.

Lemma tools_default_limits_witness :
  (exists c,
      Http.calls (Server.callTool Sample.client Sample.remote_404
                    (Server.GetAlertNotes "A1" None)) = [c]
      /\ Uri.searchParams (Http.call_url c)
         = [("limit", "10"); ("identifierType", "id")])
  /\ (exists c,
        Http.calls (Server.callTool Sample.client Sample.remote_404
                      (Server.SearchAlerts EmptyString None)) = [c]
        /\ Uri.searchParams (Http.call_url c) = [("limit", "20")]).
Proof.
  exact (tools_default_limits Sample.client Sample.remote_404 "A1" EmptyString
           None eq_refl eq_refl eq_refl eq_refl eq_refl).
Defined.

(** The schema accepts the limits 1, 2.5 and 100, and they are sent as
    they print; it rejects 0, 100.5, 101, a negative limit, NaN and
    Infinity. *)
Example limits_of_the_schema :
  map (fun limit =>
         Server.inputSchema_accepts (Server.GetAlertNotes "A1" (Some limit)))
      [Number.of_Z 1; Number.Finite false 25 (-1); Number.of_Z 100;
       Number.Zero; Number.Finite false 1005 (-1); Number.of_Z 101;
       Number.of_Z (-3); Number.NaN; Number.Infinity false]
  = [true; true; true; false; false; false; false; false; false]
  /\ map Http.call_url
         (Http.calls (Server.callTool Sample.client Sample.remote_404
                        (Server.GetAlertNotes "A1"
                           (Some (Number.Finite false 25 (-1))))))
     = ["https://api.opsgenie.com/v2/alerts/A1/notes?limit=2.5&identifierType=id"]
  /\ map Http.call_url
         (Http.calls (Server.callTool Sample.client Sample.remote_404
                        (Server.SearchAlerts "tag:db" (Some (Number.of_Z 100)))))
     = ["https://api.opsgenie.com/v2/alerts?query=tag%3Adb&limit=100"].
Proof. repeat split; reflexivity. Qed.

(** ** What the tools report *)








(** ** What the resources return *)

Lemma bind_ret_returns {A B} (m : Http.M A) (f : A -> B)
      (cs : list Http.FetchCall) (r : B) :
  Http.bind m (fun a => Http.ret (f a)) = (cs, inr r) ->
  exists a, r = f a.
Proof.
  destruct m as [cs' [e|a]]; cbn; [discriminate|].
  intros [= _ <-]. eauto.
Qed.

Lemma resource_try_shape (client : OpsGenieClient.t) (remote : Server.Remote)
      (read : Server.ResourceRead) (cs : list Http.FetchCall)
      (result : Server.ReadResourceResult) :
  Server.resource_try client remote read = (cs, inr result) ->
  exists text,
    Server.contents result
    = [ {| Server.uri := match read with
                         | Server.AlertDetails href _ | Server.AlertNotes href _
                         | Server.AlertSearch href _ | Server.RecentAlerts href =>
                             href
                         end;
           Server.text := text;
           Server.mimeType := "application/json" |} ].
Proof.
  destruct read; cbn [Server.resource_try];
    unfold Server.alert_details_try, Server.alert_notes_try,
           Server.alert_search_try, Server.recent_alerts_try,
           Server.required, Server.decode_or_throw.
  - destruct (truthy _) as [s|]; [rewrite bind_ret | discriminate].
    intros H. apply bind_ret_returns in H as [a ->]. eexists. reflexivity.
  - destruct (truthy _) as [s|]; [rewrite bind_ret | discriminate].
    intros H. apply bind_ret_returns in H as [a ->]. eexists. reflexivity.
  - destruct (truthy _) as [s|]; [rewrite bind_ret | discriminate].
    destruct (Uri.decodeURIComponent s) as [d|]; [rewrite bind_ret | discriminate].
    intros H. apply bind_ret_returns in H as [a ->]. eexists. reflexivity.
  - intros H. apply bind_ret_returns in H as [a ->]. eexists. reflexivity.
Qed.

Lemma resource_try_calls (client : OpsGenieClient.t) (remote : Server.Remote)
      (read : Server.ResourceRead) :
  (length (Http.calls (Server.resource_try client remote read)) <= 1)%nat.
Proof.
  destruct read; cbn [Server.resource_try];
    unfold Server.alert_details_try, Server.alert_notes_try,
           Server.alert_search_try, Server.recent_alerts_try,
           Server.required, Server.decode_or_throw,
           OpsGenieClient.getAlert, OpsGenieClient.getAlertNotes,
           OpsGenieClient.searchAlerts.
  - destruct (truthy _) as [s|]; [rewrite bind_ret | cbn; lia].
    rewrite calls_bind, request_calls. destruct (Http.outcome _); cbn; lia.
  - destruct (truthy _) as [s|]; [rewrite bind_ret | cbn; lia].
    rewrite calls_bind, request_calls. destruct (Http.outcome _); cbn; lia.
  - destruct (truthy _) as [s|]; [rewrite bind_ret | cbn; lia].
    destruct (Uri.decodeURIComponent s) as [d|]; [rewrite bind_ret | cbn; lia].
    rewrite calls_bind, request_calls. destruct (Http.outcome _); cbn; lia.
  - rewrite calls_bind, request_calls. destruct (Http.outcome _); cbn; lia.
Qed.

(** X17. Every read of a resource calls [fetch] at most once, and ends in
    one of two ways: it returns exactly one content entry, with the URI
    that was read and the type [application/json], or it throws an
    [Error] whose message starts with the prefix of the resource. *)
Theorem resource_reads_end_in_one_entry_or_an_error
        (client : OpsGenieClient.t) (remote : Server.Remote)
        (read : Server.ResourceRead) :
  (length (Http.calls (Server.readResource client remote read)) <= 1)%nat
  /\ match Http.outcome (Server.readResource client remote read) with
     | inr result =>
         exists text,
           Server.contents result
           = [ {| Server.uri := match read with
                                | Server.AlertDetails href _
                                | Server.AlertNotes href _
                                | Server.AlertSearch href _
                                | Server.RecentAlerts href => href
                                end;
                  Server.text := text;
                  Server.mimeType := "application/json" |} ]
     | inl e =>
         exists message,
           e = Http.ErrorObject (Server.resource_error_prefix read +:+ message)
     end.
Proof.
  split.
  - rewrite resource_catch, calls_error_result by reflexivity.
    apply resource_try_calls.
  - destruct (Server.resource_try client remote read) as [cs [e|result]] eqn:H.
    + rewrite (resource_rethrows _ _ _ _ _ H). cbn. eauto.
    + rewrite resource_catch, H. cbn.
      exact (resource_try_shape client remote read cs result H).
Qed.

(** ** Lists of notes and of alerts *)

(** X18. Called with an identifier and a query without a lone surrogate
    and a limit the input schema accepts, against a remote that answers
    with success, the tools [get-alert-notes] and [search-alerts] answer an
    empty list with one text block and no link
    ([No notes found for this alert.], [No alerts found matching query:
    "..."]); for a list that is not empty they return a text block and a
    link, to [opsgenie://alerts/<identifier>/notes] with the identifier as
    given, and to [opsgenie://search?query=<encoded query>]. *)
Theorem listing_tools_link_when_not_empty
        (client : OpsGenieClient.t) (remote : Server.Remote)
        (identifier query : string) (limit : option Number.t)
        (notes_response : Http.Response ListAlertNotesResponse.t)
        (notes : ListAlertNotesResponse.t)
        (alerts_response : Http.Response ListAlertsResponse.t)
        (alerts : ListAlertsResponse.t) :
  Utf8.well_formed identifier = true ->
  Utf8.well_formed query = true ->
  Server.inputSchema_accepts (Server.GetAlertNotes identifier limit) = true ->
  Server.inputSchema_accepts (Server.SearchAlerts query limit) = true ->
  (forall url init, Server.fetch_notes remote url init = inr notes_response) ->
  Http.ok notes_response = true ->
  Http.json notes_response = inr notes ->
  (forall url init, Server.fetch_alerts remote url init = inr alerts_response) ->
  Http.ok alerts_response = true ->
  Http.json alerts_response = inr alerts ->
  match ListAlertNotesResponse.data notes with
  | [] =>
      Http.outcome (Server.callTool client remote
                      (Server.GetAlertNotes identifier limit))
      = inr (Server.text_result "No notes found for this alert.")
  | _ :: _ =>
      exists text,
        Http.outcome (Server.callTool client remote
                        (Server.GetAlertNotes identifier limit))
        = inr {| Server.content :=
                   [ Server.TextContent text;
                     Server.ResourceLink
                       ("opsgenie://alerts/" +:+ identifier +:+ "/notes")
                       ("Notes for Alert " +:+ identifier)
                       ("Complete JSON data for notes on alert " +:+ identifier)
                       "application/json" ];
                 Server.isError := None |}
  end
  /\ match ListAlertsResponse.data alerts with
     | [] =>
         Http.outcome (Server.callTool client remote
                         (Server.SearchAlerts query limit))
         = inr (Server.text_result
                  ("No alerts found matching query: " +:+ Str.dquote +:+ query
                   +:+ Str.dquote))
     | _ :: _ =>
         exists text,
           Http.outcome (Server.callTool client remote
                           (Server.SearchAlerts query limit))
           = inr {| Server.content :=
                      [ Server.TextContent text;
                        Server.ResourceLink
                          ("opsgenie://search?query="
                           +:+ Uri.encodeURIComponent query)
                          ("Search Results: " +:+ query)
                          ("Complete JSON data for alerts matching "
                           +:+ Str.dquote +:+ query +:+ Str.dquote)
                          "application/json" ];
                    Server.isError := None |}
     end.
Proof.
  intros _ _ _ _ Hn Hnok Hnjson Ha Haok Hajson.
  cbn [Server.callTool].
  unfold Server.get_alert_notes, Server.get_alert_notes_try, Server.search_alerts,
    Server.search_alerts_try, OpsGenieClient.getAlertNotes,
    OpsGenieClient.searchAlerts.
  rewrite (request_ok _ _ _ _ notes_response (Hn _ _) Hnok), Hnjson.
  rewrite (request_ok _ _ _ _ alerts_response (Ha _ _) Haok), Hajson.
  cbv beta iota delta [Http.outcome Http.try_catch Http.bind Http.ret].
  split.
  - destruct (ListAlertNotesResponse.data notes) as [|n l]; [reflexivity|].
    eexists. reflexivity.
  - destruct (ListAlertsResponse.data alerts) as [|a l]; [reflexivity|].
    eexists. reflexivity.
Qed.

Lemma listing_tools_link_when_not_empty_witness :
  (exists text,
      Http.outcome (Server.callTool Sample.client Fixture.remote_lists
                      (Server.GetAlertNotes "A1" None))
      = inr {| Server.content :=
                 [ Server.TextContent text;
                   Server.ResourceLink
                     "opsgenie://alerts/A1/notes"
                     "Notes for Alert A1"
                     "Complete JSON data for notes on alert A1"
                     "application/json" ];
               Server.isError := None |})
  /\ Http.outcome (Server.callTool Sample.client Fixture.remote_lists
                     (Server.SearchAlerts "tag:db" None))
     = inr (Server.text_result
              ("No alerts found matching query: " +:+ Str.dquote +:+ "tag:db"
               +:+ Str.dquote)).
Proof.
  apply (listing_tools_link_when_not_empty Sample.client Fixture.remote_lists
           "A1" "tag:db" None
           (Sample.response_200 Fixture.one_note) Fixture.one_note
           (Sample.response_200 Fixture.no_alerts) Fixture.no_alerts);
    reflexivity.
Defined.

(** The text for one note. *)
Example get_alert_notes_one_note :
  Http.outcome (Server.callTool Sample.client Fixture.remote_lists
                  (Server.GetAlertNotes "A1" None))
  = inr {| Server.content :=
             [ Server.TextContent
                 ("Notes for alert A1:" +:+ Str.newline +:+ Str.newline
                  +:+ "1. restarted" +:+ Str.newline
                  +:+ "   By: ops@example.com" +:+ Str.newline
                  +:+ "   Created: 2024-01-01T00:00:00Z");
               Server.ResourceLink "opsgenie://alerts/A1/notes"
                 "Notes for Alert A1"
                 "Complete JSON data for notes on alert A1" "application/json" ];
           Server.isError := None |}.
Proof. reflexivity. Qed.

(** ** A request that does not get through *)



(** ** One request for one call of a tool *)

(** X20. A call of a tool whose arguments the input schema accepts and
    whose alert identifier, if it has one, holds no lone surrogate, calls
    [fetch] exactly once, whatever the remote answers: there is no second
    attempt after a failure and no request besides the one of the
    operation.  The headers of that request are the two of [request] and
    no other: [Content-Type] with [application/json], sent with the
    requests that have no body too, and [Authorization] with the value
    computed from the key. *)
Theorem tools_call_fetch_once
        (client : OpsGenieClient.t) (remote : Server.Remote)
        (call : Server.ToolCall) :
  Server.inputSchema_accepts call = true ->
  Server.identifier_encodes call = true ->
  exists c,
    Http.calls (Server.callTool client remote call) = [c]
    /\ Http.headers (Http.call_init c)
       = Some (<["Content-Type" := "application/json"]>
                 (<["Authorization" := OpsGenieClient.authorization client]> ∅)).
Proof.
  intros _ _.
  rewrite tool_catch, calls_error_result by reflexivity.
  destruct call; cbn [Server.tool_try];
    unfold Server.get_alert_details_try, Server.get_alert_notes_try,
           Server.search_alerts_try, Server.close_alert_try,
           Server.acknowledge_alert_try, Server.create_alert_try,
           Server.add_note_to_alert_try, Server.assign_alert_try,
           Server.snooze_alert_try, Server.unacknowledge_alert_try,
           Server.escalate_alert_try, Server.add_tags_to_alert_try,
           Server.remove_tags_from_alert_try, Server.get_alert_count_try,
           Server.with_request_id, Server.result_text,
           OpsGenieClient.getAlert, OpsGenieClient.getAlertNotes,
           OpsGenieClient.searchAlerts, OpsGenieClient.countAlerts,
           OpsGenieClient.createAlert, OpsGenieClient.closeAlert,
           OpsGenieClient.acknowledgeAlert, OpsGenieClient.unacknowledgeAlert,
           OpsGenieClient.snoozeAlert, OpsGenieClient.assignAlert,
           OpsGenieClient.escalateAlert, OpsGenieClient.addNoteToAlert,
           OpsGenieClient.addTagsToAlert, OpsGenieClient.removeTagsFromAlert;
    rewrite calls_bind, request_calls;
    (eexists; split;
     [ destruct (Http.outcome _); [reflexivity|]; cbn [app]; f_equal; quiet
     | cbn [Http.call_init]; unfold OpsGenieClient.fetchOptions;
       cbn [Http.headers]; f_equal; unfold OpsGenieClient.request_headers;
       cbn [Http.headers OpsGenieClient.json_request Http.no_options default];
       apply (left_id_L ∅ (∪)) ]).
Qed.

Lemma tools_call_fetch_once_witness :
  exists c,
    Http.calls (Server.callTool Sample.client Sample.remote_404
                  (Server.GetAlertNotes "A 1" (Some (Number.of_Z 100))))
    = [c]
    /\ Http.call_url c
       = "https://api.opsgenie.com/v2/alerts/A%201/notes?limit=100&identifierType=id"
    /\ Http.headers (Http.call_init c)
       = Some (<["Content-Type" := "application/json"]>
                 (<["Authorization" := "GenieKey k1"]> ∅)).
Proof.
  destruct (tools_call_fetch_once Sample.client Sample.remote_404
              (Server.GetAlertNotes "A 1" (Some (Number.of_Z 100)))
              eq_refl eq_refl)
    as (c & Hcalls & Hheaders).
  exists c. split; [exact Hcalls|]. split; [|exact Hheaders].
  injection Hcalls as <-. reflexivity.
Defined.
